(** * The TypeScript bridge of verifiers-ts, embedded in Rocq

    Sources embedded here:
    - [verifiers-ts/python-bridge/verifiers_ts_loader.py]
      ([load_ts_environment], [TSEnvironmentWrapper._ensure_compiled],
      [TSEnvironmentWrapper._call_ts_method], the local function
      [normalize_tool_calls_in_messages], [TSEnvironmentWrapper.rollout],
      [TSEnvironmentWrapper.evaluate], [load_environment], and the function
      [patched_sanitize_tool_calls] that [_patch_sanitize_tool_calls]
      installs);
    - [verifiers/utils/env_utils.py]
      ([_ensure_ts_bridge_on_path], [_load_ts_environment], [load_environment]);
    - [verifiers-ts/environments/example-generate-text-agent/example_generate_text_agent.py]
      ([load_environment]);
    - [verifiers-ts/python-bridge/sandbox_bridge.py]
      ([create_sandbox], [execute_command], [delete_sandbox],
      [handle_command], [main]).

    Python values are a small inductive type, Python dictionaries are
    association lists in insertion order, text is a Rocq [string] holding
    UTF-8, and the stateful code (file system, subprocesses, the wrapper's
    cached path) runs in a state-and-exception monad over an explicit host
    state.  What the interpreter and the machine decide (the behaviour of
    a subprocess, the name of a temporary file, [json.dumps], the text of
    a value) is a parameter, the record [runtime].  Calls of the logger
    and the echo of a driver's error channel change nothing that is
    modelled and are left out. *)

From Stdlib Require Import ZArith List String Ascii Bool Lia SpecFloat DecimalString.
From stdpp Require Import base gmap strings list fin_maps.

Local Open Scope Z_scope.
Local Set Warnings "-register-all".

(** ** Text *)

Module Text.

(** The double quote, which string literals of this file never contain. *)
Definition dquote : ascii := "034"%char.
Definition backslash : ascii := "092"%char.

(** [q] writes a text with double quotes from a literal that uses
    apostrophes in their place: [q "{'ok':true}"] is the JSON text of the
    object with the one field ok. *)
Fixpoint q (s : string) : string :=
  match s with
  | EmptyString => EmptyString
  | String c r => String (if Ascii.eqb c "'"%char then dquote else c) (q r)
  end.

Definition bytes (l : list nat) : string :=
  fold_right (fun n s => String (ascii_of_nat n) s) EmptyString l.

Definition code (c : ascii) : N := N_of_ascii c.

(** [bool(s)] of a string. *)
Definition nonempty (s : string) : bool :=
  match s with EmptyString => false | _ => true end.

(** The characters [str.strip()] removes (those with [str.isspace()]), each
    in its UTF-8 encoding: U+0009..U+000D, U+001C..U+0020, U+0085, U+00A0,
    U+1680, U+2000..U+200A, U+2028, U+2029, U+202F, U+205F, U+3000. *)
Definition whitespace : list string :=
  map bytes
    [ [9%nat]; [10%nat]; [11%nat]; [12%nat]; [13%nat];
      [28%nat]; [29%nat]; [30%nat]; [31%nat]; [32%nat];
      [194; 133]%nat; [194; 160]%nat; [225; 154; 128]%nat;
      [226; 128; 128]%nat; [226; 128; 129]%nat; [226; 128; 130]%nat;
      [226; 128; 131]%nat; [226; 128; 132]%nat; [226; 128; 133]%nat;
      [226; 128; 134]%nat; [226; 128; 135]%nat; [226; 128; 136]%nat;
      [226; 128; 137]%nat; [226; 128; 138]%nat; [226; 128; 168]%nat;
      [226; 128; 169]%nat; [226; 128; 175]%nat; [226; 129; 159]%nat;
      [227; 128; 128]%nat ].

(** [strip_prefix p s] is the rest of [s] after [p] when [s] starts with
    [p]. *)
Fixpoint strip_prefix (p s : string) : option string :=
  match p, s with
  | EmptyString, _ => Some s
  | String a p', String b s' =>
      if Ascii.eqb a b then strip_prefix p' s' else None
  | String _ _, EmptyString => None
  end.

Fixpoint drop_one (tokens : list string) (s : string) : option string :=
  match tokens with
  | [] => None
  | t :: ts =>
      match strip_prefix t s with
      | Some r => Some r
      | None => drop_one ts s
      end
  end.

Fixpoint drop_leading (tokens : list string) (fuel : nat) (s : string) : string :=
  match fuel with
  | O => s
  | S fuel' =>
      match drop_one tokens s with
      | Some r => drop_leading tokens fuel' r
      | None => s
      end
  end.

Definition lstrip (s : string) : string :=
  drop_leading whitespace (String.length s) s.

Definition rstrip (s : string) : string :=
  String.rev
    (drop_leading (map String.rev whitespace) (String.length s) (String.rev s)).

(** [s.strip()] *)
Definition strip (s : string) : string := rstrip (lstrip s).

(** [s.startswith(p)] *)
Definition startswith (p s : string) : bool :=
  match strip_prefix p s with Some _ => true | None => false end.

(** [s.find(c)] for a one-character [c] of the ASCII range: the offset of
    its first occurrence, [-1] when there is none.  Offsets count bytes
    of the UTF-8 text; the code only passes them back to a slice. *)
Fixpoint find_from (c : ascii) (s : string) (i : Z) : Z :=
  match s with
  | EmptyString => -1
  | String a r => if Ascii.eqb a c then i else find_from c r (i + 1)
  end.

Definition find (c : ascii) (s : string) : Z := find_from c s 0.

Fixpoint drop (n : nat) (s : string) : string :=
  match n, s with
  | O, _ => s
  | S n', String _ r => drop n' r
  | S _, EmptyString => EmptyString
  end.

(** [s[i:]] for an offset returned by [find]. *)
Definition slice_from (i : Z) (s : string) : string :=
  if i <? 0
  then drop (Z.to_nat (Z.of_nat (String.length s) + i)) s
  else drop (Z.to_nat i) s.

(** A byte that continues a UTF-8 sequence (10xxxxxx). *)
Definition continuation (c : ascii) : bool :=
  (128 <=? code c)%N && (code c <? 192)%N.

(** [s[:n]]: the first [n] characters, a character being a lead byte with
    the continuation bytes that follow it. *)
Fixpoint take_chars (n : nat) (s : string) : string :=
  match s with
  | EmptyString => EmptyString
  | String c r =>
      if continuation c then String c (take_chars n r)
      else match n with
           | O => EmptyString
           | S n' => String c (take_chars n' r)
           end
  end.

(** [s.split(sep)] for a one-character separator. *)
Fixpoint split_go (sep : ascii) (s : string) (cur : string) : list string :=
  match s with
  | EmptyString => [String.rev cur]
  | String c r =>
      if Ascii.eqb c sep then String.rev cur :: split_go sep r EmptyString
      else split_go sep r (String c cur)
  end.

Definition split (sep : ascii) (s : string) : list string :=
  split_go sep s EmptyString.

(** [s.replace(a, b)] for one-character [a] and [b]. *)
Fixpoint replace (a b : ascii) (s : string) : string :=
  match s with
  | EmptyString => EmptyString
  | String c r => String (if Ascii.eqb c a then b else c) (replace a b r)
  end.

(** The characters of a text, one string per character. *)
Fixpoint chars_go (s : string) (cur : string) : list string :=
  match s with
  | EmptyString =>
      match cur with EmptyString => [] | _ => [String.rev cur] end
  | String c r =>
      if continuation c then chars_go r (String c cur)
      else match cur with
           | EmptyString => chars_go r (String c EmptyString)
           | _ => String.rev cur :: chars_go r (String c EmptyString)
           end
  end.

Definition chars (s : string) : list string := chars_go s EmptyString.

Definition newline : ascii := "010"%char.
Definition nl : string := String newline EmptyString.

End Text.

(** ** Python values *)

(** The values the bridge handles: what [json.loads] builds ([None], booleans,
    integers, floats, strings, lists, dictionaries with string keys), tuples
    ([rollout] returns one), and opaque host objects ([PObj]), which have a
    class name and may expose [model_dump()] returning a dictionary, as
    Pydantic models do.  A dictionary is the list of its entries in insertion
    order. *)
Inductive pyval : Type :=
| PNone
| PBool (b : bool)
| PInt (n : Z)
| PFloat (f : spec_float)
| PStr (s : string)
| PList (items : list pyval)
| PTuple (items : list pyval)
| PDict (entries : list (string * pyval))
| PObj (cls : string) (model_dump : option (list (string * pyval))).

Abbreviation dict := (list (string * pyval)).

Module Py.

(** [d.get(k)], [None] of Rocq standing for the missing key. *)
Fixpoint get (k : string) (d : dict) : option pyval :=
  match d with
  | [] => None
  | (k', v) :: r => if String.eqb k' k then Some v else get k r
  end.

(** [d[k] = v]: an existing key keeps its place, a new one goes last. *)
Fixpoint set (k : string) (v : pyval) (d : dict) : dict :=
  match d with
  | [] => [(k, v)]
  | (k', v') :: r =>
      if String.eqb k' k then (k', v) :: r else (k', v') :: set k v r
  end.

(** [dict(pairs)] *)
Definition of_pairs (pairs : list (string * pyval)) : dict :=
  fold_left (fun d kv => set (fst kv) (snd kv) d) pairs [].

(** [bool(v)] *)
Definition truthy (v : pyval) : bool :=
  match v with
  | PNone => false
  | PBool b => b
  | PInt n => negb (n =? 0)
  | PFloat (S754_zero _) => false
  | PFloat _ => true
  | PStr s => Text.nonempty s
  | PList [] | PTuple [] | PDict [] => false
  | PList _ | PTuple _ | PDict _ => true
  | PObj _ _ => true
  end.

(** [a or b] *)
Definition or_else (a b : pyval) : pyval := if truthy a then a else b.

(** Equality of Python values as [==] decides it on JSON data of one
    shape: dictionaries are compared as mappings, whatever the order of
    their entries; everything else structurally. *)
Fixpoint eqb (a b : pyval) {struct a} : bool :=
  match a, b with
  | PNone, PNone => true
  | PBool x, PBool y => Bool.eqb x y
  | PInt x, PInt y => x =? y
  | PFloat x, PFloat y =>
      match SFcompare x y with Some Eq => true | _ => false end
  | PStr x, PStr y => String.eqb x y
  | PList xs, PList ys | PTuple xs, PTuple ys =>
      (fix go (xs ys : list pyval) : bool :=
         match xs, ys with
         | [], [] => true
         | x :: xs', y :: ys' => eqb x y && go xs' ys'
         | _, _ => false
         end) xs ys
  | PDict d, PDict e =>
      (length d =? length e)%nat &&
      (fix go (d : dict) : bool :=
         match d with
         | [] => true
         | (k, v) :: d' =>
             match get k e with
             | Some w => eqb v w && go d'
             | None => false
             end
         end) d
  | _, _ => false
  end.

End Py.

(** ** The JSON decoder ([json.loads]) *)

Module Json.

Import Text.

Definition is_ws (c : ascii) : bool :=
  match c with
  | " "%char | "009"%char | "010"%char | "013"%char => true
  | _ => false
  end.

Fixpoint skip_ws (s : string) : string :=
  match s with
  | String c r => if is_ws c then skip_ws r else s
  | EmptyString => s
  end.

Definition is_digit (c : ascii) : bool :=
  (48 <=? code c)%N && (code c <=? 57)%N.

Definition hexval (c : ascii) : option N :=
  let n := code c in
  if (48 <=? n)%N && (n <=? 57)%N then Some (n - 48)%N
  else if (97 <=? n)%N && (n <=? 102)%N then Some (n - 87)%N
  else if (65 <=? n)%N && (n <=? 70)%N then Some (n - 55)%N
  else None.

Definition hex4 (a b c d : ascii) : option N :=
  match hexval a, hexval b, hexval c, hexval d with
  | Some x, Some y, Some z, Some w => Some (((x * 16 + y) * 16 + z) * 16 + w)%N
  | _, _, _, _ => None
  end.

Definition byte (n : N) : ascii := ascii_of_N n.

(** The UTF-8 encoding of a code point (lone surrogates, which Python
    strings may hold, are encoded like any three-byte character). *)
Definition utf8 (cp : N) : list ascii :=
  if (cp <? 128)%N then [byte cp]
  else if (cp <? 2048)%N then
    [byte (192 + cp / 64); byte (128 + cp mod 64)]
  else if (cp <? 65536)%N then
    [byte (224 + cp / 4096); byte (128 + (cp / 64) mod 64);
     byte (128 + cp mod 64)]
  else
    [byte (240 + cp / 262144); byte (128 + (cp / 4096) mod 64);
     byte (128 + (cp / 64) mod 64); byte (128 + cp mod 64)].

Definition push (cs : list ascii) (acc : string) : string :=
  fold_left (fun a c => String c a) cs acc.

Definition unescape (e : ascii) : option ascii :=
  match e with
  | "034"%char => Some dquote
  | "092"%char => Some backslash
  | "/"%char => Some "/"%char
  | "b"%char => Some "008"%char
  | "f"%char => Some "012"%char
  | "n"%char => Some "010"%char
  | "r"%char => Some "013"%char
  | "t"%char => Some "009"%char
  | _ => None
  end.

Definition high_surrogate (n : N) : bool := (55296 <=? n)%N && (n <=? 56319)%N.
Definition low_surrogate (n : N) : bool := (56320 <=? n)%N && (n <=? 57343)%N.

(** The low surrogate escape at the head of [s], if there is one. *)
Definition low_escape (s : string) : option N :=
  match s with
  | String "092"%char (String "u"%char
      (String a (String b (String c (String d _))))) =>
      match hex4 a b c d with
      | Some n => if low_surrogate n then Some n else None
      | None => None
      end
  | _ => None
  end.

(** [py_scanstring] in strict mode, from just after the opening quote:
    the decoded string and the text after the closing quote.  [acc] is the
    decoded text so far, reversed. *)
Fixpoint scanstring (s : string) (acc : string) : option (string * string) :=
  match s with
  | EmptyString => None
  | String c r =>
      if Ascii.eqb c dquote then Some (String.rev acc, r)
      else if Ascii.eqb c backslash then
        match r with
        | EmptyString => None
        | String e r1 =>
            if Ascii.eqb e "u"%char then
              match r1 with
              | String h1 (String h2 (String h3 (String h4 r2))) =>
                  match hex4 h1 h2 h3 h4 with
                  | None => None
                  | Some hi =>
                      match (if high_surrogate hi then low_escape r2 else None), r2 with
                      | Some lo, String _ (String _ (String _ (String _ (String _ (String _ r3))))) =>
                          scanstring r3
                            (push (utf8 (65536 + (hi - 55296) * 1024 + (lo - 56320))%N) acc)
                      | _, _ => scanstring r2 (push (utf8 hi) acc)
                      end
                  end
              | _ => None
              end
            else
              match unescape e with
              | Some d => scanstring r1 (String d acc)
              | None => None
              end
        end
      else if (code c <? 32)%N then None
      else scanstring r (String c acc)
  end.

Fixpoint span_digits (s : string) : string * string :=
  match s with
  | String c r =>
      if is_digit c then let (ds, rest) := span_digits r in (String c ds, rest)
      else (EmptyString, s)
  | EmptyString => (EmptyString, EmptyString)
  end.

Definition int_of_digits (ds : string) : Z :=
  fold_left (fun n c => 10 * n + Z.of_N (code c - 48)%N)
    (list_ascii_of_string ds) 0.

(** The integer part of [NUMBER_RE]: an optional minus sign, then a
    single zero or a digit from 1 to 9 followed by any digits. *)
Definition scan_integer (s : string) : option (bool * string * string) :=
  let (neg, s1) :=
    match strip_prefix "-" s with
    | Some r => (true, r)
    | None => (false, s)
    end in
  match strip_prefix "0" s1 with
  | Some r => Some (neg, "0", r)
  | None =>
      match s1 with
      | String c r =>
          if is_digit c then
            let (ds, rest) := span_digits r in Some (neg, String c ds, rest)
          else None
      | EmptyString => None
      end
  end.

(** The optional fraction of [NUMBER_RE]: a dot and one digit or more. *)
Definition scan_frac (s : string) : string * string :=
  match strip_prefix "." s with
  | Some r =>
      match span_digits r with
      | (EmptyString, _) => (EmptyString, s)
      | (ds, rest) => (String "."%char ds, rest)
      end
  | None => (EmptyString, s)
  end.

(** The optional exponent of [NUMBER_RE]: e or E, an optional sign, one
    digit or more. *)
Definition scan_exp (s : string) : string * string :=
  match s with
  | String e r =>
      if Ascii.eqb e "e"%char || Ascii.eqb e "E"%char then
        let (sign, r1) :=
          match strip_prefix "-" r with
          | Some t => ("-", t)
          | None =>
              match strip_prefix "+" r with
              | Some t => ("+", t)
              | None => (EmptyString, r)
              end
          end in
        match span_digits r1 with
        | (EmptyString, _) => (EmptyString, s)
        | (ds, rest) => (String e (sign +:+ ds), rest)
        end
      else (EmptyString, s)
  | EmptyString => (EmptyString, s)
  end.

Section Decoder.

(** [parse_float], the hook of [json.loads] that turns the text of a
    number with a fraction or an exponent into a float; Python's
    default is [float]. *)
Variable parse_float : string -> spec_float.

Definition scan_number (s : string) : option (pyval * string) :=
  match scan_integer s with
  | None => None
  | Some (neg, ds, r) =>
      let (frac, r1) := scan_frac r in
      let (ex, r2) := scan_exp r1 in
      match frac, ex with
      | EmptyString, EmptyString =>
          Some (PInt (if neg then - int_of_digits ds else int_of_digits ds), r2)
      | _, _ =>
          Some (PFloat (parse_float ((if neg then "-" else "") +:+ ds +:+ frac +:+ ex)), r2)
      end
  end.

Definition scan_constant (s : string) : option (pyval * string) :=
  match strip_prefix "null" s with
  | Some r => Some (PNone, r)
  | None =>
  match strip_prefix "true" s with
  | Some r => Some (PBool true, r)
  | None =>
  match strip_prefix "false" s with
  | Some r => Some (PBool false, r)
  | None =>
  match scan_number s with
  | Some res => Some res
  | None =>
  match strip_prefix "NaN" s with
  | Some r => Some (PFloat S754_nan, r)
  | None =>
  match strip_prefix "Infinity" s with
  | Some r => Some (PFloat (S754_infinity false), r)
  | None =>
  match strip_prefix "-Infinity" s with
  | Some r => Some (PFloat (S754_infinity true), r)
  | None => None
  end end end end end end end.

(** [scan_once], [JSONArray] and [JSONObject] of [json.decoder] and
    [json.scanner]; [scan_array] and [scan_object] start at an element,
    after the opening bracket and the white space behind it. *)
Fixpoint scan_once (fuel : nat) (s : string) {struct fuel}
  : option (pyval * string) :=
  match fuel with
  | O => None
  | S fuel' =>
      match strip_prefix (String dquote "") s with
      | Some r =>
          match scanstring r EmptyString with
          | Some (str, rest) => Some (PStr str, rest)
          | None => None
          end
      | None =>
      match strip_prefix "{" s with
      | Some r =>
          match strip_prefix "}" (skip_ws r) with
          | Some rest => Some (PDict [], rest)
          | None =>
              match scan_object fuel' (skip_ws r) [] with
              | Some (pairs, rest) => Some (PDict (Py.of_pairs pairs), rest)
              | None => None
              end
          end
      | None =>
      match strip_prefix "[" s with
      | Some r =>
          match strip_prefix "]" (skip_ws r) with
          | Some rest => Some (PList [], rest)
          | None =>
              match scan_array fuel' (skip_ws r) [] with
              | Some (items, rest) => Some (PList items, rest)
              | None => None
              end
          end
      | None => scan_constant s
      end end end
  end
with scan_array (fuel : nat) (s : string) (acc : list pyval) {struct fuel}
  : option (list pyval * string) :=
  match fuel with
  | O => None
  | S fuel' =>
      match scan_once fuel' s with
      | None => None
      | Some (v, r) =>
          match strip_prefix "]" (skip_ws r) with
          | Some rest => Some (rev (v :: acc), rest)
          | None =>
              match strip_prefix "," (skip_ws r) with
              | Some rest => scan_array fuel' (skip_ws rest) (v :: acc)
              | None => None
              end
          end
      end
  end
with scan_object (fuel : nat) (s : string) (acc : list (string * pyval))
  {struct fuel} : option (list (string * pyval) * string) :=
  match fuel with
  | O => None
  | S fuel' =>
      match strip_prefix (String dquote "") s with
      | None => None
      | Some r =>
          match scanstring r EmptyString with
          | None => None
          | Some (key, r1) =>
              match strip_prefix ":" (skip_ws r1) with
              | None => None
              | Some r2 =>
                  match scan_once fuel' (skip_ws r2) with
                  | None => None
                  | Some (v, r3) =>
                      match strip_prefix "}" (skip_ws r3) with
                      | Some rest => Some (rev ((key, v) :: acc), rest)
                      | None =>
                          match strip_prefix "," (skip_ws r3) with
                          | Some rest =>
                              scan_object fuel' (skip_ws rest) ((key, v) :: acc)
                          | None => None
                          end
                      end
                  end
              end
          end
      end
  end.

(** [json.loads(s)]: [None] stands for [json.JSONDecodeError].  The scanner
    takes a character at least every second call, so twice the length of
    the text is fuel enough ([loads_has_fuel_enough]).  The limits of an
    interpreter (recursion depth, the number of digits [int] accepts) are
    not part of this decoder. *)
Definition loads (s : string) : option pyval :=
  match scan_once (2 * String.length s + 2) (skip_ws s) with
  | Some (v, rest) =>
      match skip_ws rest with
      | EmptyString => Some v
      | _ => None
      end
  | None => None
  end.

End Decoder.

End Json.

(** ** Exceptions *)

(** The exception classes that occur, with the part of the class hierarchy
    the [except] clauses of the sources test. *)
Inductive exc_class : Type :=
| RuntimeError
| ValueError
| TypeError
| AttributeError
| FileNotFoundError
| ImportError
| ModuleNotFoundError
| JSONDecodeError
| KeyboardInterrupt
| SystemExit
| OtherError (name : string).

(** An exception: its class and [str(e)]. *)
Record pyexc : Type := Exc { exc_class_of : exc_class; exc_str : string }.

(** [isinstance(e, ImportError)] *)
Definition is_ImportError (e : pyexc) : bool :=
  match exc_class_of e with
  | ImportError | ModuleNotFoundError => true
  | _ => false
  end.

(** [isinstance(e, Exception)]: everything but the two classes that derive
    from [BaseException] directly. *)
Definition is_Exception (e : pyexc) : bool :=
  match exc_class_of e with
  | KeyboardInterrupt | SystemExit => false
  | _ => true
  end.

(** ** A state and exception monad *)

Inductive outcome (A : Type) : Type :=
| Ret (a : A)
| Raise (e : pyexc).
Arguments Ret {A} a.
Arguments Raise {A} e.

Definition M (S A : Type) : Type := S -> outcome A * S.

Definition ret {S A} (a : A) : M S A := fun s => (Ret a, s).
Definition raise {S A} (e : pyexc) : M S A := fun s => (Raise e, s).

Definition bind {S A B} (m : M S A) (k : A -> M S B) : M S B :=
  fun s =>
    match m s with
    | (Ret a, s') => k a s'
    | (Raise e, s') => (Raise e, s')
    end.

Definition get {S} : M S S := fun s => (Ret s, s).
Definition modify {S} (f : S -> S) : M S unit := fun s => (Ret tt, f s).

(** Code that only computes: a value or an exception. *)
Definition and_then {A B} (r : pyexc + A) (k : A -> pyexc + B) : pyexc + B :=
  match r with
  | inl e => inl e
  | inr a => k a
  end.

(** A loop that builds a list, stopped by the first exception. *)
Fixpoint traverse {A B} (f : A -> pyexc + B) (l : list A) : pyexc + list B :=
  match l with
  | [] => inr []
  | x :: r =>
      and_then (f x) (fun y => and_then (traverse f r) (fun ys => inr (y :: ys)))
  end.

(** A value or an exception computed without touching the state. *)
Definition lift {S A} (r : pyexc + A) : M S A :=
  match r with
  | inl e => raise e
  | inr a => ret a
  end.

(** [try: m  except ...: handler e]; [handler e = None] when no clause
    matches [e]. *)
Definition try_except {S A} (m : M S A) (handler : pyexc -> option (M S A)) : M S A :=
  fun s =>
    match m s with
    | (Ret a, s') => (Ret a, s')
    | (Raise e, s') =>
        match handler e with
        | Some h => h s'
        | None => (Raise e, s')
        end
    end.

(** [try: m  finally: f]: [f] runs whatever [m] did, and an exception of [f]
    replaces the result of [m]. *)
Definition try_finally {S A} (m : M S A) (f : M S unit) : M S A :=
  fun s =>
    match m s with
    | (r, s') =>
        match f s' with
        | (Ret _, s'') => (r, s'')
        | (Raise e, s'') => (Raise e, s'')
        end
    end.

Declare Scope py_scope.
Delimit Scope py_scope with py.
Notation "x <- m ;; k" := (bind m (fun x => k))
  (at level 100, m at next level, right associativity) : py_scope.
Notation "m ;;; k" := (bind m (fun _ => k))
  (at level 100, right associativity) : py_scope.
Notation "x <-? r ;; k" := (and_then r (fun x => k))
  (at level 100, r at next level, right associativity) : py_scope.

(** ** The host: file system, processes, interpreter *)

(** What a path names.  [Path.exists()] is true of both. *)
Inductive inode : Type :=
| Dir
| File (content : string).

(** The interactions with the operating system that the properties below
    speak of. *)
Inductive event : Type :=
| Spawn (argv : list string) (cwd : string)
| Created (path : string)
| Removed (path : string)
| Entered (function : string).

Record host : Type := Host {
  fs : gmap string inode;
  events : list event;      (* latest first *)
  sys_path : list string;
  sys_modules : list string
}.

(** The result of [subprocess.run(..., capture_output=True, text=True)]
    before [check=True] is applied. *)
Inductive completed : Type :=
| Exited (returncode : Z) (stdout stderr : string)
| NotStarted (e : pyexc).

(** The two Pydantic models of [verifiers.types] that the loader imports;
    the package is not part of these sources, so they are constructors that
    may reject their arguments. *)
Record verifiers_types : Type := {
  GenerateMetadata : dict -> pyexc + pyval;
  GenerateOutputs : dict -> pyexc + pyval
}.

(** An environment object as [load_environment] of a native module returns
    it, by the two attributes [env_utils] touches. *)
Record native_env : Type := NativeEnv { native_env_id : pyval; native_env_args : pyval }.

(** The function [load_environment] of a native module: what
    [inspect.signature] makes of it, and what calling it with the keyword
    arguments gives. *)
Record native_loader : Type := {
  signature_error : option pyexc;
  call_loader : dict -> pyexc + native_env
}.

(** An imported module, by its attribute [load_environment]. *)
Record py_module : Type := { load_environment_attr : option native_loader }.

(** What the Python interpreter, its libraries and the machine decide. *)
Record runtime : Type := {
  parse_float : string -> spec_float;                  (* [float] *)
  json_dumps : pyval -> pyexc + string;                (* [json.dumps] *)
  py_repr : pyval -> string;                           (* [str] of a value that is not a string *)
  CalledProcessError_str : list string -> Z -> string; (* [str] of a [CalledProcessError] *)
  which : string -> bool;                              (* [shutil.which(name) is not None] *)
  subprocess_run : list string -> string -> host -> completed * gmap string inode;
  mkstemp : host -> string;                            (* the name [NamedTemporaryFile] picks *)
  resolve : string -> string;                          (* [Path.resolve], taken to return *)
  getenv : string -> option string;                    (* [os.getenv] *)
  import_module : string -> host -> pyexc + py_module; (* the import system *)
  types : option verifiers_types                       (* [None]: [import verifiers] failed *)
}.

Module Os.

(** [Path(a) / b] *)
Definition joinpath (a b : string) : string := a +:+ "/" +:+ b.

(** [Path(p).exists()] *)
Definition path_exists (h : host) (p : string) : bool :=
  match fs h !! p with Some _ => true | None => false end.

(** [Path(p).is_dir()] *)
Definition is_dir (h : host) (p : string) : bool :=
  match fs h !! p with Some Dir => true | _ => false end.

(** [Path(p).is_file()] *)
Definition is_file (h : host) (p : string) : bool :=
  match fs h !! p with Some (File _) => true | _ => false end.

(** [Path(p).parent] of a path without a trailing slash. *)
Fixpoint drop_last_component (reversed : string) : option string :=
  match reversed with
  | EmptyString => None
  | String "/"%char r => Some r
  | String _ r => drop_last_component r
  end.

Definition parent (p : string) : string :=
  match drop_last_component (String.rev p) with
  | None => "."
  | Some EmptyString => "/"
  | Some r => String.rev r
  end.

Definition log (e : event) (h : host) : host :=
  Host (fs h) (e :: events h) (sys_path h) (sys_modules h).

Definition with_fs (f : gmap string inode) (h : host) : host :=
  Host f (events h) (sys_path h) (sys_modules h).

(** [Path(p).unlink()] *)
Definition unlink (p : string) : M host unit :=
  fun h =>
    match fs h !! p with
    | Some (File _) => (Ret tt, log (Removed p) (with_fs (delete p (fs h)) h))
    | Some Dir => (Raise (Exc (OtherError "IsADirectoryError") p), h)
    | None => (Raise (Exc FileNotFoundError p), h)
    end.

(** [NamedTemporaryFile(mode="w", suffix=".mjs", delete=False)] with
    [f.write(script)]: a file of the runtime's choosing now holds the
    script. *)
Definition write_temp (rt : runtime) (script : string) : M host string :=
  fun h =>
    let p := mkstemp rt h in
    (Ret p, log (Created p) (with_fs (<[p := File script]> (fs h)) h)).

(** [subprocess.run(argv, cwd=cwd, capture_output=True, text=True)]: the
    call is recorded; when the program cannot be started it raises and the
    file system stays as it is; otherwise the process runs, may change the
    file system, and leaves its exit status and its two output channels.
    What [check=True] adds is written out where the sources catch
    [CalledProcessError]. *)
Definition run (rt : runtime) (argv : list string) (cwd : string)
  : M host (Z * string * string) :=
  fun h =>
    match subprocess_run rt argv cwd h with
    | (Exited rc out err, f) =>
        (Ret (rc, out, err), log (Spawn argv cwd) (with_fs f h))
    | (NotStarted e, _) => (Raise e, log (Spawn argv cwd) h)
    end.

End Os.

(** ** verifiers_ts_loader.py *)

Record TSEnvironmentWrapper : Type := Wrapper {
  env_id : string;
  env_path : string;
  env_args : dict;
  _compiled_path : option string
}.

(** The state the methods of a wrapper run in: the wrapper itself and the
    host. *)
Record machine : Type := Machine { self : TSEnvironmentWrapper; os : host }.

Definition on_os {A} (m : M host A) : M machine A :=
  fun st => let (r, h) := m (os st) in (r, Machine (self st) h).

(** [self._compiled_path = p] *)
Definition set_compiled_path (p : string) : M machine unit :=
  modify (fun st =>
    Machine (Wrapper (env_id (self st)) (env_path (self st)) (env_args (self st)) (Some p))
            (os st)).

(** The error conditions of the bridge, each the exception that the sources
    raise for it, with its message. *)
Module Condition.

Import Text.

(** [f"\nStderr: {stderr}"] when there is any, for the whole text or its
    first 500 characters. *)
Definition stderr_note (excerpt : bool) (stderr : string) : string :=
  if nonempty stderr
  then nl +:+ "Stderr: " +:+ (if excerpt then take_chars 500 stderr else stderr)
  else "".

Definition ModuleNotFound (env_path : string) : pyexc :=
  Exc ValueError
    ("Environment directory not found: " +:+ env_path +:+ ". "
     +:+ "Ensure the TypeScript environment is installed.").

Definition EntryPointMissing (env_id env_path : string) : pyexc :=
  Exc ValueError
    ("Could not find entry point for environment " +:+ env_id +:+ ". "
     +:+ "Expected package.json or src/index.ts in " +:+ env_path).

Definition BuildFailed (env_id error_msg : string) : pyexc :=
  Exc RuntimeError
    ("Failed to compile TypeScript environment " +:+ env_id +:+ ": " +:+ error_msg).

Definition BuildIncomplete (index_js_path build_stdout : string) : pyexc :=
  Exc FileNotFoundError
    ("Build completed but index.js not found at " +:+ index_js_path +:+ ". "
     +:+ "Build output: " +:+ build_stdout).

Definition EntryNotCompiled (index_js_path : string) : pyexc :=
  Exc FileNotFoundError
    ("Compiled index.js not found at " +:+ index_js_path +:+ ". "
     +:+ "Ensure the environment is built (npm run build).").

Definition NoPayload (method_name stderr : string) : pyexc :=
  Exc RuntimeError
    ("No output from TypeScript method " +:+ method_name
     +:+ stderr_note false stderr).

Definition PayloadNotFound (method_name stdout stderr : string) : pyexc :=
  Exc RuntimeError
    ("No JSON found in output from " +:+ method_name
     +:+ nl +:+ "Stdout: " +:+ take_chars 500 stdout
     +:+ stderr_note true stderr).

Definition DecodeError (method_name json_str stderr : string) : pyexc :=
  Exc RuntimeError
    ("Failed to parse JSON output from " +:+ method_name
     +:+ nl +:+ "Extracted JSON: " +:+ take_chars 500 json_str
     +:+ stderr_note true stderr).

Definition RemoteMethodFailed (method_name detail : string) : pyexc :=
  Exc RuntimeError
    ("Failed to call " +:+ method_name +:+ " on TypeScript environment: " +:+ detail).

End Condition.

(** [load_ts_environment(env_id, env_dir_path, **env_args)], after its
    first statement.  That statement, the call of
    [_patch_sanitize_tool_calls], is not embedded: it imports
    [verifiers.utils] and replaces the function [sanitize_tool_calls]
    there, changes no file and starts no process, and lets out what the
    import raises other than [ImportError]. *)
Definition load_ts_environment (env_id env_dir_path : string) (env_args : dict)
  : M host TSEnvironmentWrapper :=
  (h <- get ;;
   let env_path := Os.joinpath env_dir_path env_id in
   if negb (Os.path_exists h env_path) then raise (Condition.ModuleNotFound env_path)
   else
     let package_json := Os.joinpath env_path "package.json" in
     let index_ts := Os.joinpath (Os.joinpath env_path "src") "index.ts" in
     if negb (Os.path_exists h package_json) && negb (Os.path_exists h index_ts)
     then raise (Condition.EntryPointMissing env_id env_path)
     else ret (Wrapper env_id env_path env_args None))%py.

(** The command [_ensure_compiled] builds with. *)
Definition build_cmd (rt : runtime) (st : machine) : list string :=
  let pnpm_lock := Os.joinpath (env_path (self st)) "pnpm-lock.yaml" in
  let has_pnpm := which rt "pnpm" in
  if Os.path_exists (os st) pnpm_lock || has_pnpm
  then ["pnpm"; "run"; "build"]
  else ["npm"; "run"; "build"].

(** [TSEnvironmentWrapper._ensure_compiled] *)
Definition _ensure_compiled (rt : runtime) : M machine string :=
  (st <- get ;;
   match _compiled_path (self st) with
   | Some p => ret p
   | None =>
       let dist_path := Os.joinpath (env_path (self st)) "dist" in
       if Os.path_exists (os st) dist_path
       then set_compiled_path dist_path ;;; ret dist_path
       else
         let cmd := build_cmd rt st in
         result <- on_os (Os.run rt cmd (env_path (self st))) ;;
         let '(returncode, stdout, stderr) := result in
         if returncode =? 0 then
           st' <- get ;;
           let index_js_path := Os.joinpath dist_path "index.js" in
           if negb (Os.path_exists (os st') index_js_path)
           then raise (Condition.BuildIncomplete index_js_path stdout)
           else set_compiled_path dist_path ;;; ret dist_path
         else
           let error_msg :=
             if Text.nonempty stderr then stderr
             else if Text.nonempty stdout then stdout
             else CalledProcessError_str rt cmd returncode in
           raise (Condition.BuildFailed (env_id (self st)) error_msg)
   end)%py.

(** [str(v)]: a string is its own text, anything else is rendered by the
    interpreter. *)
Definition py_str (rt : runtime) (v : pyval) : string :=
  match v with
  | PStr s => s
  | _ => py_repr rt v
  end.

(** [type(v).__name__] *)
Definition type_name (v : pyval) : string :=
  match v with
  | PNone => "NoneType"
  | PBool _ => "bool"
  | PInt _ => "int"
  | PFloat _ => "float"
  | PStr _ => "str"
  | PList _ => "list"
  | PTuple _ => "tuple"
  | PDict _ => "dict"
  | PObj cls _ => cls
  end.

(** The body of the loop over [new_msg["tool_calls"]] in
    [normalize_tool_calls_in_messages], statement by statement.  First
    [tc_dict]: the export of a model, a copy of a dictionary, or a record
    named by the text of anything else. *)
Definition tool_call_dict (rt : runtime) (tc : pyval) : dict :=
  match tc with
  | PObj _ (Some dumped) => dumped
  | PDict d => d
  | _ => [("function", PDict [("name", PStr (py_str rt tc))])]
  end.

(** [if "type" not in tc_dict or not isinstance(tc_dict["type"], str):
    tc_dict["type"] = "function"] *)
Definition with_type (tc_dict : dict) : dict :=
  match Py.get "type" tc_dict with
  | Some (PStr _) => tc_dict
  | _ => Py.set "type" (PStr "function") tc_dict
  end.

(** [func = tc_dict.get("function") or {}], and [func = {"name": str(func)}]
    when that is not a dictionary. *)
Definition function_dict (rt : runtime) (tc_dict : dict) : dict :=
  match Py.or_else (default PNone (Py.get "function" tc_dict)) (PDict []) with
  | PDict f => f
  | func => [("name", PStr (py_str rt func))]
  end.

(** [if "name" not in func or not isinstance(func["name"], str):
    func["name"] = "unknown_tool"] *)
Definition with_name (func : dict) : dict :=
  match Py.get "name" func with
  | Some (PStr _) => func
  | _ => Py.set "name" (PStr "unknown_tool") func
  end.

(** [if "arguments" not in func: func["arguments"] = "{}"], and
    [elif not isinstance(func["arguments"], str): func["arguments"] =
    json.dumps(func["arguments"])] *)
Definition with_arguments (rt : runtime) (func : dict) : pyexc + dict :=
  match Py.get "arguments" func with
  | None => inr (Py.set "arguments" (PStr "{}") func)
  | Some (PStr _) => inr func
  | Some arguments =>
      (encoded <-? json_dumps rt arguments ;;
       inr (Py.set "arguments" (PStr encoded) func))%py
  end.

(** What is appended to [normalized_tool_calls] for the tool call [tc]. *)
Definition normalize_tool_call (rt : runtime) (tc : pyval) : pyexc + pyval :=
  let tc_dict := with_type (tool_call_dict rt tc) in
  (func <-? with_arguments rt (with_name (function_dict rt tc_dict)) ;;
   inr (PDict (Py.set "function" (PDict func) tc_dict)))%py.

(** The body of the loop over [messages]. *)
Definition normalize_message (rt : runtime) (msg : pyval) : pyexc + pyval :=
  match msg with
  | PDict new_msg =>
      match Py.get "tool_calls" new_msg with
      | Some (PList tool_calls) =>
          (normalized_tool_calls <-? traverse (normalize_tool_call rt) tool_calls ;;
           inr (PDict (Py.set "tool_calls" (PList normalized_tool_calls) new_msg)))%py
      | _ => inr (PDict new_msg)
      end
  | _ => inr msg
  end.

(** [normalize_tool_calls_in_messages(messages)], local to
    [_call_ts_method]. *)
Definition normalize_tool_calls_in_messages (rt : runtime) (messages : pyval)
  : pyexc + pyval :=
  match messages with
  | PList msgs => (normalized <-? traverse (normalize_message rt) msgs ;; inr (PList normalized))%py
  | _ => inr messages
  end.

(** [data[key] = [normalize_tool_calls_in_messages(p) for p in data[key]]]
    when [key in data and isinstance(data[key], list)]. *)
Definition normalize_field (rt : runtime) (key : string) (data : dict) : pyexc + dict :=
  match Py.get key data with
  | Some (PList sequences) =>
      (normalized <-? traverse (normalize_tool_calls_in_messages rt) sequences ;;
       inr (Py.set key (PList normalized) data))%py
  | _ => inr data
  end.

(** The branch of [_call_ts_method] for [method_name == "evaluate"] when
    [verifiers.types] was imported. *)
Definition to_generate_outputs (rt : runtime) (ty : verifiers_types) (data : pyval)
  : pyexc + pyval :=
  match data with
  | PDict d =>
      (d <-? match Py.get "metadata" d with
             | Some (PDict metadata) =>
                 model <-? GenerateMetadata ty metadata ;;
                 inr (Py.set "metadata" model d)
             | _ => inr d
             end ;;
       d <-? normalize_field rt "prompt" d ;;
       d <-? normalize_field rt "completion" d ;;
       GenerateOutputs ty d)%py
  | _ =>
      inl (Exc AttributeError
             ("'" +:+ type_name data +:+ "' object has no attribute 'get'"))
  end.

(** What [_call_ts_method] does with the output of a driver that exited
    with status 0. *)
Definition read_response (rt : runtime) (method_name stdout stderr : string)
  : pyexc + pyval :=
  if negb (Text.nonempty stdout) || negb (Text.nonempty (Text.strip stdout))
  then inl (Condition.NoPayload method_name stderr)
  else
    let stdout := Text.strip stdout in
    let json_start := Text.find "{" stdout in
    let json_start := if json_start =? -1 then Text.find "[" stdout else json_start in
    if json_start =? -1
    then inl (Condition.PayloadNotFound method_name stdout stderr)
    else
      let json_str := Text.slice_from json_start stdout in
      match Json.loads (parse_float rt) json_str with
      | None => inl (Condition.DecodeError method_name json_str stderr)
      | Some data =>
          match (if String.eqb method_name "evaluate" then types rt else None) with
          | Some ty =>
              match to_generate_outputs rt ty data with
              | inl (Exc JSONDecodeError _) =>
                  inl (Condition.DecodeError method_name json_str stderr)
              | r => r
              end
          | None => inr data
          end
      end.

(** The loop [for line in reversed(lines)] of the handler of
    [CalledProcessError], over the lines from the last to the first. *)
Fixpoint scan_error_lines (rt : runtime) (method_name error_output : string)
  (reversed_lines : list string) : pyexc :=
  match reversed_lines with
  | [] => Condition.RemoteMethodFailed method_name error_output
  | line :: earlier =>
      if Text.startswith "{" (Text.strip line) then
        match Json.loads (parse_float rt) (Text.strip line) with
        | None => Condition.RemoteMethodFailed method_name error_output
        | Some (PDict error_data) =>
            let error_msg := default (PStr "Unknown error") (Py.get "error" error_data) in
            Condition.RemoteMethodFailed method_name (py_str rt error_msg)
        | Some other =>
            Exc AttributeError
              ("'" +:+ type_name other +:+ "' object has no attribute 'get'")
        end
      else scan_error_lines rt method_name error_output earlier
  end.

(** [e.stderr or e.stdout or ""] *)
Definition error_output (stdout stderr : string) : string :=
  if Text.nonempty stderr then stderr
  else if Text.nonempty stdout then stdout
  else "".

(** The handler of [CalledProcessError] in [_call_ts_method]: the exception
    raised for a driver that exited with a status other than 0. *)
Definition map_failure (rt : runtime) (method_name stdout stderr : string) : pyexc :=
  let error_output := error_output stdout stderr in
  let lines := Text.split Text.newline (Text.strip error_output) in
  scan_error_lines rt method_name error_output (rev lines).

(** The driver program written for one call. *)
Definition driver_script
  (import_path_json env_args_json method_name args_json kwargs_json : string) : string :=
  "
// Redirect all console output to stderr (JSON must be the only stdout)
const originalWarn = console.warn;
const originalLog = console.log;
const originalInfo = console.info;
const originalError = console.error;

console.warn = (...args) => {
    process.stderr.write('[WARN] ' + args.map(a => String(a)).join(' ') + '\n');
};
console.log = (...args) => {
    process.stderr.write('[LOG] ' + args.map(a => String(a)).join(' ') + '\n');
};
console.info = (...args) => {
    process.stderr.write('[INFO] ' + args.map(a => String(a)).join(' ') + '\n');
};
console.error = (...args) => {
    process.stderr.write('[ERROR] ' + args.map(a => String(a)).join(' ') + '\n');
};

(async () => {
    try {
        const module = await import(" +:+ import_path_json +:+ ");
        const { loadEnvironment } = module;
        const env = await loadEnvironment(" +:+ env_args_json +:+ ");
        const result = await env." +:+ method_name +:+ "(..." +:+ args_json +:+ ", " +:+ kwargs_json +:+ ");
        const json = JSON.stringify(result);
        const exitSuccess = () => process.exit(0);
        if (!process.stdout.write(json)) {
            process.stdout.once('drain', exitSuccess);
        } else {
            exitSuccess();
        }
    } catch (error) {
        const errorPayload = JSON.stringify({
            error: error.message,
            stack: error.stack,
            name: error.name
        }) + '\n';
        const exitFailure = () => process.exit(1);
        if (!process.stderr.write(errorPayload)) {
            process.stderr.once('drain', exitFailure);
        } else {
            exitFailure();
        }
    }
})();
".

(** The [try] statement of [_call_ts_method]: the driver runs in [cwd], its
    output is read or its failure mapped, and [finally] the script is
    unlinked. *)
Definition run_driver (rt : runtime) (method_name script_path cwd : string)
  : M machine pyval :=
  try_finally
    (result <- on_os (Os.run rt ["node"; script_path] cwd) ;;
     let '(returncode, stdout, stderr) := result in
     if returncode =? 0
     then lift (read_response rt method_name stdout stderr)
     else raise (map_failure rt method_name stdout stderr))%py
    (on_os (Os.unlink script_path)).

(** [TSEnvironmentWrapper._call_ts_method(method_name, *args, **kwargs)] *)
Definition _call_ts_method (rt : runtime) (method_name : string)
  (args : list pyval) (kwargs : dict) : M machine pyval :=
  (dist_path <- _ensure_compiled rt ;;
   st <- get ;;
   let index_js_path := Os.joinpath dist_path "index.js" in
   if negb (Os.path_exists (os st) index_js_path)
   then raise (Condition.EntryNotCompiled index_js_path)
   else
     let abs_path := resolve rt index_js_path in
     let path_str := Text.replace Text.backslash "/" abs_path in
     let import_path := "file:///" +:+ path_str in
     import_path_json <- lift (json_dumps rt (PStr import_path)) ;;
     env_args_json <- lift (json_dumps rt (PDict (env_args (self st)))) ;;
     args_json <- lift (json_dumps rt (PTuple args)) ;;
     kwargs_json <- lift (json_dumps rt (PDict kwargs)) ;;
     let script :=
       driver_script import_path_json env_args_json method_name args_json kwargs_json in
     script_path <- on_os (Os.write_temp rt script) ;;
     run_driver rt method_name script_path (env_path (self st)))%py.

(** [tuple(v)] *)
Definition py_tuple (v : pyval) : pyexc + pyval :=
  match v with
  | PList items | PTuple items => inr (PTuple items)
  | PDict d => inr (PTuple (map (fun kv => PStr (fst kv)) d))
  | PStr s => inr (PTuple (map PStr (Text.chars s)))
  | _ => inl (Exc TypeError ("'" +:+ type_name v +:+ "' object is not iterable"))
  end.

(** [getattr(obj, name, None)] for an object given by its attributes. *)
Definition getattr (obj : dict) (name : string) : pyval :=
  default PNone (Py.get name obj).

(** The arguments of [rollout] after [self]. *)
Record rollout_args : Type := {
  client : dict;
  model : pyval;
  prompt : pyval;
  completion : pyval;
  answer : pyval;
  state : pyval;
  task : pyval;
  info : pyval;
  example_id : pyval;
  sampling_args : pyval;
  kwargs : dict
}.

(** The first keyword of [**kwargs] that the call in [rollout] also passes
    by name. *)
Fixpoint repeated_keyword (kwargs : dict) : option string :=
  match kwargs with
  | [] => None
  | (k, _) :: r =>
      if String.eqb k "api_key" || String.eqb k "base_url" then Some k
      else repeated_keyword r
  end.

(** The call [self._call_ts_method("rollout", ..., api_key=api_key,
    base_url=..., **kwargs)] in [rollout], the binding of its keywords
    included. *)
Definition rollout_call (rt : runtime) (a : rollout_args) : M machine pyval :=
  let api_key :=
    Py.or_else (getattr (client a) "api_key") (default PNone (Py.get "api_key" (kwargs a))) in
  let base_url :=
    Py.or_else (getattr (client a) "base_url") (default PNone (Py.get "base_url" (kwargs a))) in
  match repeated_keyword (kwargs a) with
  | Some k =>
      raise (Exc TypeError
               ("TSEnvironmentWrapper._call_ts_method() got multiple values for keyword argument '"
                +:+ k +:+ "'"))
  | None =>
      _call_ts_method rt "rollout"
        [ model a; prompt a; completion a; answer a;
          Py.or_else (state a) (PDict []); task a;
          Py.or_else (info a) (PDict []); example_id a;
          Py.or_else (sampling_args a) (PDict []) ]
        ([ ("api_key", api_key);
           ("base_url", if Py.truthy base_url then PStr (py_str rt base_url) else PNone) ]
         ++ kwargs a)
  end.

(** [TSEnvironmentWrapper.rollout] *)
Definition rollout (rt : runtime) (a : rollout_args) : M machine pyval :=
  (result <- rollout_call rt a ;;
   lift (py_tuple result))%py.

(** ** env_utils.py *)

(** What [load_environment] returns: the environment of a native module or
    a wrapper around a TypeScript one. *)
Inductive environment : Type :=
| Native (e : native_env)
| Bridged (w : TSEnvironmentWrapper).

Module EnvUtils.

Definition bridge_module : string := "verifiers_ts_loader".

(** An [import] statement: the import system finds and runs the module,
    which is then listed in [sys.modules]. *)
Definition import (rt : runtime) (name : string) : M host py_module :=
  fun h =>
    match import_module rt name h with
    | inl e => (Raise e, h)
    | inr m =>
        (Ret m,
         if bool_decide (name ∈ sys_modules h) then h
         else Host (fs h) (events h) (sys_path h) (name :: sys_modules h))
    end.

(** The loop body of [_ensure_ts_bridge_on_path]. *)
Definition add_candidate (candidate : string) : M host unit :=
  fun h =>
    if Os.path_exists h candidate && Os.is_dir h candidate
         && negb (bool_decide (candidate ∈ sys_path h))
    then (Ret tt, Host (fs h) (events h) (candidate :: sys_path h) (sys_modules h))
    else (Ret tt, h).

Fixpoint add_candidates (candidates : list string) : M host unit :=
  match candidates with
  | [] => ret tt
  | c :: r => (add_candidate c ;;; add_candidates r)%py
  end.

(** [if x:] for an optional string. *)
Definition given (x : option string) : option string :=
  match x with
  | Some s => if Text.nonempty s then Some s else None
  | None => None
  end.

(** [_ensure_ts_bridge_on_path(env_dir_path)] *)
Definition _ensure_ts_bridge_on_path (rt : runtime) (env_dir_path : option string)
  : M host unit :=
  (h <- get ;;
   if bool_decide (bridge_module ∈ sys_modules h) then ret tt
   else
     let from_override :=
       match given (getenv rt "VERIFIERS_TS_BRIDGE_PATH") with
       | Some env_override => [env_override]
       | None => []
       end in
     let from_env_dir :=
       match given env_dir_path with
       | Some d => [Os.joinpath (Os.parent (resolve rt d)) "python-bridge"]
       | None => []
       end in
     add_candidates (from_override ++ from_env_dir))%py.

(** The loop over [search_names] in [_load_ts_environment]. *)
Fixpoint search (resolved_dir env_id : string) (env_args : dict) (names : list string)
  (otherwise : M host (option TSEnvironmentWrapper)) : M host (option TSEnvironmentWrapper) :=
  match names with
  | [] => otherwise
  | name :: r =>
      (h <- get ;;
       if Os.path_exists h (Os.joinpath resolved_dir name)
       then w <- load_ts_environment env_id resolved_dir env_args ;; ret (Some w)
       else search resolved_dir env_id env_args r otherwise)%py
  end.

(** [_load_ts_environment(env_id, env_dir_path, **env_args)]; the event
    [Entered] marks that the fallback was attempted. *)
Definition _load_ts_environment (rt : runtime) (env_id : string)
  (env_dir_path : option string) (env_args : dict) : M host (option TSEnvironmentWrapper) :=
  (modify (Os.log (Entered "_load_ts_environment")) ;;;
   imported <-
     try_except
       (_ensure_ts_bridge_on_path rt env_dir_path ;;;
        import rt bridge_module ;;;
        ret true)
       (fun e => if is_Exception e then Some (ret false) else None) ;;
   if negb imported then ret None
   else
     h <- get ;;
     let resolved_dir :=
       match given env_dir_path with
       | Some d =>
           let candidate_root := resolve rt d in
           if Os.path_exists h candidate_root then Some candidate_root else None
       | None =>
           match given (getenv rt "VERIFIERS_ENV_DIR_PATH") with
           | Some env_dir_var =>
               let candidate_root := resolve rt env_dir_var in
               if Os.path_exists h candidate_root then Some candidate_root else None
           | None => None
           end
       end in
     let search_names := [env_id; Text.replace "-" "_" env_id] in
     let last_attempt :=
       match env_dir_path, resolved_dir with
       | None, None =>
           w <- load_ts_environment env_id "./environments" env_args ;; ret (Some w)
       | _, _ => ret None
       end in
     match resolved_dir with
     | Some d => search d env_id env_args search_names last_attempt
     | None => last_attempt
     end)%py.

(** [env_id.replace("-", "_").split("/")[-1]] *)
Definition module_name (env_id : string) : string :=
  List.last (Text.split "/" (Text.replace "-" "_" env_id)) "".

Definition could_not_import (env_id : string) : pyexc :=
  Exc ValueError
    ("Could not import '" +:+ env_id +:+ "' environment. Ensure the package for the '"
     +:+ env_id +:+ "' environment is installed.").

Definition failed_to_load (env_id : string) (e : pyexc) : pyexc :=
  Exc RuntimeError ("Failed to load environment '" +:+ env_id +:+ "': " +:+ exc_str e).

Definition no_load_environment (module_name : string) : pyexc :=
  Exc AttributeError
    ("Module '" +:+ module_name +:+ "' does not have a 'load_environment' function. "
     +:+ "This usually means there's a package name collision. Please either:" +:+ Text.nl
     +:+ "1. Rename your environment (e.g. suffix with '-env')" +:+ Text.nl
     +:+ "2. Remove unneeded files with the same name" +:+ Text.nl
     +:+ "3. Check that you've installed the correct environment package").

(** The body of the [try] statement of [load_environment]; between the
    inspection of the signature and the call the source only writes to
    the log. *)
Definition load_native (rt : runtime) (env_id : string) (env_args : dict)
  : M host environment :=
  (module <- import rt (module_name env_id) ;;
   match load_environment_attr module with
   | None => raise (no_load_environment (module_name env_id))
   | Some env_load_func =>
       match signature_error env_load_func with
       | Some e => raise e
       | None =>
           env_instance <- lift (call_loader env_load_func env_args) ;;
           ret (Native
                  (NativeEnv
                     (Py.or_else (native_env_id env_instance) (PStr env_id))
                     (Py.or_else (native_env_args env_instance) (PDict env_args))))
       end
   end)%py.

(** The handler [except ImportError as e] of [load_environment]. *)
Definition on_import_error (rt : runtime) (env_id : string)
  (env_dir_path : option string) (env_args : dict) : M host environment :=
  (ts_env <- _load_ts_environment rt env_id env_dir_path env_args ;;
   match ts_env with
   | Some (Wrapper ts_env_id ts_env_path ts_env_args compiled) =>
       ret (Bridged
              (Wrapper
                 (if Text.nonempty ts_env_id then ts_env_id else env_id)
                 ts_env_path
                 (match ts_env_args with
                  | [] => env_args
                  | _ => ts_env_args
                  end)
                 compiled))
   | None => raise (could_not_import env_id)
   end)%py.

(** [load_environment(env_id, env_dir_path=None, **env_args)] *)
Definition load_environment (rt : runtime) (env_id : string)
  (env_dir_path : option string) (env_args : dict) : M host environment :=
  try_except (load_native rt env_id env_args)
    (fun e =>
       if is_ImportError e then Some (on_import_error rt env_id env_dir_path env_args)
       else if is_Exception e then Some (raise (failed_to_load env_id e))
       else None).

End EnvUtils.

(** ** Vocabulary of the properties *)

(** The shape of a normalized [function] field. *)
Definition normal_function (f : dict) : Prop :=
  (exists name, Py.get "name" f = Some (PStr name)) /\
  (exists arguments, Py.get "arguments" f = Some (PStr arguments)).

(** The shape of a normalized tool call, the invariant of the data model: a
    dictionary with a string under [type] and a normalized [function]. *)
Definition normal_tool_call (tc : pyval) : Prop :=
  exists d f,
    tc = PDict d /\
    (exists t, Py.get "type" d = Some (PStr t)) /\
    Py.get "function" d = Some (PDict f) /\
    normal_function f.

(** Normalizing the tool call [tc] gives a record that Python finds equal
    to [expected]. *)
Definition normalizes_to (rt : runtime) (tc expected : pyval) : Prop :=
  exists r, normalize_tool_call rt tc = inr r /\ Py.eqb r expected = true.

(** A line that looks like a structured error record. *)
Definition record_line (line : string) : bool :=
  Text.startswith "{" (Text.strip line).

(** The last line of [text] that looks like a structured error record. *)
Definition last_record_line (text : string) : option string :=
  List.find record_line (rev (Text.split Text.newline (Text.strip text))).

(** The message that the failure mapper reports for the diagnostic text
    [text], in the words of its description: the [error] field of the last
    line that looks like a structured record when that line decodes (a
    placeholder when it has no such field), the whole text otherwise. *)
Definition reported_message (rt : runtime) (text : string) : string :=
  match last_record_line text with
  | Some line =>
      match Json.loads (parse_float rt) (Text.strip line) with
      | Some (PDict record) =>
          py_str rt (default (PStr "Unknown error") (Py.get "error" record))
      | _ => text
      end
  | None => text
  end.

(** The build-output directory of a wrapper. *)
Definition dist_of (w : TSEnvironmentWrapper) : string :=
  Os.joinpath (env_path w) "dist".

(** The wrapper after [self._compiled_path = p]. *)
Definition cached (p : string) (w : TSEnvironmentWrapper) : TSEnvironmentWrapper :=
  Wrapper (env_id w) (env_path w) (env_args w) (Some p).

(** An invocation of the external build process. *)
Definition is_build (e : event) : bool :=
  match e with
  | Spawn [_; "run"; "build"] _ => true
  | _ => false
  end.

(** How often the build process has been invoked on a host. *)
Definition builds (h : host) : nat := length (List.filter is_build (events h)).


(** ** Scenarios *)

(** Concrete hosts and runtimes, in the way of the test doubles of a test
    suite: processes with scripted behaviour and stand-ins for the
    interpreter's renderings. *)
Module Scenario.

Definition decimal (n : Z) : string := NilZero.string_of_int (Z.to_int n).

Definition quoted (s : string) : string :=
  String Text.dquote (s +:+ String Text.dquote "").

(** An encoder standing in for [json.dumps] on the data of the scenarios:
    [None], booleans, integers, lists, tuples, dictionaries, and strings
    that need no escaping. *)
Fixpoint encode (v : pyval) : option string :=
  match v with
  | PNone => Some "null"
  | PBool b => Some (if b then "true" else "false")
  | PInt n => Some (decimal n)
  | PStr s => Some (quoted s)
  | PList items | PTuple items =>
      match
        (fix go (l : list pyval) : option (list string) :=
           match l with
           | [] => Some []
           | x :: r =>
               match encode x, go r with
               | Some a, Some b => Some (a :: b)
               | _, _ => None
               end
           end) items
      with
      | Some parts => Some ("[" +:+ String.concat ", " parts +:+ "]")
      | None => None
      end
  | PDict entries =>
      match
        (fix go (l : dict) : option (list string) :=
           match l with
           | [] => Some []
           | (k, x) :: r =>
               match encode x, go r with
               | Some a, Some b => Some ((quoted k +:+ ": " +:+ a) :: b)
               | _, _ => None
               end
           end) entries
      with
      | Some parts => Some ("{" +:+ String.concat ", " parts +:+ "}")
      | None => None
      end
  | PFloat _ | PObj _ _ => None
  end.

Definition dumps (v : pyval) : pyexc + string :=
  match encode v with
  | Some s => inr s
  | None =>
      inl (Exc TypeError
             ("Object of type " +:+ type_name v +:+ " is not JSON serializable"))
  end.

Definition repr (v : pyval) : string :=
  match v with
  | PNone => "None"
  | PBool true => "True"
  | PBool false => "False"
  | PInt n => decimal n
  | _ => "<" +:+ type_name v +:+ ">"
  end.

Definition process_error_str (cmd : list string) (returncode : Z) : string :=
  "Command '[" +:+ String.concat ", " (map (fun a => "'" +:+ a +:+ "'") cmd)
  +:+ "]' returned non-zero exit status " +:+ decimal returncode +:+ ".".

(** What a process does on a host. *)
Definition process : Type := host -> completed * gmap string inode.

(** No module can be imported. *)
Definition no_modules (name : string) (h : host) : pyexc + py_module :=
  inl (Exc ModuleNotFoundError ("No module named '" +:+ name +:+ "'")).

(** The runtime in which the build command behaves as [build], the driver
    as [node], and imports as [importer]. *)
Definition runtime_of (build node : process)
  (importer : string -> host -> pyexc + py_module) : runtime :=
  {| parse_float := fun _ => S754_zero false;
     json_dumps := dumps;
     py_repr := repr;
     CalledProcessError_str := process_error_str;
     which := fun _ => false;
     subprocess_run := fun argv _ h =>
       match argv with
       | "node" :: _ => node h
       | _ => build h
       end;
     mkstemp := fun _ => "/tmp/tmpk3v9.mjs";
     resolve := fun p => p;
     getenv := fun _ => None;
     import_module := importer;
     types := None |}.

(** Stand-ins for the models of [verifiers.types]: each keeps the fields
    it is given. *)
Definition models : verifiers_types :=
  {| GenerateMetadata := fun fields => inr (PObj "GenerateMetadata" (Some fields));
     GenerateOutputs := fun fields => inr (PObj "GenerateOutputs" (Some fields)) |}.

(** The runtime [rt] with [verifiers.types] installed. *)
Definition with_types (rt : runtime) : runtime :=
  {| parse_float := parse_float rt;
     json_dumps := json_dumps rt;
     py_repr := py_repr rt;
     CalledProcessError_str := CalledProcessError_str rt;
     which := which rt;
     subprocess_run := subprocess_run rt;
     mkstemp := mkstemp rt;
     resolve := resolve rt;
     getenv := getenv rt;
     import_module := import_module rt;
     types := Some models |}.

Definition root : string := "/envs/demo".
Definition dist : string := "/envs/demo/dist".
Definition index_js : string := "/envs/demo/dist/index.js".

(** A module that has been installed and not built. *)
Definition installed : host :=
  Host (<[root := Dir]> (<["/envs/demo/package.json" := File "{}"]> ∅)) [] [] [].

(** The same module with its build output on disk. *)
Definition prebuilt : host :=
  Host (<[index_js := File ""]> (<[dist := Dir]> (fs installed))) [] [] [].

Definition wrapper : TSEnvironmentWrapper := Wrapper "demo" root [] None.

Definition fresh : machine := Machine wrapper installed.

(** The build writes [dist/index.js]. *)
Definition build_succeeds : process :=
  fun h => (Exited 0 "built" "", <[index_js := File ""]> (<[dist := Dir]> (fs h))).

(** The build stops with an error and writes nothing. *)
Definition build_fails : process :=
  fun h => (Exited 1 "" "error TS1005: ';' expected.", fs h).

(** The build reports success and leaves a [dist] directory without
    [index.js]. *)
Definition build_misses_entry : process :=
  fun h => (Exited 0 "done" "", <[dist := Dir]> (fs h)).

(** The driver prints [stdout] and exits with status 0. *)
Definition node_prints (stdout : string) : process :=
  fun h => (Exited 0 stdout "", fs h).

(** The driver exits with status 1, [stderr] on its error channel. *)
Definition node_fails (stdout stderr : string) : process :=
  fun h => (Exited 1 stdout stderr, fs h).

(** The tool call and the records of the examples. *)
Definition tool_call_f : pyval := PDict [("function", PDict [("name", PStr "f")])].

Definition record (name : string) : pyval :=
  PDict [ ("type", PStr "function");
          ("function", PDict [("name", PStr name); ("arguments", PStr "{}")]) ].

(** The error channel of the failure-mapping example. *)
Definition warmup_then_record : string :=
  "warmup line" +:+ Text.nl +:+ Text.q "{'error':'boom','name':'Err'}" +:+ Text.nl.

(** The output of an [evaluate] call whose one completion has both tool
    calls. *)
Definition evaluate_stdout : string :=
  Text.q "{'prompt': [[{'role': 'user', 'content': 'hi'}]], 'completion': [[{'role': 'assistant', 'content': '', 'tool_calls': [{'function': {'name': 'f'}}, 'x']}]], 'metadata': {'env_id': 'demo'}}".

(** A message sequence with both tool calls. *)
Definition messages : pyval :=
  PList [ PDict [("role", PStr "user"); ("content", PStr "hi")];
          PDict [ ("role", PStr "assistant"); ("content", PStr "");
                  ("tool_calls", PList [tool_call_f; PStr "x"]) ] ].






Definition plain_rollout : rollout_args :=
  {| client := [("api_key", PStr "sk-test")];
     model := PStr "gpt";
     prompt := PList [];
     completion := PNone;
     answer := PStr "";
     state := PNone;
     task := PStr "default";
     info := PNone;
     example_id := PInt 0;
     sampling_args := PNone;
     kwargs := [] |}.

End Scenario.

(** ** The rest of verifiers_ts_loader.py *)

(** [KeyError(key)] for a string key. *)
Definition KeyError (key : string) : pyexc :=
  Exc (OtherError "KeyError") ("'" +:+ key +:+ "'").

(** [for x in v]: the items that a loop over [v] visits.  Lists and tuples
    give their items, a dictionary its keys, a string its characters; the
    other values cannot be iterated. *)
Definition iterate (v : pyval) : pyexc + list pyval :=
  match v with
  | PList items | PTuple items => inr items
  | PDict d => inr (map (fun kv => PStr (fst kv)) d)
  | PStr s => inr (map PStr (Text.chars s))
  | _ => inl (Exc TypeError ("'" +:+ type_name v +:+ "' object is not iterable"))
  end.

(** [json.dumps(tc.model_dump() if hasattr(tc, "model_dump") else tc)] *)
Definition dump_tool_call (rt : runtime) (tc : pyval) : pyexc + pyval :=
  (encoded <-? json_dumps rt
                 match tc with
                 | PObj _ (Some dumped) => PDict dumped
                 | _ => tc
                 end ;;
   inr (PStr encoded))%py.

(** The body of the loop of [patched_sanitize_tool_calls].  The source
    does not test that [m] is a dictionary: for any other value,
    ["tool_calls" in m], [m["role"]] and [m.get] are the value's own, and
    [other] stands for what they make of it. *)
Definition sanitize_message (rt : runtime) (other : pyval -> pyexc + pyval) (m : pyval)
  : pyexc + pyval :=
  match m with
  | PDict d =>
      match Py.get "tool_calls" d with
      | None => inr m
      | Some tool_calls =>
          (role <-? match Py.get "role" d with
                    | Some role => inr role
                    | None => inl (KeyError "role")
                    end ;;
           let content := default (PStr "") (Py.get "content" d) in
           items <-? iterate tool_calls ;;
           dumped <-? traverse (dump_tool_call rt) items ;;
           inr (PDict [("role", role); ("content", content); ("tool_calls", PList dumped)]))%py
      end
  | _ => other m
  end.

(** [patched_sanitize_tool_calls(messages)], the function that
    [_patch_sanitize_tool_calls] puts in the place of
    [verifiers.utils.message_utils.sanitize_tool_calls]. *)
Definition patched_sanitize_tool_calls (rt : runtime) (other : pyval -> pyexc + pyval)
  (messages : pyval) : pyexc + pyval :=
  match messages with
  | PList msgs =>
      (sanitized_messages <-? traverse (sanitize_message rt other) msgs ;;
       inr (PList sanitized_messages))%py
  | _ => inr messages
  end.

(** [TSEnvironmentWrapper.evaluate].  The coroutine hands the call to a
    worker thread and awaits it; what the call returns or raises is what
    [evaluate] returns or raises, and that is what is embedded. *)
Module Evaluate.

(** The arguments of [evaluate] after [self]. *)
Record args : Type := {
  client : dict;
  model : pyval;
  sampling_args : pyval;
  num_examples : pyval;
  rollouts_per_example : pyval;
  score_rollouts : pyval;
  max_concurrent : pyval;
  max_concurrent_generation : pyval;
  max_concurrent_scoring : pyval;
  interleave_scoring : pyval;
  results_path : pyval;
  state_columns : pyval;
  save_every : pyval;
  kwargs : dict
}.

Definition evaluate (rt : runtime) (a : args) : M machine pyval :=
  let api_key :=
    Py.or_else (getattr (client a) "api_key") (default PNone (Py.get "api_key" (kwargs a))) in
  let base_url :=
    Py.or_else (getattr (client a) "base_url") (default PNone (Py.get "base_url" (kwargs a))) in
  _call_ts_method rt "evaluate"
    [ model a;
      Py.or_else (sampling_args a) (PDict []);
      num_examples a;
      rollouts_per_example a;
      score_rollouts a;
      max_concurrent a;
      max_concurrent_generation a;
      max_concurrent_scoring a;
      api_key;
      if Py.truthy base_url then PStr (py_str rt base_url) else PNone ]
    [].

End Evaluate.

(** The first keyword of [**kwargs] that a call also passes by one of the
    [names]. *)
Fixpoint repeated (names : list string) (kwargs : dict) : option string :=
  match kwargs with
  | [] => None
  | (k, _) :: r =>
      if existsb (String.eqb k) names then Some k else repeated names r
  end.

Definition multiple_values (function keyword : string) : pyexc :=
  Exc TypeError
    (function +:+ "() got multiple values for keyword argument '" +:+ keyword +:+ "'").

(** A dictionary without the key [k]. *)
Definition without (k : string) (d : dict) : dict :=
  List.filter (fun kv => negb (String.eqb (fst kv) k)) d.

(** [load_environment(env_id, **env_args)] of the bridge, which is the
    call [load_ts_environment(env_id, **env_args)]: an entry
    [env_dir_path] of [env_args] is bound to the parameter of that name
    and the other entries are the arguments of the module.  [fspath]
    stands for what [Path] makes of a value that is not a string. *)
Definition bridge_load_environment (fspath : pyval -> pyexc + string)
  (env_id : string) (env_args : dict) : M host TSEnvironmentWrapper :=
  match Py.get "env_dir_path" env_args with
  | Some (PStr env_dir_path) =>
      load_ts_environment env_id env_dir_path (without "env_dir_path" env_args)
  | Some v =>
      (env_dir_path <- lift (fspath v) ;;
       load_ts_environment env_id env_dir_path (without "env_dir_path" env_args))%py
  | None => load_ts_environment env_id "./environments" env_args
  end.

(** ** example_generate_text_agent.py *)

Module Example.

Definition env_id : string := "example-generate-text-agent".

(** [load_environment] of the module stored at [file] ([__file__]),
    called with the keyword arguments [kwargs]. *)
Definition load_environment (file : string) (kwargs : dict) : M host TSEnvironmentWrapper :=
  let env_dir := Os.parent file in
  let env_dir_path := Os.parent env_dir in
  match repeated ["env_id"; "env_dir_path"] kwargs with
  | Some k => raise (multiple_values "load_ts_environment" k)
  | None => load_ts_environment env_id env_dir_path kwargs
  end.

End Example.

(** ** sandbox_bridge.py *)

(** [type(e).__name__] *)
Definition class_name (c : exc_class) : string :=
  match c with
  | RuntimeError => "RuntimeError"
  | ValueError => "ValueError"
  | TypeError => "TypeError"
  | AttributeError => "AttributeError"
  | FileNotFoundError => "FileNotFoundError"
  | ImportError => "ImportError"
  | ModuleNotFoundError => "ModuleNotFoundError"
  | JSONDecodeError => "JSONDecodeError"
  | KeyboardInterrupt => "KeyboardInterrupt"
  | SystemExit => "SystemExit"
  | OtherError name => name
  end.

Module SandboxBridge.

(** The library [prime_sandboxes], which is not part of these sources:
    the constructor of the client (the exception it raises, if any), the
    constructor of a request from its keyword arguments, and the calls of
    the client.  [client_create] gives the [id] of the sandbox created,
    [client_execute_command] the attributes [stdout] and [stderr] of the
    result, each a string or [None]. *)
Record prime_sandboxes : Type := {
  AsyncSandboxClient : option pyexc;
  CreateSandboxRequest : dict -> pyexc + pyval;
  client_create : pyval -> pyexc + pyval;
  client_wait_for_creation : pyval -> option pyexc;
  client_execute_command : pyval -> pyval -> pyexc + (option string * option string);
  client_delete : pyval -> option pyexc
}.

Definition not_installed : pyexc :=
  Exc ImportError
    "prime-sandboxes is not installed. Install it with: pip install prime-sandboxes".

Definition no_attribute_get (v : pyval) : pyexc :=
  Exc AttributeError ("'" +:+ type_name v +:+ "' object has no attribute 'get'").

(** A statement that returns nothing or raises. *)
Definition check (r : option pyexc) : pyexc + unit :=
  match r with
  | Some e => inl e
  | None => inr tt
  end.

(** The first lines of the three operations: the library must have been
    imported, and a client is made. *)
Definition connect (library : option prime_sandboxes) : pyexc + prime_sandboxes :=
  match library with
  | None => inl not_installed
  | Some lib => (_ <-? check (AsyncSandboxClient lib) ;; inr lib)%py
  end.

(** The keyword arguments of [CreateSandboxRequest], each with the key of
    [config] it is read from and its default. *)
Definition request_fields : list (string * string * pyval) :=
  [ ("name", "name", PStr "sandbox-env");
    ("docker_image", "dockerImage", PStr "python:3.11-slim");
    ("start_command", "startCommand", PStr "tail -f /dev/null");
    ("cpu_cores", "cpuCores", PInt 1);
    ("memory_gb", "memoryGb", PInt 2);
    ("disk_size_gb", "diskSizeGb", PInt 5);
    ("gpu_count", "gpuCount", PInt 0);
    ("timeout_minutes", "timeoutMinutes", PInt 60);
    ("environment_vars", "environmentVars", PDict []);
    ("team_id", "teamId", PNone);
    ("advanced_configs", "advancedConfigs", PNone) ].

(** [create_sandbox(config)] *)
Definition create_sandbox (library : option prime_sandboxes) (config : pyval)
  : pyexc + dict :=
  (lib <-? connect library ;;
   match config with
   | PDict c =>
       request <-? CreateSandboxRequest lib
                     (map (fun f => (fst (fst f), default (snd f) (Py.get (snd (fst f)) c)))
                        request_fields) ;;
       id <-? client_create lib request ;;
       inr [("id", id)]
   | _ => inl (no_attribute_get config)
   end)%py.

(** [text.strip()] when [text] is a string that is not empty, the empty
    string otherwise. *)
Definition stripped (text : option string) : string :=
  match text with
  | Some s => if Text.nonempty s then Text.strip s else ""
  | None => ""
  end.

(** [execute_command(sandbox_id, command)] *)
Definition execute_command (library : option prime_sandboxes) (sandbox_id command : pyval)
  : pyexc + dict :=
  (lib <-? connect library ;;
   _ <-? check (client_wait_for_creation lib sandbox_id) ;;
   result <-? client_execute_command lib sandbox_id command ;;
   inr [ ("stdout", PStr (stripped (fst result)));
         ("stderr", PStr (stripped (snd result))) ])%py.

(** [delete_sandbox(sandbox_id)] *)
Definition delete_sandbox (library : option prime_sandboxes) (sandbox_id : pyval)
  : pyexc + dict :=
  (lib <-? connect library ;;
   _ <-? check (client_delete lib sandbox_id) ;;
   inr [("success", PBool true)])%py.

Definition unknown_method (rt : runtime) (method : pyval) : pyexc :=
  Exc ValueError
    ("Unknown method: " +:+ py_str rt method
     +:+ ". Supported methods: create, execute, delete").

(** [method == name] for the string [name]. *)
Definition is_method (name : string) (method : pyval) : bool :=
  match method with
  | PStr s => String.eqb s name
  | _ => false
  end.

(** [handle_command(command)] *)
Definition handle_command (rt : runtime) (library : option prime_sandboxes)
  (command : pyval) : pyexc + dict :=
  match command with
  | PDict c =>
      let method := default PNone (Py.get "method" c) in
      if is_method "create" method then
        create_sandbox library (default (PDict []) (Py.get "config" c))
      else if is_method "execute" method then
        let sandbox_id := default PNone (Py.get "sandbox_id" c) in
        let cmd := default PNone (Py.get "command" c) in
        if negb (Py.truthy sandbox_id) || negb (Py.truthy cmd)
        then inl (Exc ValueError "sandbox_id and command are required for execute method")
        else execute_command library sandbox_id cmd
      else if is_method "delete" method then
        let sandbox_id := default PNone (Py.get "sandbox_id" c) in
        if negb (Py.truthy sandbox_id)
        then inl (Exc ValueError "sandbox_id is required for delete method")
        else delete_sandbox library sandbox_id
      else inl (unknown_method rt method)
  | _ => inl (no_attribute_get command)
  end.

(** How a run of the script ends: the exit status and what was written to
    the two output channels. *)
Record finished : Type := Finished {
  status : Z;
  stdout : string;
  stderr : string
}.

(** The body of the [try] statement of [main] up to the text it prints.
    [decode_error_text] is the message of the [JSONDecodeError] that
    [json.loads] raises for a text. *)
Definition respond (rt : runtime) (library : option prime_sandboxes)
  (decode_error_text : string -> string) (input_data : string) : pyexc + string :=
  if negb (Text.nonempty (Text.strip input_data))
  then inl (Exc ValueError "No input provided")
  else
    match Json.loads (parse_float rt) input_data with
    | None => inl (Exc JSONDecodeError (decode_error_text input_data))
    | Some command =>
        (result <-? handle_command rt library command ;;
         json_dumps rt (PDict result))%py
    end.

Definition error_data (e : pyexc) : pyval :=
  PDict [ ("error", PStr (exc_str e));
          ("error_type", PStr (class_name (exc_class_of e))) ].

(** [main()] on the standard input [input_data]: the way the script ends,
    or the exception that leaves [main] when the handler does not catch
    it or raises itself. *)
Definition main (rt : runtime) (library : option prime_sandboxes)
  (decode_error_text : string -> string) (input_data : string) : pyexc + finished :=
  match respond rt library decode_error_text input_data with
  | inr line => inr (Finished 0 (line +:+ Text.nl) "")
  | inl e =>
      if is_Exception e then
        (line <-? json_dumps rt (error_data e) ;;
         inr (Finished 1 "" (line +:+ Text.nl)))%py
      else inl e
  end.

End SandboxBridge.

(** ** More vocabulary *)

(** What [read_response] makes of the text [json_str] that it has cut out
    of the output. *)
Definition interpret (rt : runtime) (method_name json_str stderr : string)
  : pyexc + pyval :=
  match Json.loads (parse_float rt) json_str with
  | None => inl (Condition.DecodeError method_name json_str stderr)
  | Some data =>
      match (if String.eqb method_name "evaluate" then types rt else None) with
      | Some ty =>
          match to_generate_outputs rt ty data with
          | inl (Exc JSONDecodeError _) =>
              inl (Condition.DecodeError method_name json_str stderr)
          | r => r
          end
      | None => inr data
      end
  end.

(** The script that [_call_ts_method] writes once the module is built in
    [dist_path], or the exception that [json.dumps] raises for one of its
    four parts. *)
Definition script_of (rt : runtime) (method_name : string) (args : list pyval)
  (kwargs : dict) (w : TSEnvironmentWrapper) (dist_path : string) : pyexc + string :=
  let index_js_path := Os.joinpath dist_path "index.js" in
  let abs_path := resolve rt index_js_path in
  let path_str := Text.replace Text.backslash "/" abs_path in
  let import_path := "file:///" +:+ path_str in
  (import_path_json <-? json_dumps rt (PStr import_path) ;;
   env_args_json <-? json_dumps rt (PDict (env_args w)) ;;
   args_json <-? json_dumps rt (PTuple args) ;;
   kwargs_json <-? json_dumps rt (PDict kwargs) ;;
   inr (driver_script import_path_json env_args_json method_name args_json kwargs_json))%py.

(** The clause [finally: script_path.unlink()] after a body that ended
    with [r]. *)
Definition then_unlink (script_path : string) (r : outcome pyval) (st : machine)
  : outcome pyval * machine :=
  match Os.unlink script_path (os st) with
  | (Ret _, h) => (r, Machine (self st) h)
  | (Raise e, h) => (Raise e, Machine (self st) h)
  end.

(** The character [c] does not occur in [s]. *)
Definition lacks (c : ascii) (s : string) : Prop := Text.find c s = -1.

(** Every tool call listed in a dictionary message of the sequence
    [messages] has the normal shape. *)
Definition tool_calls_normal (messages : pyval) : Prop :=
  forall msgs d tool_calls,
    messages = PList msgs ->
    In (PDict d) msgs ->
    Py.get "tool_calls" d = Some (PList tool_calls) ->
    Forall normal_tool_call tool_calls.

(** The keys of a dictionary, in order. *)
Definition keys (d : dict) : list string := map fst d.

(** The message [after] is the message [before] but for the tool calls it
    lists: a dictionary has the same keys in the same order and the same
    values under all of them but [tool_calls], where a list has become a
    list of the same length; without such a list, and for anything that is
    not a dictionary, the two are the same. *)
Definition same_but_tool_calls (before after : pyval) : Prop :=
  match before with
  | PDict d =>
      exists d',
        after = PDict d' /\
        keys d' = keys d /\
        (forall k, k <> "tool_calls" -> Py.get k d' = Py.get k d) /\
        match Py.get "tool_calls" d with
        | Some (PList tool_calls) =>
            exists tool_calls',
              Py.get "tool_calls" d' = Some (PList tool_calls') /\
              length tool_calls' = length tool_calls
        | _ => d' = d
        end
  | _ => after = before
  end.

(** An invocation of the driver. *)
Definition is_driver (e : event) : bool :=
  match e with
  | Spawn ("node" :: _) _ => true
  | _ => false
  end.

Definition is_spawn (e : event) : bool :=
  match e with
  | Spawn _ _ => true
  | _ => false
  end.

(** How many of the events [l] satisfy [p]. *)
Definition count (p : event -> bool) (l : list event) : nat :=
  length (List.filter p l).

(** The message [after] is what [patched_sanitize_tool_calls] has made of
    the message [before]: a dictionary without the key [tool_calls] is
    kept; one with that key has become a dictionary of exactly three
    entries, its role, its content (the empty string when it had none) and
    as many strings as the value under [tool_calls] has items; anything
    else is what the value's own operations, [other], make of it. *)
Definition sanitized_from (other : pyval -> pyexc + pyval) (before after : pyval) : Prop :=
  match before with
  | PDict d =>
      match Py.get "tool_calls" d with
      | None => after = before
      | Some tool_calls =>
          exists role items strings,
            Py.get "role" d = Some role /\
            iterate tool_calls = inr items /\
            length strings = length items /\
            after = PDict [ ("role", role);
                            ("content", default (PStr "") (Py.get "content" d));
                            ("tool_calls", PList (map PStr strings)) ]
      end
  | _ => other before = inr after
  end.

(** More scenarios. *)
Module Cases.


(** The plain runtime of the scenarios: the build succeeds, the driver
    prints [stdout], nothing can be imported. *)
Definition plain (stdout : string) : runtime :=
  Scenario.runtime_of Scenario.build_succeeds (Scenario.node_prints stdout)
    Scenario.no_modules.

(** The bridge can be imported, and nothing else. *)
Definition only_bridge (name : string) (h : host) : pyexc + py_module :=
  if String.eqb name EnvUtils.bridge_module
  then inr {| load_environment_attr := None |}
  else Scenario.no_modules name h.



(** A host on which the module [my-env] is installed in a directory named
    with an underscore. *)
Definition underscored : host :=
  Host (<["/work/environments" := Dir]>
          (<["/work/environments/my_env" := Dir]>
             (<["/work/environments/my_env/package.json" := File "{}"]> ∅)))
       [] [] [].

(** A host with the example installed under [/repo/environments]. *)
Definition example_installed : host :=
  Host (<["/repo/environments/example-generate-text-agent" := Dir]>
          (<["/repo/environments/example-generate-text-agent/package.json" := File "{}"]> ∅))
       [] [] [].

(** A module directory built without its entry file. *)
Definition stale : host :=
  Host (<[Scenario.dist := Dir]> (fs Scenario.installed)) [] [] [].

(** A library whose calls all succeed. *)
Definition sandboxes : SandboxBridge.prime_sandboxes :=
  {| SandboxBridge.AsyncSandboxClient := None;
     SandboxBridge.CreateSandboxRequest := fun fields => inr (PDict fields);
     SandboxBridge.client_create := fun _ => inr (PStr "sbx-1");
     SandboxBridge.client_wait_for_creation := fun _ => None;
     SandboxBridge.client_execute_command := fun _ _ => inr (Some ("ok" +:+ Text.nl), None);
     SandboxBridge.client_delete := fun _ => None |}.

Definition evaluate_args : Evaluate.args :=
  {| Evaluate.client := [("api_key", PStr "sk-test")];
     Evaluate.model := PStr "gpt";
     Evaluate.sampling_args := PNone;
     Evaluate.num_examples := PInt 1;
     Evaluate.rollouts_per_example := PInt 1;
     Evaluate.score_rollouts := PBool true;
     Evaluate.max_concurrent := PInt (-1);
     Evaluate.max_concurrent_generation := PNone;
     Evaluate.max_concurrent_scoring := PNone;
     Evaluate.interleave_scoring := PBool true;
     Evaluate.results_path := PNone;
     Evaluate.state_columns := PNone;
     Evaluate.save_every := PInt (-1);
     Evaluate.kwargs := [] |}.

End Cases.

(** * Properties *)

(** ** The decoder has fuel enough *)

Section DecoderFuel.

Import Text Json.

Variable pf : string -> spec_float.

Lemma length_strip_prefix (p s r : string) :
  strip_prefix p s = Some r ->
  String.length s = (String.length p + String.length r)%nat.
Proof.
  revert s. induction p as [|a p IH]; intros s; cbn [strip_prefix].
  - now intros [= ->].
  - destruct s as [|b s]; [discriminate|].
    destruct (Ascii.eqb a b); [|discriminate].
    intros H. cbn [String.length]. now rewrite (IH _ H).
Qed.

Lemma length_skip_ws (s : string) :
  (String.length (skip_ws s) <= String.length s)%nat.
Proof.
  induction s as [|c r IH]; cbn [skip_ws]; [lia|].
  destruct (is_ws c); cbn [String.length]; lia.
Qed.

Lemma length_scanstring (n : nat) :
  forall s acc str r,
    (String.length s <= n)%nat ->
    scanstring s acc = Some (str, r) ->
    (String.length r < String.length s)%nat.
Proof.
  induction n as [|n IH]; intros s acc str r Hn.
  - destruct s; [discriminate|cbn [String.length] in Hn; lia].
  - destruct s as [|c s]; [discriminate|].
    cbn [String.length] in Hn. cbn [scanstring String.length].
    destruct (Ascii.eqb c dquote); [intros [= <- <-]; lia|].
    destruct (Ascii.eqb c backslash).
    + destruct s as [|e r1]; [discriminate|]. cbn [String.length] in *.
      destruct (Ascii.eqb e "u").
      * destruct r1 as [|h1 [|h2 [|h3 [|h4 r2]]]]; try discriminate.
        cbn [String.length] in *.
        destruct (hex4 h1 h2 h3 h4) as [hi|]; [|discriminate].
        destruct (if high_surrogate hi then low_escape r2 else None) as [lo|];
          [|intros H; apply IH in H; lia].
        destruct r2 as [|a1 [|a2 [|a3 [|a4 [|a5 [|a6 r3]]]]]];
          cbn [String.length] in *;
          intros H; apply IH in H; cbn [String.length] in *; lia.
      * destruct (unescape e); [|discriminate].
        intros H. apply IH in H; lia.
    + destruct (code c <? 32)%N; [discriminate|].
      intros H. apply IH in H; lia.
Qed.

Lemma length_span_digits (s : string) :
  (String.length (snd (span_digits s)) <= String.length s)%nat.
Proof.
  induction s as [|c r IH]; cbn [span_digits]; [cbn; lia|].
  destruct (is_digit c); [|cbn; lia].
  destruct (span_digits r) as [ds rest]. cbn [snd String.length] in *. lia.
Qed.

Lemma length_scan_integer (s : string) (neg : bool) (ds r : string) :
  scan_integer s = Some (neg, ds, r) ->
  (String.length r < String.length s)%nat.
Proof.
  unfold scan_integer.
  assert (E : (String.length
                 (snd (match strip_prefix "-" s with
                       | Some r => (true, r)
                       | None => (false, s)
                       end)) <= String.length s)%nat).
  { destruct (strip_prefix "-" s) as [t|] eqn:E; cbn [snd]; [|lia].
    apply length_strip_prefix in E. lia. }
  destruct (match strip_prefix "-" s with Some r => _ | None => _ end) as [b s1].
  cbn [snd] in E.
  destruct (strip_prefix "0" s1) as [t|] eqn:E0.
  - intros [= <- <- <-]. apply length_strip_prefix in E0. cbn [String.length] in E0. lia.
  - destruct s1 as [|c t]; [discriminate|].
    destruct (is_digit c); [|discriminate].
    pose proof (length_span_digits t) as Hd.
    destruct (span_digits t) as [ds' rest]. cbn [snd] in Hd.
    intros [= <- <- <-]. cbn [String.length] in E. lia.
Qed.

Lemma length_scan_frac (s : string) :
  (String.length (snd (scan_frac s)) <= String.length s)%nat.
Proof.
  unfold scan_frac.
  destruct (strip_prefix "." s) as [r|] eqn:E; [|cbn; lia].
  apply length_strip_prefix in E.
  pose proof (length_span_digits r) as Hd.
  destruct (span_digits r) as [[|d ds] rest]; cbn [snd] in *; lia.
Qed.

Lemma length_scan_exp (s : string) :
  (String.length (snd (scan_exp s)) <= String.length s)%nat.
Proof.
  unfold scan_exp. destruct s as [|e r]; [cbn; lia|].
  destruct (_ || _); [|cbn; lia].
  assert (E : (String.length
                 (snd (match strip_prefix "-" r with
                       | Some t => ("-", t)
                       | None =>
                           match strip_prefix "+" r with
                           | Some t => ("+", t)
                           | None => (EmptyString, r)
                           end
                       end)) <= String.length r)%nat).
  { destruct (strip_prefix "-" r) as [t|] eqn:E1; cbn [snd].
    - apply length_strip_prefix in E1. lia.
    - destruct (strip_prefix "+" r) as [t|] eqn:E2; cbn [snd]; [|lia].
      apply length_strip_prefix in E2. lia. }
  destruct (match strip_prefix "-" r with Some t => _ | None => _ end) as [sign r1].
  cbn [snd] in E.
  pose proof (length_span_digits r1) as Hd.
  destruct (span_digits r1) as [[|d ds] rest]; cbn [snd String.length] in *; lia.
Qed.

Lemma length_scan_number (s : string) (v : pyval) (r : string) :
  scan_number pf s = Some (v, r) ->
  (String.length r < String.length s)%nat.
Proof.
  unfold scan_number.
  destruct (scan_integer s) as [[[neg ds] r0]|] eqn:Ei; [|discriminate].
  apply length_scan_integer in Ei.
  pose proof (length_scan_frac r0) as Hf.
  destruct (scan_frac r0) as [frac r1]. cbn [snd] in Hf.
  pose proof (length_scan_exp r1) as He.
  destruct (scan_exp r1) as [ex r2]. cbn [snd] in He.
  destruct frac, ex; intros [= <- <-]; lia.
Qed.

Lemma length_scan_constant (s : string) (v : pyval) (r : string) :
  scan_constant pf s = Some (v, r) ->
  (String.length r < String.length s)%nat.
Proof.
  unfold scan_constant.
  repeat match goal with
         | |- context [strip_prefix ?p s] =>
             let E := fresh "E" in
             destruct (strip_prefix p s) eqn:E;
             [intros [= <- <-]; apply length_strip_prefix in E;
              cbn [String.length] in E; lia|]
         | |- context [scan_number pf s] =>
             let E := fresh "E" in
             destruct (scan_number pf s) as [[]|] eqn:E;
             [intros [= <- <-]; now apply length_scan_number in E|]
         end.
  discriminate.
Qed.

(** Every value that the scanner reads takes at least one character. *)
Lemma length_scan (n : nat) :
  (forall s v r, scan_once pf n s = Some (v, r) ->
                 (String.length r < String.length s)%nat) /\
  (forall s acc l r, scan_array pf n s acc = Some (l, r) ->
                     (String.length r < String.length s)%nat) /\
  (forall s acc l r, scan_object pf n s acc = Some (l, r) ->
                     (String.length r < String.length s)%nat).
Proof.
  induction n as [|n (IHonce & IHarray & IHobject)];
    [repeat split; intros; discriminate|].
  repeat split.
  - intros s v r. cbn [scan_once].
    destruct (strip_prefix (String dquote "") s) as [t|] eqn:Eq.
    { apply length_strip_prefix in Eq. cbn [String.length] in Eq.
      destruct (scanstring t "") as [[str rest]|] eqn:Es; [|discriminate].
      apply (length_scanstring _ _ _ _ _ (le_n _)) in Es.
      intros [= <- <-]. lia. }
    destruct (strip_prefix "{" s) as [t|] eqn:Eb.
    { apply length_strip_prefix in Eb. cbn [String.length] in Eb.
      pose proof (length_skip_ws t) as Hw.
      destruct (strip_prefix "}" (skip_ws t)) as [rest|] eqn:Ec.
      - apply length_strip_prefix in Ec. intros [= <- <-]. lia.
      - destruct (scan_object pf n (skip_ws t) []) as [[pairs rest]|] eqn:Eo;
          [|discriminate].
        apply IHobject in Eo. intros [= <- <-]. lia. }
    destruct (strip_prefix "[" s) as [t|] eqn:Ea.
    { apply length_strip_prefix in Ea. cbn [String.length] in Ea.
      pose proof (length_skip_ws t) as Hw.
      destruct (strip_prefix "]" (skip_ws t)) as [rest|] eqn:Ec.
      - apply length_strip_prefix in Ec. intros [= <- <-]. lia.
      - destruct (scan_array pf n (skip_ws t) []) as [[items rest]|] eqn:Eo;
          [|discriminate].
        apply IHarray in Eo. intros [= <- <-]. lia. }
    apply length_scan_constant.
  - intros s acc l r. cbn [scan_array].
    destruct (scan_once pf n s) as [[v t]|] eqn:Ev; [|discriminate].
    apply IHonce in Ev. pose proof (length_skip_ws t) as Hw.
    destruct (strip_prefix "]" (skip_ws t)) as [rest|] eqn:Ec.
    + apply length_strip_prefix in Ec. intros [= <- <-]. lia.
    + destruct (strip_prefix "," (skip_ws t)) as [rest|] eqn:Em; [|discriminate].
      apply length_strip_prefix in Em. pose proof (length_skip_ws rest) as Hw'.
      intros H. apply IHarray in H. lia.
  - intros s acc l r. cbn [scan_object].
    destruct (strip_prefix (String dquote "") s) as [t|] eqn:Eq; [|discriminate].
    apply length_strip_prefix in Eq. cbn [String.length] in Eq.
    destruct (scanstring t "") as [[key r1]|] eqn:Es; [|discriminate].
    apply (length_scanstring _ _ _ _ _ (le_n _)) in Es.
    pose proof (length_skip_ws r1) as Hw1.
    destruct (strip_prefix ":" (skip_ws r1)) as [r2|] eqn:Ec; [|discriminate].
    apply length_strip_prefix in Ec. pose proof (length_skip_ws r2) as Hw2.
    destruct (scan_once pf n (skip_ws r2)) as [[v r3]|] eqn:Ev; [|discriminate].
    apply IHonce in Ev. pose proof (length_skip_ws r3) as Hw3.
    destruct (strip_prefix "}" (skip_ws r3)) as [rest|] eqn:Ee.
    + apply length_strip_prefix in Ee. intros [= <- <-]. lia.
    + destruct (strip_prefix "," (skip_ws r3)) as [rest|] eqn:Em; [|discriminate].
      apply length_strip_prefix in Em. pose proof (length_skip_ws rest) as Hw'.
      intros H. apply IHobject in H. lia.
Qed.

(** With fuel above twice the length of the text, more fuel changes
    nothing. *)
Lemma scan_fuel (n : nat) :
  forall m,
    (forall s, (2 * String.length s + 1 <= n)%nat -> (2 * String.length s + 1 <= m)%nat ->
               scan_once pf n s = scan_once pf m s) /\
    (forall s acc, (2 * String.length s + 2 <= n)%nat -> (2 * String.length s + 2 <= m)%nat ->
                   scan_array pf n s acc = scan_array pf m s acc) /\
    (forall s acc, (2 * String.length s + 2 <= n)%nat -> (2 * String.length s + 2 <= m)%nat ->
                   scan_object pf n s acc = scan_object pf m s acc).
Proof.
  induction n as [|n IH]; intros m; [repeat split; intros; lia|].
  destruct m as [|m]; [repeat split; intros; lia|].
  destruct (IH m) as (IHonce & IHarray & IHobject).
  destruct (length_scan n) as (Lonce & _ & _).
  repeat split.
  - intros s Hn Hm. cbn [scan_once].
    destruct (strip_prefix (String dquote "") s); [reflexivity|].
    destruct (strip_prefix "{" s) as [t|] eqn:Eb.
    { apply length_strip_prefix in Eb. cbn [String.length] in Eb.
      pose proof (length_skip_ws t) as Hw.
      destruct (strip_prefix "}" (skip_ws t)); [reflexivity|].
      rewrite (IHobject (skip_ws t) []) by lia. reflexivity. }
    destruct (strip_prefix "[" s) as [t|] eqn:Ea; [|reflexivity].
    apply length_strip_prefix in Ea. cbn [String.length] in Ea.
    pose proof (length_skip_ws t) as Hw.
    destruct (strip_prefix "]" (skip_ws t)); [reflexivity|].
    rewrite (IHarray (skip_ws t) []) by lia. reflexivity.
  - intros s acc Hn Hm. cbn [scan_array].
    rewrite <- (IHonce s) by lia.
    destruct (scan_once pf n s) as [[v t]|] eqn:Ev; [|reflexivity].
    apply Lonce in Ev. pose proof (length_skip_ws t) as Hw.
    destruct (strip_prefix "]" (skip_ws t)); [reflexivity|].
    destruct (strip_prefix "," (skip_ws t)) as [rest|] eqn:Em; [|reflexivity].
    apply length_strip_prefix in Em. pose proof (length_skip_ws rest) as Hw'.
    cbn [String.length] in Em.
    apply IHarray; lia.
  - intros s acc Hn Hm. cbn [scan_object].
    destruct (strip_prefix (String dquote "") s) as [t|] eqn:Eq; [|reflexivity].
    apply length_strip_prefix in Eq. cbn [String.length] in Eq.
    destruct (scanstring t "") as [[key r1]|] eqn:Es; [|reflexivity].
    apply (length_scanstring _ _ _ _ _ (le_n _)) in Es.
    pose proof (length_skip_ws r1) as Hw1.
    destruct (strip_prefix ":" (skip_ws r1)) as [r2|] eqn:Ec; [|reflexivity].
    apply length_strip_prefix in Ec. pose proof (length_skip_ws r2) as Hw2.
    cbn [String.length] in Ec.
    rewrite <- (IHonce (skip_ws r2)) by lia.
    destruct (scan_once pf n (skip_ws r2)) as [[v r3]|] eqn:Ev; [|reflexivity].
    apply Lonce in Ev. pose proof (length_skip_ws r3) as Hw3.
    destruct (strip_prefix "}" (skip_ws r3)); [reflexivity|].
    destruct (strip_prefix "," (skip_ws r3)) as [rest|] eqn:Em; [|reflexivity].
    apply length_strip_prefix in Em. pose proof (length_skip_ws rest) as Hw'.
    cbn [String.length] in Em.
    apply IHobject; lia.
Qed.

(** [Json.loads] never runs out of fuel: with any fuel from its own
    upwards, the scanner reads the same. *)
Lemma loads_has_fuel_enough (s : string) (n : nat) :
  (2 * String.length s + 2 <= n)%nat ->
  scan_once pf n (skip_ws s) = scan_once pf (2 * String.length s + 2) (skip_ws s).
Proof.
  intros Hn. pose proof (length_skip_ws s) as Hw.
  apply scan_fuel; lia.
Qed.

End DecoderFuel.

(** ** Stripping has fuel enough *)

Section StripFuel.

Import Text.

Lemma drop_one_shortens (tokens : list string) (s r : string) :
  Forall (fun t => t <> EmptyString) tokens ->
  drop_one tokens s = Some r -> (String.length r < String.length s)%nat.
Proof.
  intros Htokens.
  induction Htokens as [|t ts Ht _ IH]; cbn [drop_one]; [discriminate|].
  destruct (strip_prefix t s) as [r'|] eqn:E; [|exact IH].
  intros [= ->]. apply length_strip_prefix in E.
  destruct t; [contradiction|cbn [String.length] in E; lia].
Qed.

(** With fuel from the length of the text upwards, more fuel changes
    nothing. *)
Lemma drop_leading_fuel (tokens : list string) (n : nat) :
  Forall (fun t => t <> EmptyString) tokens ->
  forall m s,
    (String.length s <= n)%nat -> (String.length s <= m)%nat ->
    drop_leading tokens n s = drop_leading tokens m s.
Proof.
  intros Htokens.
  induction n as [|n IH]; intros m s Hn Hm.
  - destruct s; [|cbn [String.length] in Hn; lia].
    destruct m; cbn [drop_leading]; [reflexivity|].
    destruct (drop_one tokens "") as [r|] eqn:E; [|reflexivity].
    apply drop_one_shortens in E; [|exact Htokens]. cbn [String.length] in E. lia.
  - destruct m as [|m].
    + destruct s; [|cbn [String.length] in Hm; lia].
      cbn [drop_leading].
      destruct (drop_one tokens "") as [r|] eqn:E; [|reflexivity].
      apply drop_one_shortens in E; [|exact Htokens]. cbn [String.length] in E. lia.
    + cbn [drop_leading].
      destruct (drop_one tokens s) as [r|] eqn:E; [|reflexivity].
      apply drop_one_shortens in E; [|exact Htokens]. apply IH; lia.
Qed.

End StripFuel.

Lemma whitespace_nonempty :
  Forall (fun t => t <> EmptyString) Text.whitespace /\
  Forall (fun t => t <> EmptyString) (map String.rev Text.whitespace).
Proof. split; repeat constructor; discriminate. Qed.


(** ** Dictionaries *)

Section DictFacts.

Implicit Types (k : string) (v : pyval) (d : dict).

Lemma get_set_same k v d : Py.get k (Py.set k v d) = Some v.
Proof.
  induction d as [|[k' v'] d IH]; simpl.
  - now rewrite String.eqb_refl.
  - destruct (String.eqb k' k) eqn:E; simpl; rewrite E; auto.
Qed.

Lemma get_set_other k k' v d :
  k <> k' -> Py.get k' (Py.set k v d) = Py.get k' d.
Proof.
  intros Hne. induction d as [|[k0 v0] d IH]; simpl.
  - destruct (String.eqb k k') eqn:E; auto.
    apply String.eqb_eq in E. contradiction.
  - destruct (String.eqb k0 k) eqn:E; simpl.
    + apply String.eqb_eq in E. subst k0.
      destruct (String.eqb k k') eqn:E'; auto.
      apply String.eqb_eq in E'. contradiction.
    + now rewrite IH.
Qed.

Lemma set_get_id k v d : Py.get k d = Some v -> Py.set k v d = d.
Proof.
  induction d as [|[k' v'] d IH]; simpl; [discriminate|].
  destruct (String.eqb k' k) eqn:E.
  - now intros [= ->].
  - intros H. now rewrite IH.
Qed.

Lemma set_set k v w d : Py.set k v (Py.set k w d) = Py.set k v d.
Proof.
  induction d as [|[k' v'] d IH]; simpl.
  - now rewrite String.eqb_refl.
  - destruct (String.eqb k' k) eqn:E; simpl; rewrite E; auto.
    now rewrite IH.
Qed.

End DictFacts.

(** ** Normalization of tool calls *)

Section Normalization.

Variable rt : runtime.

Lemma with_name_named (f : dict) :
  exists name, Py.get "name" (with_name f) = Some (PStr name).
Proof.
  unfold with_name.
  destruct (Py.get "name" f) as [[]|] eqn:E;
    try (eexists; apply get_set_same).
  eexists; exact E.
Qed.

Lemma with_type_typed (d : dict) :
  exists t, Py.get "type" (with_type d) = Some (PStr t).
Proof.
  unfold with_type.
  destruct (Py.get "type" d) as [[]|] eqn:E;
    try (eexists; apply get_set_same).
  eexists; exact E.
Qed.

Lemma with_arguments_normal (f f' : dict) :
  (exists name, Py.get "name" f = Some (PStr name)) ->
  with_arguments rt f = inr f' ->
  normal_function f'.
Proof.
  intros [name Hname]. unfold with_arguments.
  assert (Hkeep : forall v, Py.get "name" (Py.set "arguments" v f) = Some (PStr name)).
  { intros v. rewrite get_set_other; [exact Hname|discriminate]. }
  destruct (Py.get "arguments" f) as [a|] eqn:Ea.
  - destruct a;
      try (destruct (json_dumps rt _) as [e|encoded]; simpl; [discriminate|]);
      intros [= <-]; split; eauto using get_set_same.
  - intros [= <-]. split; eauto using get_set_same.
Qed.

(** Every tool call that [normalize_tool_call] returns has the normalized
    shape, however the guest emitted it. *)
Lemma normalize_tool_call_normal tc r :
  normalize_tool_call rt tc = inr r -> normal_tool_call r.
Proof.
  unfold normalize_tool_call.
  destruct (with_arguments rt _) as [e|func] eqn:Ef; simpl; [discriminate|].
  intros [= <-].
  exists (Py.set "function" (PDict func) (with_type (tool_call_dict rt tc))), func.
  split; [reflexivity|]. split; [|split].
  - destruct (with_type_typed (tool_call_dict rt tc)) as [t Ht]. exists t.
    rewrite get_set_other; [exact Ht|discriminate].
  - apply get_set_same.
  - exact (with_arguments_normal _ _ (with_name_named _) Ef).
Qed.

(** A normalized tool call is a fixed point of [normalize_tool_call]. *)
Lemma normalize_normal_tool_call tc :
  normal_tool_call tc -> normalize_tool_call rt tc = inr tc.
Proof.
  intros (d & f & -> & [t Ht] & Hf & [name Hn] & [arguments Ha]).
  unfold normalize_tool_call, tool_call_dict.
  assert (with_type d = d) as -> by (unfold with_type; now rewrite Ht).
  assert (function_dict rt d = f) as ->.
  { unfold function_dict, Py.or_else. rewrite Hf. cbn [default].
    destruct f; [discriminate Hn|reflexivity]. }
  assert (with_name f = f) as -> by (unfold with_name; now rewrite Hn).
  assert (with_arguments rt f = inr f) as -> by (unfold with_arguments; now rewrite Ha).
  simpl. now rewrite (set_get_id _ _ _ Hf).
Qed.

Lemma normalize_tool_call_idem tc r :
  normalize_tool_call rt tc = inr r -> normalize_tool_call rt r = inr r.
Proof.
  intros H. apply normalize_normal_tool_call.
  exact (normalize_tool_call_normal _ _ H).
Qed.

(** A loop whose body fixes each of its results fixes its list of
    results. *)
Lemma traverse_idem {A} (f : A -> pyexc + A) :
  (forall x y, f x = inr y -> f y = inr y) ->
  forall l l', traverse f l = inr l' -> traverse f l' = inr l'.
Proof.
  intros Hf. induction l as [|x l IH]; intros l' H; simpl in H.
  - now injection H as <-.
  - destruct (f x) as [e|y] eqn:Ex; simpl in H; [discriminate|].
    destruct (traverse f l) as [e|ys] eqn:El; simpl in H; [discriminate|].
    injection H as <-. simpl.
    rewrite (Hf _ _ Ex). simpl. rewrite (IH _ eq_refl). reflexivity.
Qed.

Lemma normalize_message_idem msg r :
  normalize_message rt msg = inr r -> normalize_message rt r = inr r.
Proof.
  unfold normalize_message.
  destruct msg as [| | | | | | |new_msg|]; try (intros [= <-]; reflexivity).
  destruct (Py.get "tool_calls" new_msg) as [v|] eqn:E.
  - destruct v as [| | | | |tool_calls| | |];
      try (intros [= <-]; rewrite E; reflexivity).
    destruct (traverse (normalize_tool_call rt) tool_calls) as [e|normalized] eqn:T;
      simpl; [discriminate|].
    intros [= <-]. rewrite get_set_same.
    rewrite (traverse_idem _ normalize_tool_call_idem _ _ T). simpl.
    now rewrite set_set.
  - intros [= <-]. now rewrite E.
Qed.

End Normalization.

(** *** C6 *)

(** C6.  Message-record normalization is idempotent: when
    [normalize_tool_calls_in_messages] returns [normalized] for a message
    sequence, applying it to [normalized] returns [normalized] again,
    entry for entry and in the same order. *)
Theorem normalization_idempotent (rt : runtime) (messages normalized : pyval) :
  normalize_tool_calls_in_messages rt messages = inr normalized ->
  normalize_tool_calls_in_messages rt normalized = inr normalized.
Proof.
  unfold normalize_tool_calls_in_messages.
  destruct messages as [| | | | |msgs| | |]; try (intros [= <-]; reflexivity).
  destruct (traverse (normalize_message rt) msgs) as [e|out] eqn:T; simpl;
    [discriminate|].
  intros [= <-].
  now rewrite (traverse_idem _ (normalize_message_idem rt) _ _ T).
Qed.

(** The sequence of the scenario is normalized, and normalizing the result
    changes nothing. *)
Lemma normalization_idempotent_witness :
  let rt := Scenario.runtime_of Scenario.build_succeeds (Scenario.node_prints "") Scenario.no_modules in
  let normalized :=
    PList [ PDict [("role", PStr "user"); ("content", PStr "hi")];
            PDict [ ("role", PStr "assistant"); ("content", PStr "");
                    ("tool_calls",
                     PList [ PDict [ ("function", PDict [("name", PStr "f"); ("arguments", PStr "{}")]);
                                     ("type", PStr "function") ];
                             PDict [ ("function", PDict [("name", PStr "x"); ("arguments", PStr "{}")]);
                                     ("type", PStr "function") ] ]) ] ] in
  normalize_tool_calls_in_messages rt Scenario.messages = inr normalized /\
  normalize_tool_calls_in_messages rt normalized = inr normalized.
Proof.
  split.
  - reflexivity.
  - apply (normalization_idempotent _ Scenario.messages). reflexivity.
Defined.

(** Normalization raises only what [json.dumps] raises: with an encoder
    that accepts every value it is given, every message sequence is
    normalized. *)
Lemma normalization_total (rt : runtime) :
  (forall v, exists s, json_dumps rt v = inr s) ->
  forall messages, exists normalized,
    normalize_tool_calls_in_messages rt messages = inr normalized.
Proof.
  intros Hdumps.
  assert (Htc : forall tc, exists r, normalize_tool_call rt tc = inr r).
  { intros tc. unfold normalize_tool_call.
    assert (Hargs : forall f, exists f', with_arguments rt f = inr f').
    { intros f. unfold with_arguments.
      destruct (Py.get "arguments" f) as [a|]; [|eauto].
      destruct a; eauto;
        match goal with
        | |- context [json_dumps rt ?v] =>
            destruct (Hdumps v) as [s ->]; simpl; eauto
        end. }
    destruct (Hargs (with_name (function_dict rt (with_type (tool_call_dict rt tc)))))
      as [f' ->].
    simpl. eauto. }
  assert (Hlist : forall {A} (f : A -> pyexc + A),
             (forall x, exists y, f x = inr y) ->
             forall l, exists l', traverse f l = inr l').
  { intros A f Hf. induction l as [|x l [l' IH]]; simpl; [eauto|].
    destruct (Hf x) as [y ->]. simpl. rewrite IH. simpl. eauto. }
  assert (Hmsg : forall msg, exists r, normalize_message rt msg = inr r).
  { intros msg. unfold normalize_message.
    destruct msg; eauto.
    destruct (Py.get "tool_calls" entries) as [[]|]; eauto.
    destruct (Hlist _ _ Htc items) as [l' ->]. simpl. eauto. }
  intros messages. unfold normalize_tool_calls_in_messages.
  destruct messages; eauto.
  destruct (Hlist _ _ Hmsg items) as [l' ->]. simpl. eauto.
Qed.

(** *** C1 *)

(** C1, as the claim states it, fails: under every runtime the scalar tool
    value [x] would have to normalize to a record named [unknown_tool]; in
    the scenario's runtime it normalizes to a record named [x]. *)
Lemma scalar_tool_call_is_not_unknown_tool :
  ~ (forall rt : runtime,
       normalizes_to rt Scenario.tool_call_f (Scenario.record "f") /\
       normalizes_to rt (PStr "x") (Scenario.record "unknown_tool")).
Proof.
  intros H.
  destruct (H (Scenario.runtime_of Scenario.build_succeeds (Scenario.node_prints "")
                 Scenario.no_modules)) as [_ (r & Hr & Heq)].
  vm_compute in Hr. injection Hr as <-. vm_compute in Heq. discriminate.
Qed.

(** C1, amended.  The tool value with a function named [f], no arguments and
    no type normalizes to the record of type [function] with the function
    [f] and the arguments [{}]; the scalar tool value [x] normalizes to the
    record of type [function] whose function is named by the scalar's own
    text, [x], with the arguments [{}]; and
    [normalize_tool_calls_in_messages] puts these records in the place of
    the two tool calls of a message. *)
Theorem tool_call_examples (rt : runtime) :
  normalizes_to rt Scenario.tool_call_f (Scenario.record "f") /\
  normalizes_to rt (PStr "x") (Scenario.record "x") /\
  normalize_tool_calls_in_messages rt Scenario.messages =
    inr (PList [ PDict [("role", PStr "user"); ("content", PStr "hi")];
                 PDict [ ("role", PStr "assistant"); ("content", PStr "");
                         ("tool_calls",
                          PList [ PDict [ ("function", PDict [("name", PStr "f"); ("arguments", PStr "{}")]);
                                          ("type", PStr "function") ];
                                  PDict [ ("function", PDict [("name", PStr "x"); ("arguments", PStr "{}")]);
                                          ("type", PStr "function") ] ]) ] ]).
Proof.
  repeat split.
  - eexists. split; reflexivity.
  - eexists. split; reflexivity.
Qed.

(** The same two tool calls in the response to an [evaluate] call: the
    result handed to [GenerateOutputs] holds the two normalized records. *)
Lemma evaluate_result_is_normalized :
  let rt := Scenario.with_types
              (Scenario.runtime_of Scenario.build_succeeds (Scenario.node_prints "")
                 Scenario.no_modules) in
  read_response rt "evaluate" Scenario.evaluate_stdout "" =
    inr (PObj "GenerateOutputs"
           (Some
              [ ("prompt", PList [PList [PDict [("role", PStr "user"); ("content", PStr "hi")]]]);
                ("completion",
                 PList [PList [PDict
                   [ ("role", PStr "assistant"); ("content", PStr "");
                     ("tool_calls",
                      PList [ PDict [ ("function", PDict [("name", PStr "f"); ("arguments", PStr "{}")]);
                                      ("type", PStr "function") ];
                              PDict [ ("function", PDict [("name", PStr "x"); ("arguments", PStr "{}")]);
                                      ("type", PStr "function") ] ]) ]]]);
                ("metadata", PObj "GenerateMetadata" (Some [("env_id", PStr "demo")])) ])).
Proof. vm_compute; reflexivity. Qed.

(** ** The response of the driver *)

(** *** C2 *)

(** The three examples of payload extraction: text before the payload is
    dropped, blank output is [NoPayload], output without any bracket is
    [PayloadNotFound]. *)
Lemma payload_extraction_examples (rt : runtime) (method_name : string) :
  read_response rt "rollout" (Text.q "unrelated banner text {'ok':true}") ""
    = inr (PDict [("ok", PBool true)]) /\
  read_response rt method_name "" "" = inl (Condition.NoPayload method_name "") /\
  read_response rt method_name ("  " +:+ Text.nl) ""
    = inl (Condition.NoPayload method_name "") /\
  read_response rt method_name "no braces here" ""
    = inl (Condition.PayloadNotFound method_name "no braces here" "").
Proof. repeat split. Qed.

(** Where the scan starts: at the first opening brace when the output has
    one, and at the first opening square bracket only when it has no
    brace. *)
Lemma payload_start (rt : runtime) (method_name stdout stderr : string) :
  Text.nonempty (Text.strip stdout) = true ->
  read_response rt method_name stdout stderr =
    let text := Text.strip stdout in
    let start := if Text.find "{" text =? -1 then Text.find "[" text else Text.find "{" text in
    if start =? -1 then inl (Condition.PayloadNotFound method_name text stderr)
    else
      match Json.loads (parse_float rt) (Text.slice_from start text) with
      | None => inl (Condition.DecodeError method_name (Text.slice_from start text) stderr)
      | Some data =>
          match (if String.eqb method_name "evaluate" then types rt else None) with
          | Some ty =>
              match to_generate_outputs rt ty data with
              | inl (Exc JSONDecodeError _) =>
                  inl (Condition.DecodeError method_name (Text.slice_from start text) stderr)
              | r => r
              end
          | None => inr data
          end
      end.
Proof.
  intros Hstrip. unfold read_response. rewrite Hstrip.
  assert (Text.nonempty stdout = true) as ->.
  { destruct stdout; [discriminate Hstrip|reflexivity]. }
  reflexivity.
Qed.

(** C2, at the input on which the code departs from it.  The output of the
    driver is an array whose first element is an object.  The first bracket
    of the claim's scan is the opening square bracket at offset 0, and from
    there the text decodes to the array of three objects; the code starts
    at the first brace, one character later, cuts the array open and fails
    with [DecodeError]. *)
Theorem array_payload_is_cut_at_its_first_object (rt : runtime) :
  let stdout := Text.q "[{'a':1},{'b':2},{'c':3}]" in
  Text.find "[" stdout = 0 /\
  Text.find "{" stdout = 1 /\
  Json.loads (parse_float rt) (Text.slice_from 0 stdout)
    = Some (PList [PDict [("a", PInt 1)]; PDict [("b", PInt 2)]; PDict [("c", PInt 3)]]) /\
  read_response rt "rollout" stdout ""
    = inl (Condition.DecodeError "rollout" (Text.q "{'a':1},{'b':2},{'c':3}]") "").
Proof. repeat split. Qed.

(** *** C3 *)

(** A text that starts with a brace decodes to a dictionary or not at
    all. *)
Lemma startswith_char (a : ascii) (s : string) :
  Text.startswith (String a "") s = true -> exists r, s = String a r.
Proof.
  unfold Text.startswith. destruct s as [|c r]; cbn [Text.strip_prefix].
  - discriminate.
  - destruct (Ascii.eqb a c) eqn:E; [|discriminate].
    apply Ascii.eqb_eq in E. subst c. eauto.
Qed.

Lemma loads_brace_dict (pf : string -> spec_float) (s : string) (v : pyval) :
  Text.startswith "{" s = true ->
  Json.loads pf s = Some v ->
  exists d, v = PDict d.
Proof.
  intros [r ->]%startswith_char.
  unfold Json.loads.
  change (Json.skip_ws (String "{" r)) with (String "{"%char r).
  replace (2 * String.length (String "{" r) + 2)%nat
    with (S (2 * String.length r + 3)) by (simpl; lia).
  cbn [Json.scan_once].
  change (Text.strip_prefix (String Text.dquote "") (String "{" r)) with (@None string).
  change (Text.strip_prefix "{" (String "{" r)) with (Some r).
  cbv iota beta.
  destruct (Text.strip_prefix "}" (Json.skip_ws r)) as [rest|].
  - destruct (Json.skip_ws rest); intros [= <-]; eauto.
  - destruct (Json.scan_object _ _ _ _) as [[pairs rest]|]; [|discriminate].
    destruct (Json.skip_ws rest); intros [= <-]; eauto.
Qed.

Lemma scan_error_lines_reports (rt : runtime) (method_name text : string)
  (reversed_lines : list string) :
  scan_error_lines rt method_name text reversed_lines =
    Condition.RemoteMethodFailed method_name
      match List.find record_line reversed_lines with
      | Some line =>
          match Json.loads (parse_float rt) (Text.strip line) with
          | Some (PDict record) =>
              py_str rt (default (PStr "Unknown error") (Py.get "error" record))
          | _ => text
          end
      | None => text
      end.
Proof.
  induction reversed_lines as [|line earlier IH]; simpl; [reflexivity|].
  unfold record_line at 1.
  destruct (Text.startswith "{" (Text.strip line)) eqn:Hb; [|exact IH].
  destruct (Json.loads (parse_float rt) (Text.strip line)) as [v|] eqn:Hl;
    [|reflexivity].
  destruct (loads_brace_dict _ _ _ Hb Hl) as [d ->]. reflexivity.
Qed.

(** C3, as the claim states it, fails: when no line of the error channel
    looks like a structured record, the exception would have to carry the
    text of the error channel; for a driver that wrote only to its primary
    channel it carries that output instead. *)
Lemma failure_text_may_come_from_stdout :
  ~ (forall (rt : runtime) (method_name stdout stderr : string),
       last_record_line stderr = None ->
       map_failure rt method_name stdout stderr
         = Condition.RemoteMethodFailed method_name stderr).
Proof.
  intros H.
  specialize (H (Scenario.runtime_of Scenario.build_succeeds (Scenario.node_prints "")
                   Scenario.no_modules)
                "rollout" "oops" "" eq_refl).
  vm_compute in H. discriminate.
Qed.

(** C3, amended.  For a driver that exited with a status other than 0, the
    failure mapper reads the error channel, or the primary channel when the
    error channel is empty; it raises [RemoteMethodFailed] with the [error]
    field of the last line of that text that starts with a brace, when the
    line decodes, and with the whole text when there is no such line or it
    does not decode.  With the error channel of the example, a warm-up line
    followed by a record, the message is [boom]. *)
Theorem failure_mapping (rt : runtime) (method_name stdout stderr : string) :
  map_failure rt method_name stdout stderr
    = Condition.RemoteMethodFailed method_name
        (reported_message rt (error_output stdout stderr)) /\
  map_failure rt method_name "" Scenario.warmup_then_record
    = Condition.RemoteMethodFailed method_name "boom".
Proof.
  split; [|reflexivity].
  unfold map_failure, reported_message, last_record_line.
  apply scan_error_lines_reports.
Qed.

(** ** The build cache *)

(** What [_ensure_compiled] does, case by case. *)
Lemma ensure_compiled_cases (rt : runtime) (w : TSEnvironmentWrapper) (h : host) :
  let st := Machine w h in
  let dist_path := dist_of w in
  let index_js_path := Os.joinpath dist_path "index.js" in
  let cmd := build_cmd rt st in
  _ensure_compiled rt st =
    match _compiled_path w with
    | Some p => (Ret p, st)
    | None =>
        if Os.path_exists h dist_path then (Ret dist_path, Machine (cached dist_path w) h)
        else
          match subprocess_run rt cmd (env_path w) h with
          | (NotStarted e, _) => (Raise e, Machine w (Os.log (Spawn cmd (env_path w)) h))
          | (Exited returncode stdout stderr, f) =>
              let h' := Os.log (Spawn cmd (env_path w)) (Os.with_fs f h) in
              if returncode =? 0 then
                if Os.path_exists h' index_js_path
                then (Ret dist_path, Machine (cached dist_path w) h')
                else (Raise (Condition.BuildIncomplete index_js_path stdout), Machine w h')
              else
                (Raise (Condition.BuildFailed (env_id w)
                          (if Text.nonempty stderr then stderr
                           else if Text.nonempty stdout then stdout
                           else CalledProcessError_str rt cmd returncode)),
                 Machine w h')
          end
    end.
Proof.
  intros st dist_path index_js_path cmd. subst st dist_path index_js_path cmd.
  unfold _ensure_compiled, bind, get, dist_of. cbn [self os].
  destruct (_compiled_path w) as [p|]; [reflexivity|].
  destruct (Os.path_exists h (Os.joinpath (env_path w) "dist")); [reflexivity|].
  unfold on_os, Os.run. cbn [self os].
  destruct (subprocess_run rt _ (env_path w) h) as [[returncode stdout stderr|e] f];
    [|reflexivity].
  destruct (returncode =? 0); [|reflexivity].
  cbn [self os].
  destruct (Os.path_exists _ _); reflexivity.
Qed.

Lemma build_cmd_is_build (rt : runtime) (st : machine) (cwd : string) :
  is_build (Spawn (build_cmd rt st) cwd) = true.
Proof. unfold build_cmd. now destruct (_ || _). Qed.

Lemma builds_log_build (rt : runtime) (st : machine) (cwd : string) (h : host) :
  builds (Os.log (Spawn (build_cmd rt st) cwd) h) = S (builds h).
Proof.
  unfold builds, Os.log. cbn [events List.filter].
  now rewrite build_cmd_is_build.
Qed.

(** One call invokes the build process once when the build path is neither
    cached nor on disk, and not at all otherwise. *)
Lemma ensure_compiled_builds (rt : runtime) (w : TSEnvironmentWrapper) (h : host) :
  builds (os (snd (_ensure_compiled rt (Machine w h)))) =
    match _compiled_path w with
    | Some _ => builds h
    | None => if Os.path_exists h (dist_of w) then builds h else S (builds h)
    end.
Proof.
  rewrite ensure_compiled_cases.
  destruct (_compiled_path w); [reflexivity|].
  destruct (Os.path_exists h (dist_of w)); [reflexivity|].
  cbv zeta.
  destruct (subprocess_run _ _ _ _) as [[returncode stdout stderr|e] f];
    [|apply builds_log_build].
  destruct (returncode =? 0); [destruct (Os.path_exists _ _)|];
    cbn [snd os]; apply (builds_log_build rt (Machine w h) (env_path w) (Os.with_fs f h)).
Qed.

(** *** C5 *)

(** C5.  When the build path is neither cached nor on disk and the build
    process ends with the status [returncode] and the output [stdout] and
    [stderr]: with a status other than 0, [_ensure_compiled] raises
    [BuildFailed] with the captured error output, the captured standard
    output when there is no error output, and the text of the process error
    when there is neither; with the status 0 and no [dist/index.js] on disk
    afterwards, it raises [BuildIncomplete]. *)
Theorem build_failures (rt : runtime) (w : TSEnvironmentWrapper) (h : host)
  (returncode : Z) (stdout stderr : string) (f : gmap string inode) :
  _compiled_path w = None ->
  Os.path_exists h (dist_of w) = false ->
  subprocess_run rt (build_cmd rt (Machine w h)) (env_path w) h
    = (Exited returncode stdout stderr, f) ->
  let after :=
    Machine w (Os.log (Spawn (build_cmd rt (Machine w h)) (env_path w)) (Os.with_fs f h)) in
  let index_js_path := Os.joinpath (dist_of w) "index.js" in
  (returncode <> 0 ->
   _ensure_compiled rt (Machine w h) =
     (Raise (Condition.BuildFailed (env_id w)
               (if Text.nonempty stderr then stderr
                else if Text.nonempty stdout then stdout
                else CalledProcessError_str rt (build_cmd rt (Machine w h)) returncode)),
      after)) /\
  (returncode = 0 ->
   Os.path_exists (os after) index_js_path = false ->
   _ensure_compiled rt (Machine w h) =
     (Raise (Condition.BuildIncomplete index_js_path stdout), after)).
Proof.
  intros Hcache Hdist Hrun after index_js_path.
  rewrite ensure_compiled_cases, Hcache, Hdist, Hrun.
  split.
  - intros Hrc. apply Z.eqb_neq in Hrc. now rewrite Hrc.
  - intros -> Hindex. cbn [Z.eqb]. subst after index_js_path.
    cbn [os] in Hindex. now rewrite Hindex.
Qed.

(** A build that stops with an error raises [BuildFailed] with its error
    output, and a build that reports success without writing the entry
    file raises [BuildIncomplete]. *)
Lemma build_failures_witness :
  let failing := Scenario.runtime_of Scenario.build_fails (Scenario.node_prints "") Scenario.no_modules in
  let careless := Scenario.runtime_of Scenario.build_misses_entry (Scenario.node_prints "") Scenario.no_modules in
  fst (_ensure_compiled failing Scenario.fresh)
    = Raise (Condition.BuildFailed "demo" "error TS1005: ';' expected.") /\
  fst (_ensure_compiled careless Scenario.fresh)
    = Raise (Condition.BuildIncomplete Scenario.index_js "done").
Proof.
  split.
  - refine (f_equal fst
              (proj1 (build_failures
                        (Scenario.runtime_of Scenario.build_fails (Scenario.node_prints "")
                           Scenario.no_modules)
                        Scenario.wrapper Scenario.installed 1 "" "error TS1005: ';' expected."
                        (fs Scenario.installed) _ _ _) _)).
    + reflexivity.
    + vm_compute; reflexivity.
    + vm_compute; reflexivity.
    + discriminate.
  - refine (f_equal fst
              (proj2 (build_failures
                        (Scenario.runtime_of Scenario.build_misses_entry (Scenario.node_prints "")
                           Scenario.no_modules)
                        Scenario.wrapper Scenario.installed 0 "done" ""
                        (<[Scenario.dist := Dir]> (fs Scenario.installed)) _ _ _) _ _)).
    + reflexivity.
    + vm_compute; reflexivity.
    + vm_compute; reflexivity.
    + reflexivity.
    + vm_compute; reflexivity.
Defined.

(** *** C4 *)

(** C4, as the claim states it, fails: over two calls on one wrapper the
    build process would be invoked once at most; where the build stops
    with an error and writes nothing, each of the two calls invokes it. *)
Lemma failing_build_is_invoked_again :
  ~ (forall (rt : runtime) (st : machine),
       let st1 := snd (_ensure_compiled rt st) in
       let st2 := snd (_ensure_compiled rt st1) in
       (builds (os st2) <= builds (os st) + 1)%nat).
Proof.
  intros H.
  specialize (H (Scenario.runtime_of Scenario.build_fails (Scenario.node_prints "")
                   Scenario.no_modules)
                Scenario.fresh).
  vm_compute in H. lia.
Qed.

(** C4, amended.  A cached build path is returned by every call and nothing
    else happens; a build-output directory that is on disk is adopted
    without a build and without a look inside it; once a call has returned
    a path, that path is cached, and every later call on the wrapper returns
    it and leaves the host as it is, whatever the host has become; and one
    call invokes the build process once at most.  (A build that fails is
    not cached: the next call may invoke the process again.) *)
Theorem build_is_memoized (rt : runtime) (w : TSEnvironmentWrapper) (h : host) :
  (forall p, _compiled_path w = Some p ->
             _ensure_compiled rt (Machine w h) = (Ret p, Machine w h)) /\
  (_compiled_path w = None ->
   Os.path_exists h (dist_of w) = true ->
   _ensure_compiled rt (Machine w h)
     = (Ret (dist_of w), Machine (cached (dist_of w) w) h)) /\
  (forall p st',
     _ensure_compiled rt (Machine w h) = (Ret p, st') ->
     _compiled_path (self st') = Some p /\
     forall h', _ensure_compiled rt (Machine (self st') h') = (Ret p, Machine (self st') h')) /\
  (builds (os (snd (_ensure_compiled rt (Machine w h)))) <= S (builds h))%nat.
Proof.
  assert (Hcached : forall p w' h', _compiled_path w' = Some p ->
            _ensure_compiled rt (Machine w' h') = (Ret p, Machine w' h')).
  { intros p w' h' Hp. now rewrite ensure_compiled_cases, Hp. }
  split; [intros p; apply Hcached|]. split; [|split].
  - intros Hnone Hdist. now rewrite ensure_compiled_cases, Hnone, Hdist.
  - intros p st' Hcall.
    assert (Hp : _compiled_path (self st') = Some p).
    { rewrite ensure_compiled_cases in Hcall. cbv zeta in Hcall.
      destruct (_compiled_path w) as [p0|] eqn:Hw.
      - injection Hcall as <- <-. exact Hw.
      - destruct (Os.path_exists h (dist_of w)).
        + now injection Hcall as <- <-.
        + destruct (subprocess_run _ _ _ _) as [[returncode stdout stderr|e] f];
            [|discriminate].
          destruct (returncode =? 0); [|discriminate].
          destruct (Os.path_exists _ _); [|discriminate].
          now injection Hcall as <- <-. }
    split; [exact Hp|]. intros h'. now apply Hcached.
  - rewrite ensure_compiled_builds.
    destruct (_compiled_path w); [lia|].
    destruct (Os.path_exists h (dist_of w)); lia.
Qed.

(** With the build output on disk, no call builds; after a build that
    succeeded, the second call returns the cached path and spawns
    nothing. *)
Lemma build_is_memoized_witness :
  let rt := Scenario.runtime_of Scenario.build_succeeds (Scenario.node_prints "") Scenario.no_modules in
  _ensure_compiled rt (Machine Scenario.wrapper Scenario.prebuilt)
    = (Ret Scenario.dist, Machine (cached Scenario.dist Scenario.wrapper) Scenario.prebuilt) /\
  (let st1 := snd (_ensure_compiled rt Scenario.fresh) in
   builds (os st1) = 1%nat /\
   _ensure_compiled rt st1 = (Ret Scenario.dist, st1)).
Proof.
  split.
  - refine (proj1 (proj2 (build_is_memoized _ Scenario.wrapper Scenario.prebuilt)) _ _).
    + reflexivity.
    + vm_compute; reflexivity.
  - split; [vm_compute; reflexivity|].
    pose (rt := Scenario.runtime_of Scenario.build_succeeds (Scenario.node_prints "")
                  Scenario.no_modules).
    destruct (build_is_memoized rt Scenario.wrapper Scenario.installed)
      as (_ & _ & Hlater & _).
    destruct (Hlater Scenario.dist (snd (_ensure_compiled rt Scenario.fresh)))
      as [_ Hsame].
    + vm_compute; reflexivity.
    + exact (Hsame (os (snd (_ensure_compiled rt Scenario.fresh)))).
Defined.

(** *** C9 *)

(** C9, as the claim states it, fails: after a call that raised, the next
    call on the wrapper would have to invoke the build process again;
    where the failed build has left a [dist] directory without
    [index.js], the next call adopts that directory and builds nothing. *)
Lemma leftover_dist_is_adopted_without_build :
  ~ (forall (rt : runtime) (st : machine) (e : pyexc) (st' : machine),
       _ensure_compiled rt st = (Raise e, st') ->
       _compiled_path (self st') = None /\
       builds (os (snd (_ensure_compiled rt st'))) = S (builds (os st'))).
Proof.
  intros H.
  pose (rt := Scenario.runtime_of Scenario.build_misses_entry (Scenario.node_prints "")
                Scenario.no_modules).
  destruct (H rt Scenario.fresh
              (Condition.BuildIncomplete Scenario.index_js "done")
              (snd (_ensure_compiled rt Scenario.fresh))) as [_ Hbuilds].
  - vm_compute; reflexivity.
  - vm_compute in Hbuilds. discriminate.
Qed.

(** C9, amended.  When [_ensure_compiled] raises, be it [BuildFailed],
    [BuildIncomplete] or the error of a build process that could not be
    started, the wrapper is left as it was, with no cached path.  A later
    call on the wrapper then starts afresh, on whatever the host has
    become: it adopts the [dist] directory when there is one by then,
    without building, and invokes the build process again when there is
    none. *)
Theorem failed_build_is_not_cached (rt : runtime) (st : machine) (e : pyexc) (st' : machine) :
  _ensure_compiled rt st = (Raise e, st') ->
  self st' = self st /\
  _compiled_path (self st') = None /\
  forall h : host,
    let again := Machine (self st') h in
    if Os.path_exists h (dist_of (self st'))
    then _ensure_compiled rt again
           = (Ret (dist_of (self st')), Machine (cached (dist_of (self st')) (self st')) h)
    else builds (os (snd (_ensure_compiled rt again))) = S (builds h).
Proof.
  destruct st as [w h0]. intros Hcall.
  assert (Hself : self st' = w /\ _compiled_path w = None).
  { rewrite ensure_compiled_cases in Hcall. cbv zeta in Hcall.
    destruct (_compiled_path w) as [p|]; [discriminate|].
    destruct (Os.path_exists h0 (dist_of w)); [discriminate|].
    destruct (subprocess_run _ _ _ _) as [[returncode stdout stderr|e0] f].
    - destruct (returncode =? 0); [destruct (Os.path_exists _ _); [discriminate|]|];
        now injection Hcall as <- <-.
    - now injection Hcall as <- <-. }
  destruct Hself as [-> Hnone]. split; [reflexivity|]. split; [exact Hnone|].
  intros h again. subst again.
  destruct (Os.path_exists h (dist_of w)) eqn:Hdist.
  - now rewrite ensure_compiled_cases, Hnone, Hdist.
  - now rewrite ensure_compiled_builds, Hnone, Hdist.
Qed.

(** A build that stops with an error leaves the wrapper without a cached
    path, and the next call, finding no [dist] directory, builds again. *)
Lemma failed_build_is_not_cached_witness :
  let rt := Scenario.runtime_of Scenario.build_fails (Scenario.node_prints "") Scenario.no_modules in
  let st' := snd (_ensure_compiled rt Scenario.fresh) in
  _compiled_path (self st') = None /\
  builds (os st') = 1%nat /\
  builds (os (snd (_ensure_compiled rt st'))) = 2%nat.
Proof.
  pose (rt := Scenario.runtime_of Scenario.build_fails (Scenario.node_prints "")
                Scenario.no_modules).
  pose (st' := snd (_ensure_compiled rt Scenario.fresh)).
  assert (Hcall : _ensure_compiled rt Scenario.fresh
                  = (Raise (Condition.BuildFailed "demo" "error TS1005: ';' expected."), st'))
    by (vm_compute; reflexivity).
  destruct (failed_build_is_not_cached rt Scenario.fresh _ st' Hcall) as (_ & Hnone & Hlater).
  split; [exact Hnone|]. split; [vm_compute; reflexivity|].
  specialize (Hlater (os st')). vm_compute in Hlater. vm_compute. exact Hlater.
Defined.

(** ** The driver script *)

(** How [bind] runs. *)
Lemma bind_run {S A B} (m : M S A) (k : A -> M S B) (s : S) :
  bind m k s =
    match m s with
    | (Ret a, s') => k a s'
    | (Raise e, s') => (Raise e, s')
    end.
Proof. reflexivity. Qed.

Lemma bind_get {S B} (k : S -> M S B) (s : S) : bind get k s = k s s.
Proof. reflexivity. Qed.

Lemma bind_lift {S A B} (r : pyexc + A) (k : A -> M S B) (s : S) :
  bind (lift r) k s =
    match r with
    | inl e => (Raise e, s)
    | inr a => k a s
    end.
Proof. now destruct r. Qed.

Lemma lift_state {S A} (r : pyexc + A) (s : S) : snd (lift r s) = s.
Proof. now destruct r. Qed.

(** [unlink] leaves no file at its path, whether it removes one, finds
    none, or finds a directory. *)
Lemma unlink_removes (p : string) (h : host) :
  let h' := snd (Os.unlink p h) in
  Os.is_file h' p = false /\
  (events h' = events h \/ events h' = Removed p :: events h).
Proof.
  unfold Os.unlink, Os.is_file.
  destruct (fs h !! p) as [[|content]|] eqn:E; cbn [snd].
  - rewrite E. auto.
  - unfold Os.log, Os.with_fs. cbn [fs events].
    rewrite lookup_delete_eq. auto.
  - rewrite E. auto.
Qed.

(** The [try] statement of [_call_ts_method] ends with no file at the path
    of the script, and creates none. *)
Lemma run_driver_removes (rt : runtime) (method_name script_path cwd : string)
  (st : machine) :
  let st' := snd (run_driver rt method_name script_path cwd st) in
  Os.is_file (os st') script_path = false /\
  exists new,
    events (os st') = new ++ events (os st) /\
    forall p, ~ In (Created p) new.
Proof.
  unfold run_driver, try_finally.
  destruct (bind _ _ st) as [r st1] eqn:Hbody.
  assert (Hst1 : exists new, events (os st1) = new ++ events (os st) /\
                             forall p, ~ In (Created p) new).
  { revert Hbody. unfold bind, on_os, Os.run.
    destruct (subprocess_run rt _ cwd (os st)) as [[returncode stdout stderr|e] f].
    - cbn [self os].
      destruct (returncode =? 0).
      + destruct (lift _ _) as [r' st''] eqn:Hl.
        pose proof (lift_state (read_response rt method_name stdout stderr)
                      (Machine (self st)
                         (Os.log (Spawn ["node"; script_path] cwd) (Os.with_fs f (os st)))))
          as Hs.
        rewrite Hl in Hs. cbn [snd] in Hs. subst st''.
        intros [= <- <-]. exists [Spawn ["node"; script_path] cwd].
        split; [reflexivity|]. intros p [H|[]]. discriminate H.
      + intros [= <- <-]. exists [Spawn ["node"; script_path] cwd].
        split; [reflexivity|]. intros p [H|[]]. discriminate H.
    - intros [= <- <-]. exists [Spawn ["node"; script_path] cwd].
      split; [reflexivity|]. intros p [H|[]]. discriminate H. }
  destruct Hst1 as (new & Hnew & Hnone).
  unfold on_os.
  pose proof (unlink_removes script_path (os st1)) as [Hfile Hev].
  destruct (Os.unlink script_path (os st1)) as [[[]|e] h'] eqn:Hu;
    cbn [snd os] in *; (split; [exact Hfile|]);
    (destruct Hev as [Hev|Hev]; rewrite Hev, Hnew;
     [exists new; split; [reflexivity|exact Hnone]
     |exists (Removed script_path :: new); split; [reflexivity|];
      intros p [H|H]; [discriminate H|exact (Hnone p H)]]).
Qed.

(** [_ensure_compiled] creates no file of its own. *)
Lemma ensure_compiled_events (rt : runtime) (st : machine) :
  exists new,
    events (os (snd (_ensure_compiled rt st))) = new ++ events (os st) /\
    forall p, ~ In (Created p) new.
Proof.
  destruct st as [w h]. rewrite ensure_compiled_cases. cbv zeta.
  assert (Hsame : exists new, events h = new ++ events h /\ forall p, ~ In (Created p) new).
  { exists []. split; [reflexivity|]. intros p []. }
  destruct (_compiled_path w); [exact Hsame|].
  destruct (Os.path_exists h (dist_of w)); [exact Hsame|].
  assert (Hspawn : forall f, exists new,
            events (Os.log (Spawn (build_cmd rt (Machine w h)) (env_path w)) (Os.with_fs f h))
              = new ++ events h /\ forall p, ~ In (Created p) new).
  { intros f. eexists [_]. split; [reflexivity|]. intros p [H|[]]. discriminate H. }
  destruct (subprocess_run _ _ _ _) as [[returncode stdout stderr|e] f];
    [|exact (Hspawn (fs h))].
  destruct (returncode =? 0); [destruct (Os.path_exists _ _)|]; exact (Hspawn f).
Qed.

(** *** C7 *)

(** C7.  Whatever a call of [_call_ts_method] does, be it that it returns
    the payload, that the driver exits with a status other than 0, that
    the response cannot be read, or that anything else is raised on the
    way, every script that the call has written is gone when the call
    ends: the host has no file at the script's path. *)
Theorem driver_script_is_removed (rt : runtime) (method_name : string)
  (args : list pyval) (kwargs : dict) (st : machine) :
  let st' := snd (_call_ts_method rt method_name args kwargs st) in
  exists new,
    events (os st') = new ++ events (os st) /\
    forall p, In (Created p) new -> Os.is_file (os st') p = false.
Proof.
  cbv zeta. unfold _call_ts_method.
  destruct (ensure_compiled_events rt st) as (new0 & Hnew0 & Hnone0).
  assert (Hkeep : forall (r : outcome pyval) (st1 : machine),
            events (os st1) = new0 ++ events (os st) ->
            exists new, events (os (snd (r, st1))) = new ++ events (os st) /\
                        forall p, In (Created p) new -> Os.is_file (os (snd (r, st1))) p = false).
  { intros r st1 H. exists new0. split; [exact H|]. intros p Hp. now destruct (Hnone0 p). }
  rewrite (bind_run (_ensure_compiled rt)).
  destruct (_ensure_compiled rt st) as [[dist_path|e] st1]; cbn [snd] in Hnew0;
    [|now apply Hkeep].
  rewrite bind_get.
  destruct (negb (Os.path_exists (os st1) _)); [now apply Hkeep|].
  repeat (rewrite bind_lift;
          match goal with
          | |- context [match ?x with inl _ => _ | inr _ => _ end] =>
              destruct x; [now apply Hkeep|]
          end).
  rewrite bind_run. unfold on_os at 1, Os.write_temp. cbn [self os].
  match goal with
  | |- context [run_driver rt method_name ?p ?cwd ?st2] =>
      pose proof (run_driver_removes rt method_name p cwd st2) as [Hfile (new & Hnew & Hnone)];
      set (script_path := p) in *
  end.
  cbn [os events Os.log Os.with_fs] in Hnew.
  exists (new ++ Created script_path :: new0). split.
  - rewrite Hnew, Hnew0. now rewrite <- app_assoc.
  - intros p Hp. apply in_app_or in Hp as [Hp|[Hp|Hp]].
    + now destruct (Hnone p).
    + injection Hp as <-. exact Hfile.
    + now destruct (Hnone0 p).
Qed.

(** On the way to the driver the script is written: when the module is
    built, its entry file is on disk and [json.dumps] encodes the
    arguments, the call creates the script under the name that the runtime
    picks. *)
Lemma driver_script_is_written (rt : runtime) (method_name : string)
  (args : list pyval) (kwargs : dict) (st st1 : machine) (dist_path : string) :
  _ensure_compiled rt st = (Ret dist_path, st1) ->
  Os.path_exists (os st1) (Os.joinpath dist_path "index.js") = true ->
  (forall v, exists s, json_dumps rt v = inr s) ->
  In (Created (mkstemp rt (os st1)))
     (events (os (snd (_call_ts_method rt method_name args kwargs st)))).
Proof.
  intros Hbuilt Hindex Hdumps.
  unfold _call_ts_method.
  rewrite (bind_run (_ensure_compiled rt)), Hbuilt, bind_get, Hindex.
  cbn [negb].
  repeat (rewrite bind_lift;
          match goal with
          | |- context [json_dumps rt ?v] => destruct (Hdumps v) as [? ->]
          end).
  rewrite bind_run. unfold on_os at 1, Os.write_temp. cbn [self os].
  match goal with
  | |- context [run_driver rt method_name ?p ?cwd ?st2] =>
      destruct (run_driver_removes rt method_name p cwd st2) as [_ (new & -> & _)]
  end.
  apply in_or_app. right. now left.
Qed.

(** The three ways of the claim, on a host where the module is built: the
    call returns the payload, the driver fails, the response cannot be
    decoded.  Each time the script was written, and each time no path of
    the host names it afterwards. *)
Lemma driver_script_is_removed_examples :
  let run node :=
    _call_ts_method (Scenario.runtime_of Scenario.build_succeeds node Scenario.no_modules)
      "rollout" [] [] (Machine Scenario.wrapper Scenario.prebuilt) in
  let written st := In (Created "/tmp/tmpk3v9.mjs") (events (os st)) in
  let gone st := fs (os st) !! "/tmp/tmpk3v9.mjs" = None in
  (fst (run (Scenario.node_prints (Text.q "{'ok':true}"))) = Ret (PDict [("ok", PBool true)]) /\
   written (snd (run (Scenario.node_prints (Text.q "{'ok':true}")))) /\
   gone (snd (run (Scenario.node_prints (Text.q "{'ok':true}"))))) /\
  (fst (run (Scenario.node_fails "" Scenario.warmup_then_record))
     = Raise (Condition.RemoteMethodFailed "rollout" "boom") /\
   written (snd (run (Scenario.node_fails "" Scenario.warmup_then_record))) /\
   gone (snd (run (Scenario.node_fails "" Scenario.warmup_then_record)))) /\
  (fst (run (Scenario.node_prints "{oops"))
     = Raise (Condition.DecodeError "rollout" "{oops" "") /\
   written (snd (run (Scenario.node_prints "{oops"))) /\
   gone (snd (run (Scenario.node_prints "{oops")))).
Proof.
  cbv zeta.
  repeat split; try (vm_compute; reflexivity); vm_compute; tauto.
Qed.

(** *** [rollout] on an array of objects *)

(** A call of [rollout] with a driver that prints an array of three objects, the
    shape of a rollout's result: the array is cut at its first object (see
    [array_payload_is_cut_at_its_first_object]) and [rollout] raises
    [DecodeError]. *)
Lemma rollout_of_three_objects_raises :
  let rt := Scenario.runtime_of Scenario.build_succeeds
              (Scenario.node_prints (Text.q "[{'a':1},{'b':2},{'c':3}]"))
              Scenario.no_modules in
  fst (rollout rt Scenario.plain_rollout (Machine Scenario.wrapper Scenario.prebuilt))
    = Raise (Condition.DecodeError "rollout" (Text.q "{'a':1},{'b':2},{'c':3}]") "").
Proof. vm_compute; reflexivity. Qed.

(** ** The host factory *)

Section Factory.

Variable rt : runtime.

Lemma load_ts_environment_reads (env_id env_dir_path : string) (env_args : dict) (h : host) :
  snd (load_ts_environment env_id env_dir_path env_args h) = h.
Proof.
  unfold load_ts_environment. rewrite bind_get.
  destruct (negb _); [reflexivity|].
  destruct (_ && _); reflexivity.
Qed.

Lemma add_candidates_events (candidates : list string) (h : host) :
  events (snd (EnvUtils.add_candidates candidates h)) = events h.
Proof.
  revert h. induction candidates as [|c r IH]; intros h; [reflexivity|].
  cbn [EnvUtils.add_candidates]. rewrite bind_run.
  unfold EnvUtils.add_candidate at 1.
  destruct (_ && _); rewrite IH; reflexivity.
Qed.

Lemma ensure_ts_bridge_on_path_events (env_dir_path : option string) (h : host) :
  events (snd (EnvUtils._ensure_ts_bridge_on_path rt env_dir_path h)) = events h.
Proof.
  unfold EnvUtils._ensure_ts_bridge_on_path. rewrite bind_get.
  destruct (bool_decide _); [reflexivity|]. apply add_candidates_events.
Qed.

Lemma import_events (name : string) (h : host) :
  events (snd (EnvUtils.import rt name h)) = events h.
Proof.
  unfold EnvUtils.import.
  destruct (import_module rt name h); [reflexivity|].
  destruct (bool_decide _); reflexivity.
Qed.

Lemma search_events (resolved_dir env_id : string) (env_args : dict)
  (names : list string) (otherwise : M host (option TSEnvironmentWrapper)) (h : host) :
  (forall h', events (snd (otherwise h')) = events h') ->
  events (snd (EnvUtils.search resolved_dir env_id env_args names otherwise h)) = events h.
Proof.
  intros Hother. induction names as [|name r IH]; cbn [EnvUtils.search]; [apply Hother|].
  rewrite bind_get. destruct (Os.path_exists _ _); [|exact IH].
  rewrite bind_run.
  pose proof (load_ts_environment_reads env_id resolved_dir env_args h) as Hread.
  destruct (load_ts_environment _ _ _ h) as [[w|e] h']; cbn [snd] in Hread; now subst h'.
Qed.

(** The fallback marks its attempt once, and nothing else is recorded
    while it runs. *)
Lemma load_ts_environment_events (env_id : string) (env_dir_path : option string)
  (env_args : dict) (h : host) :
  events (snd (EnvUtils._load_ts_environment rt env_id env_dir_path env_args h))
    = Entered "_load_ts_environment" :: events h.
Proof.
  unfold EnvUtils._load_ts_environment.
  rewrite bind_run. unfold modify at 1.
  set (h0 := Os.log (Entered "_load_ts_environment") h).
  change (Entered "_load_ts_environment" :: events h) with (events h0).
  rewrite bind_run.
  assert (Htry :
            events (snd (try_except
              (bind (EnvUtils._ensure_ts_bridge_on_path rt env_dir_path)
                 (fun _ => bind (EnvUtils.import rt EnvUtils.bridge_module) (fun _ => ret true)))
              (fun e => if is_Exception e then Some (ret false) else None) h0))
            = events h0).
  { unfold try_except. rewrite bind_run.
    pose proof (ensure_ts_bridge_on_path_events env_dir_path h0) as H1.
    destruct (EnvUtils._ensure_ts_bridge_on_path rt env_dir_path h0) as [[[]|e] h2];
      cbn [snd] in H1.
    - rewrite bind_run.
      pose proof (import_events EnvUtils.bridge_module h2) as H2.
      destruct (EnvUtils.import rt EnvUtils.bridge_module h2) as [[m|e] h3];
        cbn [snd] in H2.
      + cbn [snd ret]. congruence.
      + destruct (is_Exception e); cbn [snd ret]; congruence.
    - destruct (is_Exception e); cbn [snd ret]; congruence. }
  destruct (try_except _ _ h0) as [[imported|e] h1];
    cbn [snd] in Htry; rewrite <- Htry; [|reflexivity].
  destruct (negb imported); [reflexivity|].
  rewrite bind_get.
  assert (Hlast : forall (attempt : bool) h',
            events (snd ((if attempt
                          then bind (load_ts_environment env_id "./environments" env_args)
                                 (fun w => ret (Some w))
                          else ret None) h')) = events h').
  { intros [] h'; [|reflexivity]. rewrite bind_run.
    pose proof (load_ts_environment_reads env_id "./environments" env_args h') as Hread.
    destruct (load_ts_environment _ _ _ h') as [[w|e] h'']; cbn [snd] in Hread; now subst h''. }
  match goal with
  | |- context [match ?d with Some _ => EnvUtils.search _ _ _ _ _ | None => _ end] =>
      destruct d as [resolved|]
  end.
  - apply search_events. intros h'.
    destruct env_dir_path; [reflexivity|exact (Hlast false h')].
  - destruct env_dir_path; [reflexivity|exact (Hlast true h1)].
Qed.

Lemma on_import_error_events (env_id : string) (env_dir_path : option string)
  (env_args : dict) (h : host) :
  events (snd (EnvUtils.on_import_error rt env_id env_dir_path env_args h))
    = Entered "_load_ts_environment" :: events h.
Proof.
  unfold EnvUtils.on_import_error. rewrite bind_run.
  pose proof (load_ts_environment_events env_id env_dir_path env_args h) as H.
  destruct (EnvUtils._load_ts_environment rt env_id env_dir_path env_args h)
    as [[[[ts_env_id ts_env_path ts_env_args compiled]|]|e] h']; exact H.
Qed.

(** The native path records nothing. *)
Lemma load_native_events (env_id : string) (env_args : dict) (h : host) :
  events (snd (EnvUtils.load_native rt env_id env_args h)) = events h.
Proof.
  unfold EnvUtils.load_native. rewrite bind_run.
  pose proof (import_events (EnvUtils.module_name env_id) h) as H.
  destruct (EnvUtils.import rt (EnvUtils.module_name env_id) h) as [[module|e] h'];
    cbn [snd] in H; [|exact H].
  destruct (load_environment_attr module) as [env_load_func|]; [|exact H].
  destruct (signature_error env_load_func); [exact H|].
  rewrite bind_lift. destruct (call_loader env_load_func env_args); exact H.
Qed.


End Factory.

(** *** C10 *)




(** * More properties of the sources *)

(** ** Loops that build lists *)

Lemma traverse_Forall2 {A B} (f : A -> pyexc + B) (l : list A) (l' : list B) :
  traverse f l = inr l' -> Forall2 (fun x y => f x = inr y) l l'.
Proof.
  revert l'. induction l as [|x r IH]; intros l'; cbn [traverse and_then].
  - intros [= <-]. constructor.
  - destruct (f x) as [e|y] eqn:Hx; [discriminate|]. cbn [and_then].
    destruct (traverse f r) as [e|ys]; [discriminate|]. cbn [and_then].
    intros [= <-]. constructor; [exact Hx|now apply IH].
Qed.

Lemma traverse_all {A B} (f : A -> pyexc + B) (P : B -> Prop) (l : list A) (l' : list B) :
  (forall x y, f x = inr y -> P y) ->
  traverse f l = inr l' -> Forall P l'.
Proof.
  intros HP Htr. apply traverse_Forall2 in Htr.
  induction Htr as [|x y r r' Hxy _ IH]; [constructor|].
  constructor; [now apply (HP x)|exact IH].
Qed.

Lemma traverse_related {A B} (f : A -> pyexc + B) (R : A -> B -> Prop)
  (l : list A) (l' : list B) :
  (forall x y, f x = inr y -> R x y) ->
  traverse f l = inr l' -> Forall2 R l l'.
Proof.
  intros HR Htr. apply traverse_Forall2 in Htr.
  induction Htr as [|x y r r' Hxy _ IH]; [constructor|].
  constructor; [now apply HR|exact IH].
Qed.

Lemma traverse_from {A B} (f : A -> pyexc + B) (l : list A) (l' : list B) (y : B) :
  traverse f l = inr l' -> In y l' -> exists x, In x l /\ f x = inr y.
Proof.
  intros Htr. apply traverse_Forall2 in Htr.
  induction Htr as [|x y' r r' Hxy _ IH]; [intros []|].
  intros [->|Hin].
  - exists x. split; [now left|exact Hxy].
  - destruct (IH Hin) as (x' & Hin' & Hx'). exists x'. split; [now right|exact Hx'].
Qed.

Lemma traverse_raises {A B} (f : A -> pyexc + B) (l : list A) (e : pyexc) :
  traverse f l = inl e -> exists x, In x l /\ f x = inl e.
Proof.
  induction l as [|x r IH]; cbn [traverse and_then]; [discriminate|].
  destruct (f x) as [e'|y] eqn:Hx.
  - intros [= <-]. exists x. split; [now left|exact Hx].
  - cbn [and_then]. destruct (traverse f r) as [e'|ys]; [|discriminate].
    cbn [and_then]. intros [= <-]. destruct (IH eq_refl) as (x' & Hin & Hx').
    exists x'. split; [now right|exact Hx'].
Qed.

Lemma traverse_total {A B} (f : A -> pyexc + B) (l : list A) :
  (forall x, In x l -> exists y, f x = inr y) -> exists l', traverse f l = inr l'.
Proof.
  induction l as [|x r IH]; intros H; cbn [traverse and_then]; [eauto|].
  destruct (H x (or_introl eq_refl)) as [y ->]. cbn [and_then].
  destruct IH as [ys ->]; [intros; apply H; now right|]. cbn [and_then]. eauto.
Qed.

Lemma keys_set_present (k : string) (v w : pyval) (d : dict) :
  Py.get k d = Some w -> keys (Py.set k v d) = keys d.
Proof.
  unfold keys. induction d as [|[k' v'] r IH]; cbn [Py.get Py.set]; [discriminate|].
  destruct (String.eqb k' k) eqn:E; intros H; cbn [map fst]; [reflexivity|].
  now rewrite IH.
Qed.

(** ** Normalization: what it establishes and what it keeps *)

Section NormalizationFrame.

Variable rt : runtime.

Lemma normalize_message_tool_calls (msg : pyval) (d : dict) (tool_calls : list pyval) :
  normalize_message rt msg = inr (PDict d) ->
  Py.get "tool_calls" d = Some (PList tool_calls) ->
  Forall normal_tool_call tool_calls.
Proof.
  destruct msg as [| | | | | | |new_msg|]; cbn [normalize_message]; try discriminate.
  destruct (Py.get "tool_calls" new_msg) as [[| | | | |tcs| | |]|] eqn:Hget;
    try (intros [= <-]; rewrite Hget; discriminate).
  destruct (traverse (normalize_tool_call rt) tcs) as [e|ntcs] eqn:Htr; [discriminate|].
  cbn [and_then]. intros [= <-]. rewrite get_set_same. intros [= <-].
  eapply traverse_all; [|exact Htr].
  intros x y. apply normalize_tool_call_normal.
Qed.

Lemma normalize_message_frame (msg r : pyval) :
  normalize_message rt msg = inr r -> same_but_tool_calls msg r.
Proof.
  destruct msg as [| | | | | | |d|]; cbn [normalize_message same_but_tool_calls];
    try (now intros [= <-]).
  destruct (Py.get "tool_calls" d) as [[| | | | |tcs| | |]|] eqn:Hget;
    try (intros [= <-]; exists d; repeat split; reflexivity).
  destruct (traverse (normalize_tool_call rt) tcs) as [e|ntcs] eqn:Htr; [discriminate|].
  cbn [and_then]. intros [= <-].
  exists (Py.set "tool_calls" (PList ntcs) d). repeat split.
  - eapply keys_set_present; eauto.
  - intros k Hk. now apply get_set_other.
  - exists ntcs. split; [apply get_set_same|].
    apply traverse_Forall2 in Htr. symmetry. eapply Forall2_length; eauto.
Qed.

Lemma get_with_type (k : string) (d : dict) :
  k <> "type" -> Py.get k (with_type d) = Py.get k d.
Proof.
  intros Hk. unfold with_type.
  destruct (Py.get "type" d) as [[]|]; try reflexivity;
    apply get_set_other; congruence.
Qed.

Lemma with_type_keeps (d : dict) (t : string) :
  Py.get "type" d = Some (PStr t) -> with_type d = d.
Proof. intros H. unfold with_type. now rewrite H. Qed.

Lemma get_with_name (k : string) (f : dict) :
  k <> "name" -> Py.get k (with_name f) = Py.get k f.
Proof.
  intros Hk. unfold with_name.
  destruct (Py.get "name" f) as [[]|]; try reflexivity;
    apply get_set_other; congruence.
Qed.

Lemma get_with_arguments (k : string) (f f' : dict) :
  with_arguments rt f = inr f' ->
  k <> "arguments" -> Py.get k f' = Py.get k f.
Proof.
  unfold with_arguments. intros H Hk.
  destruct (Py.get "arguments" f) as [a|].
  - destruct a; try (now injection H as <-);
      (destruct (json_dumps rt _) as [e|s]; [discriminate|];
       cbn [and_then] in H; injection H as <-; apply get_set_other; congruence).
  - injection H as <-. apply get_set_other; congruence.
Qed.

Lemma function_dict_of_dict (d f : dict) :
  Py.get "function" d = Some (PDict f) -> function_dict rt (with_type d) = f.
Proof.
  intros H. unfold function_dict. rewrite get_with_type by discriminate. rewrite H.
  cbn [default]. unfold Py.or_else. destruct f; reflexivity.
Qed.

End NormalizationFrame.

(** X1.  After [normalize_tool_calls_in_messages] every tool call that a
    dictionary message of the returned sequence lists under [tool_calls]
    is a dictionary with a string under [type] and, under [function], a
    dictionary with a string under [name] and a string under
    [arguments]. *)
Theorem normalized_tool_calls_are_normal (rt : runtime) (messages normalized : pyval) :
  normalize_tool_calls_in_messages rt messages = inr normalized ->
  tool_calls_normal normalized.
Proof.
  intros H msgs d tool_calls -> Hin Hget.
  destruct messages as [| | | | |ms| | |]; cbn [normalize_tool_calls_in_messages] in H;
    try discriminate.
  destruct (traverse (normalize_message rt) ms) as [e|out] eqn:Htr; [discriminate|].
  cbn [and_then] in H. injection H as <-.
  destruct (traverse_from _ _ _ _ Htr Hin) as (msg & _ & Hmsg).
  eapply normalize_message_tool_calls; eauto.
Qed.

Lemma normalized_tool_calls_are_normal_witness :
  Forall normal_tool_call
    [ PDict [ ("function", PDict [("name", PStr "f"); ("arguments", PStr "{}")]);
              ("type", PStr "function") ];
      PDict [ ("function", PDict [("name", PStr "x"); ("arguments", PStr "{}")]);
              ("type", PStr "function") ] ].
Proof.
  refine (normalized_tool_calls_are_normal (Cases.plain "") Scenario.messages _ _
            _ [("role", PStr "assistant"); ("content", PStr ""); ("tool_calls", _)] _
            eq_refl _ eq_refl).
  - reflexivity.
  - right. left. reflexivity.
Defined.

(** X2.  [normalize_tool_calls_in_messages] returns as many messages as it is
    given, in the same order; a message that is not a dictionary, or lists
    no tool calls, is returned as it is, and a dictionary that lists tool
    calls keeps its keys, their order, the values of all keys but
    [tool_calls], and the number of its tool calls. *)
Theorem normalization_keeps_the_rest (rt : runtime) (msgs : list pyval) (normalized : pyval) :
  normalize_tool_calls_in_messages rt (PList msgs) = inr normalized ->
  exists out, normalized = PList out /\ Forall2 same_but_tool_calls msgs out.
Proof.
  cbn [normalize_tool_calls_in_messages].
  destruct (traverse (normalize_message rt) msgs) as [e|out] eqn:Htr; [discriminate|].
  cbn [and_then]. intros [= <-]. exists out. split; [reflexivity|].
  eapply traverse_related; [|exact Htr].
  apply normalize_message_frame.
Qed.

Lemma normalization_keeps_the_rest_witness :
  exists out,
    PList [ PDict [("role", PStr "user"); ("content", PStr "hi")];
            PDict [ ("role", PStr "assistant"); ("content", PStr "");
                    ("tool_calls",
                     PList [ PDict [ ("function", PDict [("name", PStr "f"); ("arguments", PStr "{}")]);
                                     ("type", PStr "function") ];
                             PDict [ ("function", PDict [("name", PStr "x"); ("arguments", PStr "{}")]);
                                     ("type", PStr "function") ] ]) ] ] = PList out /\
    Forall2 same_but_tool_calls
      [ PDict [("role", PStr "user"); ("content", PStr "hi")];
        PDict [ ("role", PStr "assistant"); ("content", PStr "");
                ("tool_calls", PList [Scenario.tool_call_f; PStr "x"]) ] ]
      out.
Proof.
  refine (normalization_keeps_the_rest (Cases.plain "") _ _ _). reflexivity.
Defined.

(** X3.  Normalizing a tool call that is a dictionary fills in and re-encodes,
    and drops or changes nothing else: the keys other than [type] and
    [function] keep their values, a string under [type] is kept, and when
    [function] holds a dictionary, its keys other than [name] and
    [arguments] keep their values and a string under [name] or [arguments]
    is kept as it is. *)
Theorem normalize_tool_call_keeps (rt : runtime) (d : dict) (r : pyval) :
  normalize_tool_call rt (PDict d) = inr r ->
  exists d',
    r = PDict d' /\
    (forall k, k <> "type" -> k <> "function" -> Py.get k d' = Py.get k d) /\
    (forall t, Py.get "type" d = Some (PStr t) -> Py.get "type" d' = Some (PStr t)) /\
    (forall f, Py.get "function" d = Some (PDict f) ->
       exists f',
         Py.get "function" d' = Some (PDict f') /\
         (forall k, k <> "name" -> k <> "arguments" -> Py.get k f' = Py.get k f) /\
         (forall n, Py.get "name" f = Some (PStr n) -> Py.get "name" f' = Some (PStr n)) /\
         (forall a, Py.get "arguments" f = Some (PStr a) ->
                    Py.get "arguments" f' = Some (PStr a))).
Proof.
  unfold normalize_tool_call. cbn [tool_call_dict].
  destruct (with_arguments rt _) as [e|func] eqn:Hargs; [discriminate|].
  cbn [and_then]. intros [= <-].
  exists (Py.set "function" (PDict func) (with_type d)). split; [reflexivity|].
  split; [|split].
  - intros k Hk1 Hk2. rewrite get_set_other by congruence. now apply get_with_type.
  - intros t Ht. rewrite get_set_other by discriminate.
    now rewrite (with_type_keeps d t Ht).
  - intros f Hf. exists func. split; [apply get_set_same|].
    rewrite (function_dict_of_dict rt d f Hf) in Hargs.
    split; [|split].
    + intros k Hk1 Hk2. rewrite (get_with_arguments rt k _ _ Hargs) by congruence.
      now apply get_with_name.
    + intros n Hn. rewrite (get_with_arguments rt "name" _ _ Hargs) by discriminate.
      unfold with_name. now rewrite Hn.
    + intros a Ha. unfold with_arguments in Hargs.
      rewrite get_with_name in Hargs by discriminate. rewrite Ha in Hargs.
      injection Hargs as <-. now rewrite get_with_name by discriminate.
Qed.

Lemma normalize_tool_call_keeps_witness :
  exists d',
    PDict [ ("id", PStr "call_1"); ("type", PStr "function");
            ("function", PDict [("name", PStr "f"); ("arguments", PStr "{}")]) ] = PDict d' /\
    Py.get "id" d' = Some (PStr "call_1").
Proof.
  destruct (normalize_tool_call_keeps (Cases.plain "")
              [ ("id", PStr "call_1"); ("type", PStr "function");
                ("function", PDict [("name", PStr "f")]) ]
              (PDict [ ("id", PStr "call_1"); ("type", PStr "function");
                       ("function", PDict [("name", PStr "f"); ("arguments", PStr "{}")]) ])
              eq_refl) as (d' & Hr & Hkeep & _).
  exists d'. split; [exact Hr|]. rewrite Hkeep by discriminate. reflexivity.
Defined.

(** X4.  A tool call that is a dictionary without a [function], or with one
    that is [None], empty or otherwise false, gets the placeholder: its
    [function] becomes the dictionary with the name [unknown_tool] and the
    arguments [{}]. *)
Theorem tool_call_without_function_is_unknown_tool (rt : runtime) (d : dict) :
  Py.truthy (default PNone (Py.get "function" d)) = false ->
  normalize_tool_call rt (PDict d) =
    inr (PDict (Py.set "function"
                  (PDict [("name", PStr "unknown_tool"); ("arguments", PStr "{}")])
                  (with_type d))).
Proof.
  intros H. unfold normalize_tool_call. cbn [tool_call_dict].
  assert (Hf : function_dict rt (with_type d) = []).
  { unfold function_dict. rewrite get_with_type by discriminate.
    unfold Py.or_else. now rewrite H. }
  rewrite Hf. reflexivity.
Qed.

Lemma tool_call_without_function_is_unknown_tool_witness :
  normalize_tool_call (Cases.plain "") (PDict [("id", PStr "call_1"); ("function", PNone)]) =
    inr (PDict [ ("id", PStr "call_1");
                 ("function", PDict [("name", PStr "unknown_tool"); ("arguments", PStr "{}")]);
                 ("type", PStr "function") ]).
Proof.
  exact (tool_call_without_function_is_unknown_tool (Cases.plain "")
           [("id", PStr "call_1"); ("function", PNone)] eq_refl).
Defined.

(** X5.  Arguments that are not a string are replaced by their [json.dumps]
    text: when the [function] of a tool call is a dictionary whose
    [arguments] are the value [a], not a string, normalization raises what
    [json.dumps(a)] raises, and otherwise returns a tool call whose
    arguments are the text that [json.dumps(a)] returns. *)
Theorem arguments_are_encoded (rt : runtime) (d f : dict) (a : pyval) :
  Py.get "function" d = Some (PDict f) ->
  Py.get "arguments" f = Some a ->
  (forall s, a <> PStr s) ->
  match json_dumps rt a with
  | inl e => normalize_tool_call rt (PDict d) = inl e
  | inr s =>
      exists d' f',
        normalize_tool_call rt (PDict d) = inr (PDict d') /\
        Py.get "function" d' = Some (PDict f') /\
        Py.get "arguments" f' = Some (PStr s)
  end.
Proof.
  intros Hf Ha Hstr. unfold normalize_tool_call. cbn [tool_call_dict].
  rewrite (function_dict_of_dict rt d f Hf).
  unfold with_arguments. rewrite get_with_name by discriminate. rewrite Ha.
  destruct a; try (now destruct (Hstr s));
    (destruct (json_dumps rt _) as [e|s']; cbn [and_then]; [reflexivity|];
     eexists _, _; split; [reflexivity|];
     split; [apply get_set_same|apply get_set_same]).
Qed.

Lemma arguments_are_encoded_witness :
  exists d' f',
    normalize_tool_call (Cases.plain "")
      (PDict [("function", PDict [("name", PStr "f"); ("arguments", PDict [("n", PInt 1)])])])
      = inr (PDict d') /\
    Py.get "function" d' = Some (PDict f') /\
    Py.get "arguments" f' = Some (PStr (Text.q "{'n': 1}")).
Proof.
  refine (arguments_are_encoded (Cases.plain "")
            [("function", PDict [("name", PStr "f"); ("arguments", PDict [("n", PInt 1)])])]
            [("name", PStr "f"); ("arguments", PDict [("n", PInt 1)])]
            (PDict [("n", PInt 1)]) eq_refl eq_refl _).
  intros s; discriminate.
Defined.

(** X6.  Normalization raises nothing of its own: an exception that leaves
    [normalize_tool_calls_in_messages] is one that [json.dumps] raised for
    some value. *)
Theorem normalization_raises_what_dumps_raises (rt : runtime) (messages : pyval) (e : pyexc) :
  normalize_tool_calls_in_messages rt messages = inl e ->
  exists v, json_dumps rt v = inl e.
Proof.
  destruct messages as [| | | | |ms| | |]; cbn [normalize_tool_calls_in_messages];
    try discriminate.
  destruct (traverse (normalize_message rt) ms) as [e'|out] eqn:Htr; [|discriminate].
  cbn [and_then]. intros [= <-].
  apply traverse_raises in Htr as (msg & _ & Hmsg).
  destruct msg as [| | | | | | |d|]; cbn [normalize_message] in Hmsg; try discriminate.
  destruct (Py.get "tool_calls" d) as [[| | | | |tcs| | |]|]; try discriminate.
  destruct (traverse (normalize_tool_call rt) tcs) as [e''|ntcs] eqn:Htcs; [|discriminate].
  cbn [and_then] in Hmsg. injection Hmsg as <-.
  apply traverse_raises in Htcs as (tc & _ & Htc).
  unfold normalize_tool_call in Htc.
  destruct (with_arguments rt _) as [e0|func] eqn:Hargs; [|discriminate].
  cbn [and_then] in Htc. injection Htc as <-.
  unfold with_arguments in Hargs.
  destruct (Py.get "arguments" _) as [a|]; [|discriminate].
  destruct a; try discriminate;
    (destruct (json_dumps rt _) as [e1|s] eqn:Hd; [|discriminate];
     cbn [and_then] in Hargs; injection Hargs as <-; eauto).
Qed.

Lemma normalization_raises_what_dumps_raises_witness :
  exists v,
    json_dumps (Cases.plain "") v =
      inl (Exc TypeError "Object of type Decimal is not JSON serializable").
Proof.
  refine (normalization_raises_what_dumps_raises (Cases.plain "")
            (PList [PDict [("tool_calls",
                            PList [PDict [("function",
                                           PDict [("name", PStr "f");
                                                  ("arguments", PObj "Decimal" None)])]])]])
            _ _).
  reflexivity.
Defined.

(** ** Text *)

Section TextFacts.

Import Text.

Lemma find_from_absent (c : ascii) (s : string) (i j : Z) :
  0 <= i -> 0 <= j -> find_from c s i = -1 -> find_from c s j = -1.
Proof.
  revert i j. induction s as [|a r IH]; intros i j Hi Hj; cbn [find_from]; [reflexivity|].
  destruct (Ascii.eqb a c); [lia|]. apply IH; lia.
Qed.

Lemma find_from_app (c : ascii) (pre s : string) (i : Z) :
  0 <= i -> find_from c pre i = -1 ->
  find_from c (pre +:+ s) i = find_from c s (i + Z.of_nat (String.length pre)).
Proof.
  revert i. induction pre as [|a r IH]; intros i Hi.
  - intros _. change ("" +:+ s) with s. f_equal. cbn. lia.
  - change (String a r +:+ s) with (String a (r +:+ s)).
    cbn [find_from String.length].
    destruct (Ascii.eqb a c); [lia|]. intros H. rewrite IH by (lia || exact H).
    f_equal. lia.
Qed.

Lemma find_app_here (c : ascii) (pre r : string) :
  find c pre = -1 ->
  find c (pre +:+ String c r) = Z.of_nat (String.length pre).
Proof.
  unfold find. intros H. rewrite find_from_app by (lia || exact H).
  cbn [find_from]. now rewrite Ascii.eqb_refl.
Qed.

Lemma find_app_absent (c : ascii) (pre s : string) :
  find c pre = -1 -> find c s = -1 -> find c (pre +:+ s) = -1.
Proof.
  unfold find. intros H1 H2. rewrite find_from_app by (lia || exact H1).
  eapply find_from_absent; [| |exact H2]; lia.
Qed.

Lemma drop_app (pre s : string) : drop (String.length pre) (pre +:+ s) = s.
Proof.
  induction pre as [|a r IH]; [now destruct s|].
  change (String a r +:+ s) with (String a (r +:+ s)). exact IH.
Qed.

Lemma slice_from_app (pre s : string) :
  slice_from (Z.of_nat (String.length pre)) (pre +:+ s) = s.
Proof.
  unfold slice_from.
  destruct (Z.ltb_spec (Z.of_nat (String.length pre)) 0) as [H|H]; [lia|].
  rewrite Nat2Z.id. apply drop_app.
Qed.

Lemma find_from_bounds (c : ascii) (s : string) (i : Z) :
  0 <= i -> find_from c s i = -1 \/ i <= find_from c s i.
Proof.
  revert i. induction s as [|a r IH]; intros i Hi; cbn [find_from]; [now left|].
  destruct (Ascii.eqb a c); [right; lia|].
  destruct (IH (i + 1)) as [H|H]; [lia|now left|right; lia].
Qed.

(** The text from the offset that [find] returns starts with the character
    sought. *)
Lemma drop_find_from (c : ascii) (s : string) (i : Z) :
  0 <= i -> find_from c s i <> -1 ->
  exists r, drop (Z.to_nat (find_from c s i - i)) s = String c r.
Proof.
  revert i. induction s as [|a r IH]; intros i Hi; cbn [find_from]; [congruence|].
  destruct (Ascii.eqb_spec a c) as [->|Hne].
  - intros _. replace (i - i) with 0 by lia. cbn. eauto.
  - intros H. destruct (find_from_bounds c r (i + 1)) as [Hb|Hb]; [lia|congruence|].
    destruct (IH (i + 1)) as [r' Hr']; [lia|exact H|].
    exists r'. replace (Z.to_nat (find_from c r (i + 1) - i))
      with (S (Z.to_nat (find_from c r (i + 1) - (i + 1)))) by lia.
    exact Hr'.
Qed.

Lemma slice_from_find (c : ascii) (s : string) :
  find c s <> -1 -> exists r, slice_from (find c s) s = String c r.
Proof.
  intros H. unfold slice_from.
  destruct (find_from_bounds c s 0) as [Hb|Hb]; [lia|contradiction|].
  fold (find c s) in Hb.
  destruct (Z.ltb_spec (find c s) 0) as [Hneg|_]; [lia|].
  destruct (drop_find_from c s 0) as [r Hr]; [lia|exact H|].
  exists r. unfold find. now rewrite Z.sub_0_r in Hr.
Qed.

End TextFacts.

(** ** Reading the response *)

Lemma loads_bracket_list (pf : string -> spec_float) (r : string) (v : pyval) :
  Json.loads pf (String "[" r) = Some v ->
  exists l, v = PList l.
Proof.
  unfold Json.loads.
  change (Json.skip_ws (String "[" r)) with (String "["%char r).
  replace (2 * String.length (String "[" r) + 2)%nat
    with (S (2 * String.length r + 3)) by (simpl; lia).
  cbn [Json.scan_once].
  change (Text.strip_prefix (String Text.dquote "") (String "[" r)) with (@None string).
  change (Text.strip_prefix "{" (String "[" r)) with (@None string).
  change (Text.strip_prefix "[" (String "[" r)) with (Some r).
  cbv iota beta.
  destruct (Text.strip_prefix "]" (Json.skip_ws r)) as [rest|].
  - destruct (Json.skip_ws rest); intros [= <-]; eauto.
  - destruct (Json.scan_array _ _ _ _) as [[items rest]|]; [|discriminate].
    destruct (Json.skip_ws rest); intros [= <-]; eauto.
Qed.

Lemma loads_brace (pf : string -> spec_float) (r : string) (v : pyval) :
  Json.loads pf (String "{" r) = Some v ->
  exists d, v = PDict d.
Proof. apply loads_brace_dict. reflexivity. Qed.

Lemma read_response_interprets (rt : runtime) (method_name stdout stderr : string) :
  Text.nonempty (Text.strip stdout) = true ->
  read_response rt method_name stdout stderr =
    let text := Text.strip stdout in
    let start := if Text.find "{" text =? -1 then Text.find "[" text else Text.find "{" text in
    if start =? -1 then inl (Condition.PayloadNotFound method_name text stderr)
    else interpret rt method_name (Text.slice_from start text) stderr.
Proof. intros H. rewrite payload_start by exact H. reflexivity. Qed.

Lemma strip_empty : Text.strip "" = "".
Proof. reflexivity. Qed.

Lemma nonempty_app_r (a b : string) :
  Text.nonempty b = true -> Text.nonempty (a +:+ b) = true.
Proof. destruct a; [trivial|reflexivity]. Qed.

(** X7.  The text in front of the payload is dropped.  When the output of the
    driver, stripped, is [pre] followed by [payload], where [payload]
    starts with a brace and [pre] holds no brace, the response is read
    from [payload] alone; and so it is when [payload] starts with a
    bracket and holds no brace, and [pre] holds neither brace nor
    bracket. *)
Theorem text_before_the_payload_is_dropped (rt : runtime)
  (method_name stdout stderr pre payload : string) :
  Text.strip stdout = pre +:+ payload ->
  lacks "{" pre ->
  Text.startswith "{" payload = true \/
    (Text.startswith "[" payload = true /\ lacks "[" pre /\ lacks "{" payload) ->
  read_response rt method_name stdout stderr = interpret rt method_name payload stderr.
Proof.
  unfold lacks. intros Hstrip Hpre Hpayload.
  assert (Hne : Text.nonempty payload = true).
  { destruct Hpayload as [H|[H _]]; apply startswith_char in H as [r ->]; reflexivity. }
  rewrite read_response_interprets
    by (rewrite Hstrip; now apply nonempty_app_r).
  cbv zeta. rewrite Hstrip.
  assert (E : (Z.of_nat (String.length pre) =? -1) = false) by (apply Z.eqb_neq; lia).
  destruct Hpayload as [H|(H & Hpre' & Hnone)]; apply startswith_char in H as [r ->].
  - rewrite (find_app_here "{" pre r Hpre), E. cbv iota.
    now rewrite E, slice_from_app.
  - rewrite (find_app_absent "{" pre _ Hpre Hnone).
    change (-1 =? -1) with true. cbv iota.
    rewrite (find_app_here "[" pre r Hpre'), E.
    now rewrite slice_from_app.
Qed.

Lemma text_before_the_payload_is_dropped_witness :
  read_response (Cases.plain "") "rollout"
    ("[LOG] warming up" +:+ Text.nl +:+ Text.q "{'ok': [1, 2]}" +:+ Text.nl) ""
    = inr (PDict [("ok", PList [PInt 1; PInt 2])]) /\
  read_response (Cases.plain "") "rollout" ("done: [1, 2]") ""
    = inr (PList [PInt 1; PInt 2]).
Proof.
  split.
  - rewrite (text_before_the_payload_is_dropped (Cases.plain "") "rollout" _ ""
               ("[LOG] warming up" +:+ Text.nl) (Text.q "{'ok': [1, 2]}")).
    + vm_compute; reflexivity.
    + vm_compute; reflexivity.
    + vm_compute; reflexivity.
    + left. vm_compute; reflexivity.
  - rewrite (text_before_the_payload_is_dropped (Cases.plain "") "rollout" _ ""
               "done: " "[1, 2]").
    + vm_compute; reflexivity.
    + vm_compute; reflexivity.
    + vm_compute; reflexivity.
    + right. repeat split; vm_compute; reflexivity.
Defined.

(** What is read from the output of a driver is a JSON object or a JSON
    array. *)
Lemma response_shape (rt : runtime)
  (method_name stdout stderr : string) (v : pyval) :
  String.eqb method_name "evaluate" = false \/ types rt = None ->
  read_response rt method_name stdout stderr = inr v ->
  (exists d, v = PDict d) \/ (exists l, v = PList l).
Proof.
  intros Hplain. unfold read_response.
  destruct (negb _ || negb _); [discriminate|].
  cbv zeta.
  set (text := Text.strip stdout).
  assert (Hty : (if String.eqb method_name "evaluate" then types rt else None) = None).
  { destruct Hplain as [->| ->]; [reflexivity|now destruct (String.eqb _ _)]. }
  rewrite Hty.
  destruct (Z.eqb_spec (Text.find "{" text) (-1)) as [Hbrace|Hbrace].
  - destruct (Z.eqb_spec (Text.find "[" text) (-1)) as [Hbracket|Hbracket]; [discriminate|].
    destruct (slice_from_find "[" text Hbracket) as [r ->].
    destruct (Json.loads _ _) as [data|] eqn:Hloads; [|discriminate].
    intros [= <-]. right. eapply loads_bracket_list; eauto.
  - destruct (Z.eqb_spec (Text.find "{" text) (-1)) as [|_]; [contradiction|].
    destruct (slice_from_find "{" text Hbrace) as [r ->].
    destruct (Json.loads _ _) as [data|] eqn:Hloads; [|discriminate].
    intros [= <-]. left. eapply loads_brace; eauto.
Qed.


(** ** One call into the module *)

Section Call.

Variable rt : runtime.

(** [_call_ts_method], step by step. *)
Lemma call_steps (method_name : string) (args : list pyval) (kwargs : dict) (st : machine) :
  _call_ts_method rt method_name args kwargs st =
    match _ensure_compiled rt st with
    | (Raise e, st1) => (Raise e, st1)
    | (Ret dist_path, st1) =>
        let index_js_path := Os.joinpath dist_path "index.js" in
        if Os.path_exists (os st1) index_js_path then
          match script_of rt method_name args kwargs (self st1) dist_path with
          | inl e => (Raise e, st1)
          | inr script =>
              let p := mkstemp rt (os st1) in
              run_driver rt method_name p (env_path (self st1))
                (Machine (self st1)
                   (Os.log (Created p)
                      (Os.with_fs (<[p := File script]> (fs (os st1))) (os st1))))
          end
        else (Raise (Condition.EntryNotCompiled index_js_path), st1)
    end.
Proof.
  unfold _call_ts_method. rewrite (bind_run (_ensure_compiled rt)).
  destruct (_ensure_compiled rt st) as [[dist_path|e] st1]; [|reflexivity].
  rewrite bind_get. cbv zeta.
  destruct (Os.path_exists (os st1) _); cbn [negb]; [|reflexivity].
  unfold script_of.
  repeat (rewrite bind_lift;
          match goal with
          | |- context [json_dumps rt ?v] =>
              destruct (json_dumps rt v); cbn [and_then]; [reflexivity|]
          end).
  rewrite bind_run. unfold on_os at 1, Os.write_temp. reflexivity.
Qed.

(** The [try] statement of [_call_ts_method], step by step. *)
Lemma run_driver_steps (method_name script_path cwd : string) (st : machine) :
  run_driver rt method_name script_path cwd st =
    match subprocess_run rt ["node"; script_path] cwd (os st) with
    | (Exited returncode stdout stderr, f) =>
        then_unlink script_path
          (if returncode =? 0 then
             match read_response rt method_name stdout stderr with
             | inl e => Raise e
             | inr v => Ret v
             end
           else Raise (map_failure rt method_name stdout stderr))
          (Machine (self st)
             (Os.log (Spawn ["node"; script_path] cwd) (Os.with_fs f (os st))))
    | (NotStarted e, _) =>
        then_unlink script_path (Raise e)
          (Machine (self st) (Os.log (Spawn ["node"; script_path] cwd) (os st)))
    end.
Proof.
  unfold run_driver, try_finally, then_unlink. rewrite bind_run.
  unfold on_os at 1, Os.run.
  destruct (subprocess_run rt _ cwd (os st)) as [[returncode stdout stderr|e] f].
  - destruct (returncode =? 0).
    + destruct (read_response rt method_name stdout stderr); cbn [lift raise ret];
        unfold on_os; cbn [self os]; now destruct (Os.unlink _ _) as [[[]|] ?].
    + unfold raise, on_os; cbn [self os]; now destruct (Os.unlink _ _) as [[[]|] ?].
  - unfold on_os; cbn [self os]; now destruct (Os.unlink _ _) as [[[]|] ?].
Qed.

(** What [unlink] records. *)
Lemma then_unlink_events (p : string) (r : outcome pyval) (st : machine) :
  self (snd (then_unlink p r st)) = self st /\
  (events (os (snd (then_unlink p r st))) = events (os st) \/
   events (os (snd (then_unlink p r st))) = Removed p :: events (os st)).
Proof.
  unfold then_unlink, Os.unlink.
  destruct (fs (os st) !! p) as [[|content]|]; cbn [snd self os events Os.log Os.with_fs]; auto.
Qed.

Lemma then_unlink_returns (p : string) (r : outcome pyval) (st st' : machine) (v : pyval) :
  then_unlink p r st = (Ret v, st') -> r = Ret v.
Proof.
  unfold then_unlink. destruct (Os.unlink p (os st)) as [[[]|e] h]; now intros [= -> _].
Qed.

(** [_ensure_compiled] changes nothing of the wrapper but its cache, and
    records at most the one build. *)
Lemma ensure_compiled_frame (st : machine) :
  let st1 := snd (_ensure_compiled rt st) in
  env_id (self st1) = env_id (self st) /\
  env_path (self st1) = env_path (self st) /\
  env_args (self st1) = env_args (self st) /\
  (_compiled_path (self st1) = _compiled_path (self st) \/
   _compiled_path (self st) = None /\ _compiled_path (self st1) = Some (dist_of (self st))) /\
  (events (os st1) = events (os st) \/
   _compiled_path (self st) = None /\
   events (os st1) = Spawn (build_cmd rt st) (env_path (self st)) :: events (os st)).
Proof.
  destruct st as [w h]. rewrite ensure_compiled_cases. cbv zeta. cbn [self os].
  destruct (_compiled_path w) eqn:Hc; [cbn [snd self os]; auto 10|].
  destruct (Os.path_exists h (dist_of w)).
  { cbn [snd self os cached env_id env_path env_args _compiled_path]. auto 10. }
  destruct (subprocess_run _ _ _ _) as [[returncode stdout stderr|e] f].
  - destruct (returncode =? 0); [destruct (Os.path_exists _ _)|];
      cbn [snd self os cached env_id env_path env_args _compiled_path events Os.log Os.with_fs];
      rewrite ?Hc; auto 10.
  - cbn [snd self os events Os.log]. rewrite Hc. auto 10.
Qed.

Lemma ensure_compiled_returns (st st1 : machine) (p : string) :
  _ensure_compiled rt st = (Ret p, st1) -> _compiled_path (self st1) = Some p.
Proof.
  destruct st as [w h]. rewrite ensure_compiled_cases. cbv zeta.
  destruct (_compiled_path w) eqn:Hc; [now intros [= <- <-]|].
  destruct (Os.path_exists h (dist_of w)); [now intros [= <- <-]|].
  destruct (subprocess_run _ _ _ _) as [[returncode stdout stderr|e] f]; [|discriminate].
  destruct (returncode =? 0); [destruct (Os.path_exists _ _)|]; try discriminate.
  now intros [= <- <-].
Qed.

End Call.

Section CallFacts.

Variable rt : runtime.

Lemma build_cmd_is_no_driver (st : machine) (cwd : string) :
  is_driver (Spawn (build_cmd rt st) cwd) = false.
Proof. unfold build_cmd. now destruct (_ || _). Qed.

Lemma build_cmd_is_spawn_build (st : machine) (cwd : string) :
  is_build (Spawn (build_cmd rt st) cwd) = true.
Proof. unfold build_cmd. now destruct (_ || _). Qed.

Lemma driver_is_no_build (a b cwd : string) : is_build (Spawn [a; b] cwd) = false.
Proof.
  unfold is_build.
  repeat match goal with
         | |- context [match ?x with _ => _ end] => destruct x; try reflexivity
         end.
Qed.

(** A driver that lets the call return has exited with status 0, and the
    value is what its output reads as. *)
Lemma run_driver_returns (method_name script_path cwd : string) (st st' : machine) (v : pyval) :
  run_driver rt method_name script_path cwd st = (Ret v, st') ->
  exists stdout stderr f,
    subprocess_run rt ["node"; script_path] cwd (os st) = (Exited 0 stdout stderr, f) /\
    read_response rt method_name stdout stderr = inr v /\
    In (Spawn ["node"; script_path] cwd) (events (os st')).
Proof.
  rewrite run_driver_steps.
  destruct (subprocess_run rt _ cwd (os st)) as [[returncode stdout stderr|e] f] eqn:Hrun.
  - intros H. pose proof (then_unlink_returns _ _ _ _ _ H) as Hr.
    pose proof (then_unlink_events script_path
                  (if returncode =? 0
                   then match read_response rt method_name stdout stderr with
                        | inl e => Raise e
                        | inr v => Ret v
                        end
                   else Raise (map_failure rt method_name stdout stderr))
                  (Machine (self st)
                     (Os.log (Spawn ["node"; script_path] cwd) (Os.with_fs f (os st)))))
      as [_ Hev].
    rewrite H in Hev. cbn [snd os events Os.log Os.with_fs] in Hev.
    destruct (Z.eqb_spec returncode 0) as [->|_]; [|discriminate].
    destruct (read_response rt method_name stdout stderr) as [e|v'] eqn:Hread; [discriminate|].
    injection Hr as ->. exists stdout, stderr, f.
    split; [reflexivity|]. split; [exact Hread|].
    destruct Hev as [-> | ->]; cbn; auto.
  - intros H. now apply then_unlink_returns in H.
Qed.

Lemma call_returns_a_response (method_name : string) (args : list pyval) (kwargs : dict)
  (st st' : machine) (v : pyval) :
  _call_ts_method rt method_name args kwargs st = (Ret v, st') ->
  exists stdout stderr, read_response rt method_name stdout stderr = inr v.
Proof.
  rewrite call_steps.
  destruct (_ensure_compiled rt st) as [[dist_path|e] st1]; [|discriminate].
  cbv zeta. destruct (Os.path_exists _ _); [|discriminate].
  destruct (script_of _ _ _ _ _ _); [discriminate|].
  intros H. apply run_driver_returns in H as (out & err & _ & _ & H & _). eauto.
Qed.

(** A call that returns has read the value from the output of a driver
    that exited with status 0. *)
Lemma call_returns_from_a_driver (method_name : string) (args : list pyval) (kwargs : dict)
  (st st' : machine) (v : pyval) :
  _call_ts_method rt method_name args kwargs st = (Ret v, st') ->
  exists script_path cwd h stdout stderr f,
    subprocess_run rt ["node"; script_path] cwd h = (Exited 0 stdout stderr, f) /\
    read_response rt method_name stdout stderr = inr v.
Proof.
  rewrite call_steps.
  destruct (_ensure_compiled rt st) as [[dist_path|e] st1]; [|discriminate].
  cbv zeta. destruct (Os.path_exists _ _); [|discriminate].
  destruct (script_of _ _ _ _ _ _); [discriminate|].
  intros H. apply run_driver_returns in H as (out & err & f & Hrun & Hread & _).
  eauto 10.
Qed.

(** What a call records: at most the build, then the script and its
    driver, then the removal of the script. *)
Lemma call_events (method_name : string) (args : list pyval) (kwargs : dict) (st : machine) :
  exists a b,
    events (os (snd (_call_ts_method rt method_name args kwargs st)))
      = a ++ b ++ events (os st) /\
    (b = [] \/
     _compiled_path (self st) = None /\
     b = [Spawn (build_cmd rt st) (env_path (self st))]) /\
    (a = [] \/
     exists p,
       a = [Spawn ["node"; p] (env_path (self st)); Created p] \/
       a = [Removed p; Spawn ["node"; p] (env_path (self st)); Created p]).
Proof.
  rewrite call_steps.
  pose proof (ensure_compiled_frame rt st) as (_ & Hpath & _ & _ & Hev).
  cbv zeta in Hpath, Hev.
  destruct (_ensure_compiled rt st) as [[dist_path|e] st1]; cbn [snd] in Hpath, Hev.
  2: { exists []. destruct Hev as [Hev|[Hc Hev]]; [exists []|eexists [_]];
       cbn [snd]; rewrite Hev; auto. }
  assert (Hstop : forall r : outcome pyval,
            exists a b,
              events (os (snd (r, st1))) = a ++ b ++ events (os st) /\
              (b = [] \/
               _compiled_path (self st) = None /\
               b = [Spawn (build_cmd rt st) (env_path (self st))]) /\
              (a = [] \/
               exists p,
                 a = [Spawn ["node"; p] (env_path (self st)); Created p] \/
                 a = [Removed p; Spawn ["node"; p] (env_path (self st)); Created p])).
  { intros r. exists []. destruct Hev as [Hev|[Hc Hev]]; [exists []|eexists [_]];
      cbn [snd]; rewrite Hev; auto. }
  cbv zeta. destruct (Os.path_exists _ _); [|apply Hstop].
  destruct (script_of _ _ _ _ _ _) as [e|script]; [apply Hstop|].
  rewrite run_driver_steps, Hpath. cbn [self os].
  set (p := mkstemp rt (os st1)).
  destruct (subprocess_run rt _ _ _) as [[returncode stdout stderr|e] f].
  - match goal with
    | |- context [then_unlink p ?r ?m] =>
        destruct (then_unlink_events p r m) as [_ Hun]
    end.
    cbn [os events Os.log Os.with_fs] in Hun.
    destruct Hun as [Hun|Hun]; rewrite Hun;
      [exists [Spawn ["node"; p] (env_path (self st)); Created p]
      |exists [Removed p; Spawn ["node"; p] (env_path (self st)); Created p]];
      (destruct Hev as [Hev|[Hc Hev]]; [exists []|eexists [_]];
       rewrite Hev; (split; [reflexivity|]); split; eauto 6).
  - match goal with
    | |- context [then_unlink p ?r ?m] =>
        destruct (then_unlink_events p r m) as [_ Hun]
    end.
    cbn [os events Os.log Os.with_fs] in Hun.
    destruct Hun as [Hun|Hun]; rewrite Hun;
      [exists [Spawn ["node"; p] (env_path (self st)); Created p]
      |exists [Removed p; Spawn ["node"; p] (env_path (self st)); Created p]];
      (destruct Hev as [Hev|[Hc Hev]]; [exists []|eexists [_]];
       rewrite Hev; (split; [reflexivity|]); split; eauto 6).
Qed.

End CallFacts.

(** X8.  One call starts at most two processes: the build at most once, and
    not at all for a wrapper that has its cached path, and the driver at
    most once.  Nothing else is started, and nothing is tried again. *)
Theorem a_call_starts_at_most_a_build_and_a_driver (rt : runtime) (method_name : string)
  (args : list pyval) (kwargs : dict) (st : machine) :
  let st' := snd (_call_ts_method rt method_name args kwargs st) in
  exists new,
    events (os st') = new ++ events (os st) /\
    (count is_build new <= 1)%nat /\
    (count is_driver new <= 1)%nat /\
    count is_spawn new = (count is_build new + count is_driver new)%nat /\
    (_compiled_path (self st) <> None -> count is_build new = 0%nat).
Proof.
  cbv zeta.
  destruct (call_events rt method_name args kwargs st) as (a & b & Hev & Hb & Ha).
  exists (a ++ b). rewrite <- app_assoc. split; [exact Hev|].
  unfold count.
  destruct Hb as [->|[Hc ->]]; destruct Ha as [->|[p [->| ->]]];
    cbn [app List.filter];
    rewrite ?build_cmd_is_spawn_build, ?build_cmd_is_no_driver, ?driver_is_no_build;
    cbn [is_build is_driver is_spawn length];
    repeat split; intros; try lia; try congruence.
Qed.

(** X9.  A call whose arguments [json.dumps] cannot encode raises without
    writing a script and without starting the driver: this holds when the
    positional arguments, the keyword arguments or the arguments of the
    module cannot be encoded. *)
Theorem unencodable_arguments_stop_the_call (rt : runtime) (method_name : string)
  (args : list pyval) (kwargs : dict) (st : machine) (e : pyexc) :
  json_dumps rt (PTuple args) = inl e \/
  json_dumps rt (PDict kwargs) = inl e \/
  json_dumps rt (PDict (env_args (self st))) = inl e ->
  let final := _call_ts_method rt method_name args kwargs st in
  (exists e', fst final = Raise e') /\
  exists new,
    events (os (snd final)) = new ++ events (os st) /\
    count is_driver new = 0%nat /\
    forall p, ~ In (Created p) new.
Proof.
  intros Hdumps. cbv zeta. rewrite call_steps.
  pose proof (ensure_compiled_frame rt st) as (_ & _ & Hargs & _ & Hev).
  cbv zeta in Hargs, Hev.
  destruct (_ensure_compiled rt st) as [[dist_path|e0] st1]; cbn [snd] in Hargs, Hev.
  - cbv zeta.
    assert (Hscript : exists e', script_of rt method_name args kwargs (self st1) dist_path = inl e').
    { unfold script_of. cbv zeta. rewrite Hargs.
      destruct (json_dumps rt (PStr _)); cbn [and_then]; [eauto|].
      destruct (json_dumps rt (PDict (env_args (self st)))) eqn:H1; cbn [and_then]; [eauto|].
      destruct (json_dumps rt (PTuple args)) eqn:H2; cbn [and_then]; [eauto|].
      destruct (json_dumps rt (PDict kwargs)) eqn:H3; cbn [and_then]; [eauto|].
      destruct Hdumps as [H|[H|H]]; discriminate H. }
    destruct Hscript as [e' ->].
    assert (Hstop : forall r : outcome pyval,
              (exists e', r = Raise e') ->
              (exists e', fst (r, st1) = Raise e') /\
              exists new,
                events (os (snd (r, st1))) = new ++ events (os st) /\
                count is_driver new = 0%nat /\
                forall p, ~ In (Created p) new).
    { intros r Hr. split; [exact Hr|]. cbn [snd].
      destruct Hev as [Hev|[_ Hev]]; rewrite Hev.
      - exists []. repeat split. intros p [].
      - eexists [_]. split; [reflexivity|]. unfold count. cbn [List.filter].
        rewrite build_cmd_is_no_driver. split; [reflexivity|].
        intros p [H|[]]. discriminate H. }
    destruct (Os.path_exists _ _); apply Hstop; eauto.
  - split; [cbn; eauto|]. cbn [snd].
    destruct Hev as [Hev|[_ Hev]]; rewrite Hev.
    + exists []. repeat split. intros p [].
    + eexists [_]. split; [reflexivity|]. unfold count. cbn [List.filter].
      rewrite build_cmd_is_no_driver. split; [reflexivity|].
      intros p [H|[]]. discriminate H.
Qed.

Lemma unencodable_arguments_stop_the_call_witness :
  let final :=
    _call_ts_method (Cases.plain (Text.q "{'ok':true}")) "rollout" [PObj "Decimal" None] []
      (Machine Scenario.wrapper Scenario.prebuilt) in
  (exists e', fst final = Raise e') /\
  exists new,
    events (os (snd final)) = new ++ [] /\
    count is_driver new = 0%nat /\
    forall p, ~ In (Created p) new.
Proof.
  refine (unencodable_arguments_stop_the_call (Cases.plain (Text.q "{'ok':true}")) "rollout"
            [PObj "Decimal" None] [] (Machine Scenario.wrapper Scenario.prebuilt)
            (Exc TypeError "Object of type tuple is not JSON serializable") _).
  left. reflexivity.
Defined.

(** X10.  A build directory without its entry file is adopted all the same.
    When the wrapper has no cached path and the host has the directory
    [dist] but not [dist/index.js], the call raises [FileNotFoundError]
    and starts nothing, and the wrapper caches [dist]; from then on every
    call on a host without the entry file raises the same error and the
    wrapper never starts the build. *)
Theorem a_build_without_its_entry_file_is_adopted (rt : runtime) (method_name : string)
  (args : list pyval) (kwargs : dict) (w : TSEnvironmentWrapper) (h : host) :
  _compiled_path w = None ->
  Os.path_exists h (dist_of w) = true ->
  Os.path_exists h (Os.joinpath (dist_of w) "index.js") = false ->
  let missing := Condition.EntryNotCompiled (Os.joinpath (dist_of w) "index.js") in
  let adopted := cached (dist_of w) w in
  _call_ts_method rt method_name args kwargs (Machine w h)
    = (Raise missing, Machine adopted h) /\
  forall (method_name' : string) (args' : list pyval) (kwargs' : dict) (h' : host),
    Os.path_exists h' (Os.joinpath (dist_of w) "index.js") = false ->
    _call_ts_method rt method_name' args' kwargs' (Machine adopted h')
      = (Raise missing, Machine adopted h').
Proof.
  intros Hc Hdist Hindex. cbv zeta. split.
  - rewrite call_steps, ensure_compiled_cases. cbv zeta. rewrite Hc, Hdist.
    cbn [os]. now rewrite Hindex.
  - intros method_name' args' kwargs' h' Hindex'.
    rewrite call_steps, ensure_compiled_cases. cbv zeta.
    cbn [cached _compiled_path os]. now rewrite Hindex'.
Qed.

Lemma a_build_without_its_entry_file_is_adopted_witness :
  let rt := Cases.plain (Text.q "{'ok':true}") in
  let missing := Condition.EntryNotCompiled Scenario.index_js in
  let adopted := cached Scenario.dist Scenario.wrapper in
  _call_ts_method rt "rollout" [] [] (Machine Scenario.wrapper Cases.stale)
    = (Raise missing, Machine adopted Cases.stale) /\
  _call_ts_method rt "rollout" [] [] (Machine adopted Scenario.installed)
    = (Raise missing, Machine adopted Scenario.installed).
Proof.
  cbv zeta.
  destruct (a_build_without_its_entry_file_is_adopted (Cases.plain (Text.q "{'ok':true}"))
              "rollout" [] [] Scenario.wrapper Cases.stale)
    as [Hfirst Hlater]; [reflexivity|vm_compute; reflexivity|vm_compute; reflexivity|].
  split; [exact Hfirst|].
  apply (Hlater "rollout" [] [] Scenario.installed). vm_compute; reflexivity.
Defined.

(** X11.  A value is returned only for a driver that succeeded: when
    [_call_ts_method] returns [v], a driver was started in the directory
    of the module, it exited with status 0, and [v] is what its output
    reads as. *)
Theorem a_returned_value_is_read_from_the_driver (rt : runtime) (method_name : string)
  (args : list pyval) (kwargs : dict) (st st' : machine) (v : pyval) :
  _call_ts_method rt method_name args kwargs st = (Ret v, st') ->
  exists script_path h stdout stderr f,
    subprocess_run rt ["node"; script_path] (env_path (self st)) h
      = (Exited 0 stdout stderr, f) /\
    read_response rt method_name stdout stderr = inr v /\
    In (Spawn ["node"; script_path] (env_path (self st))) (events (os st')).
Proof.
  rewrite call_steps.
  pose proof (ensure_compiled_frame rt st) as (_ & Hpath & _).
  cbv zeta in Hpath.
  destruct (_ensure_compiled rt st) as [[dist_path|e] st1]; [|discriminate].
  cbn [snd] in Hpath. cbv zeta.
  destruct (Os.path_exists _ _); [|discriminate].
  destruct (script_of _ _ _ _ _ _); [discriminate|].
  rewrite Hpath. intros H.
  apply run_driver_returns in H as (out & err & f & Hrun & Hread & Hin).
  eauto 10.
Qed.

Lemma a_returned_value_is_read_from_the_driver_witness :
  let rt := Cases.plain (Text.q "{'ok':true}") in
  exists script_path h stdout stderr f,
    subprocess_run rt ["node"; script_path] Scenario.root h = (Exited 0 stdout stderr, f) /\
    read_response rt "rollout" stdout stderr = inr (PDict [("ok", PBool true)]) /\
    In (Spawn ["node"; script_path] Scenario.root)
       (events (os (snd (_call_ts_method rt "rollout" [] []
                           (Machine Scenario.wrapper Scenario.prebuilt))))).
Proof.
  cbv zeta.
  refine (a_returned_value_is_read_from_the_driver (Cases.plain (Text.q "{'ok':true}"))
            "rollout" [] [] (Machine Scenario.wrapper Scenario.prebuilt) _ _ _).
  vm_compute; reflexivity.
Defined.

(** X12.  A call changes nothing of the wrapper but its cached path: the
    identifier, the directory and the arguments of the module stay, a
    cached path stays as it is, and a path that is cached by the call is
    [dist] in the directory of the module. *)
Theorem a_call_changes_only_the_cached_path (rt : runtime) (method_name : string)
  (args : list pyval) (kwargs : dict) (st : machine) :
  let w := self st in
  let w' := self (snd (_call_ts_method rt method_name args kwargs st)) in
  env_id w' = env_id w /\
  env_path w' = env_path w /\
  env_args w' = env_args w /\
  (_compiled_path w' = _compiled_path w \/
   _compiled_path w = None /\ _compiled_path w' = Some (dist_of w)).
Proof.
  cbv zeta. rewrite call_steps.
  pose proof (ensure_compiled_frame rt st) as (Hid & Hpath & Hargs & Hc & _).
  cbv zeta in Hid, Hpath, Hargs, Hc.
  destruct (_ensure_compiled rt st) as [[dist_path|e] st1]; cbn [snd] in *; [|auto].
  cbv zeta. destruct (Os.path_exists _ _); [|cbn [snd]; auto].
  destruct (script_of _ _ _ _ _ _); [cbn [snd]; auto|].
  rewrite run_driver_steps. cbn [self os].
  destruct (subprocess_run rt _ _ _) as [[returncode stdout stderr|e] f];
    match goal with
    | |- context [then_unlink ?p ?r ?m] =>
        destruct (then_unlink_events p r m) as [-> _]
    end; cbn [self]; auto.
Qed.

(** X13.  A call returns a JSON object or a JSON array: for a method other than
    [evaluate], or without [verifiers.types], the value that
    [_call_ts_method] returns is a dictionary or a list, never a number, a
    string, a boolean or [None], because the text that is decoded starts
    at a brace or a bracket. *)
Theorem a_call_returns_an_object_or_an_array (rt : runtime) (method_name : string)
  (args : list pyval) (kwargs : dict) (st st' : machine) (v : pyval) :
  String.eqb method_name "evaluate" = false \/ types rt = None ->
  _call_ts_method rt method_name args kwargs st = (Ret v, st') ->
  (exists d, v = PDict d) \/ (exists l, v = PList l).
Proof.
  intros Hplain Hcall.
  apply call_returns_a_response in Hcall as (stdout & stderr & Hread).
  eapply response_shape; eauto.
Qed.

Lemma a_call_returns_an_object_or_an_array_witness :
  (exists d, PList [PInt 1; PInt 2; PInt 3] = PDict d) \/
  (exists l, PList [PInt 1; PInt 2; PInt 3] = PList l).
Proof.
  refine (a_call_returns_an_object_or_an_array (Cases.plain "[1, 2, 3]") "rollout" [] []
            (Machine Scenario.wrapper Scenario.prebuilt)
            (snd (_call_ts_method (Cases.plain "[1, 2, 3]") "rollout" [] []
                    (Machine Scenario.wrapper Scenario.prebuilt)))
            _ _ _).
  - left. reflexivity.
  - vm_compute; reflexivity.
Defined.

(** ** rollout *)

(** X14.  [rollout] returns a tuple whenever its call into the module returns:
    the call returns a list or a dictionary, so [tuple] does not raise,
    and the tuple holds the items of the list, or the keys of the
    dictionary when the module has answered with an object. *)
Theorem rollout_returns_a_tuple (rt : runtime) (a : rollout_args)
  (st st' : machine) (v : pyval) :
  rollout_call rt a st = (Ret v, st') ->
  exists items,
    rollout rt a st = (Ret (PTuple items), st') /\
    (v = PList items \/
     exists d, v = PDict d /\ items = map (fun kv => PStr (fst kv)) d).
Proof.
  intros Hcall. unfold rollout. rewrite bind_run, Hcall.
  assert (Hshape : (exists d, v = PDict d) \/ (exists l, v = PList l)).
  { unfold rollout_call in Hcall. cbv zeta in Hcall.
    destruct (repeated_keyword (kwargs a)); [discriminate|].
    apply call_returns_a_response in Hcall as (stdout & stderr & Hread).
    eapply response_shape; [|exact Hread]. left. reflexivity. }
  destruct Hshape as [[d ->]|[l ->]]; cbn [py_tuple lift ret]; eauto 6.
Qed.

Lemma rollout_returns_a_tuple_witness :
  let rt := Cases.plain (Text.q "{'reward': 1, 'state': {}}") in
  let st := Machine Scenario.wrapper Scenario.prebuilt in
  exists items,
    rollout rt Scenario.plain_rollout st
      = (Ret (PTuple items), snd (rollout_call rt Scenario.plain_rollout st)) /\
    (PDict [("reward", PInt 1); ("state", PDict [])] = PList items \/
     exists d,
       PDict [("reward", PInt 1); ("state", PDict [])] = PDict d /\
       items = map (fun kv => PStr (fst kv)) d).
Proof.
  cbv zeta.
  refine (rollout_returns_a_tuple (Cases.plain (Text.q "{'reward': 1, 'state': {}}"))
            Scenario.plain_rollout (Machine Scenario.wrapper Scenario.prebuilt) _ _ _).
  vm_compute; reflexivity.
Defined.

Lemma repeated_keyword_found (k : string) (v : pyval) (kwargs : dict) :
  k = "api_key" \/ k = "base_url" ->
  Py.get k kwargs = Some v ->
  exists k', repeated_keyword kwargs = Some k'.
Proof.
  intros Hk. induction kwargs as [|[k0 v0] r IH]; cbn [Py.get repeated_keyword];
    [discriminate|].
  destruct (String.eqb_spec k0 k) as [->|Hne].
  - intros _. destruct Hk as [-> | ->]; cbn; eauto.
  - intros H. destruct (_ || _); eauto.
Qed.

(** X15.  Credentials cannot be passed to [rollout] among its keyword arguments:
    with [api_key] or [base_url] in [kwargs], [rollout] raises [TypeError]
    before anything is started, because its call passes both keywords by
    name and [kwargs] again.  Wrapper and host stay as they are. *)
Theorem credentials_in_kwargs_make_rollout_raise (rt : runtime) (a : rollout_args)
  (st : machine) (v : pyval) :
  Py.get "api_key" (kwargs a) = Some v \/ Py.get "base_url" (kwargs a) = Some v ->
  exists e, rollout rt a st = (Raise e, st) /\ exc_class_of e = TypeError.
Proof.
  intros H.
  assert (Hk : exists k, repeated_keyword (kwargs a) = Some k).
  { destruct H as [H|H];
      [apply (repeated_keyword_found "api_key" v)|apply (repeated_keyword_found "base_url" v)];
      auto. }
  destruct Hk as [k Hk].
  unfold rollout, rollout_call. cbv zeta. rewrite bind_run, Hk.
  cbn [raise]. eauto.
Qed.

Lemma credentials_in_kwargs_make_rollout_raise_witness :
  let a :=
    {| client := [];
       model := PStr "gpt";
       prompt := PList [];
       completion := PNone;
       answer := PStr "";
       state := PNone;
       task := PStr "default";
       info := PNone;
       example_id := PInt 0;
       sampling_args := PNone;
       kwargs := [("api_key", PStr "sk-test")] |} in
  exists e,
    rollout (Cases.plain "[1, 2, 3]") a (Machine Scenario.wrapper Scenario.prebuilt)
      = (Raise e, Machine Scenario.wrapper Scenario.prebuilt) /\
    exc_class_of e = TypeError.
Proof.
  cbv zeta.
  refine (credentials_in_kwargs_make_rollout_raise (Cases.plain "[1, 2, 3]") _ _
            (PStr "sk-test") _).
  left. reflexivity.
Defined.

(** *** C8 *)

(** C8 fails on the code.  The response of the guest is the array of a
    state, an answer and a reward record, which [json.loads] decodes to a
    list of three elements; the claim has [rollout] return the tuple of the
    three.  The bridge cuts the response at its first brace, cannot decode
    the rest, and raises: with a guest that answers every call with this
    array, no call of [rollout] returns, whatever its arguments and
    whatever the state of the wrapper and the host. *)
Theorem rollout_raises_on_an_array_that_holds_objects (rt : runtime) (stderr : string) :
  let stdout := Text.q "[{'turn':1},'answer',{'reward':1}]" in
  (forall script_path cwd h,
     fst (subprocess_run rt ["node"; script_path] cwd h) = Exited 0 stdout stderr) ->
  Json.loads (parse_float rt) stdout
    = Some (PList [PDict [("turn", PInt 1)]; PStr "answer"; PDict [("reward", PInt 1)]]) /\
  read_response rt "rollout" stdout stderr
    = inl (Condition.DecodeError "rollout" (Text.q "{'turn':1},'answer',{'reward':1}]") stderr) /\
  forall (a : rollout_args) (st : machine), exists e, fst (rollout rt a st) = Raise e.
Proof.
  cbv zeta. intros Hguest.
  assert (Hread : read_response rt "rollout" (Text.q "[{'turn':1},'answer',{'reward':1}]") stderr
                  = inl (Condition.DecodeError "rollout"
                           (Text.q "{'turn':1},'answer',{'reward':1}]") stderr)).
  { rewrite read_response_interprets by reflexivity. reflexivity. }
  split; [reflexivity|]. split; [exact Hread|].
  intros a st. unfold rollout. rewrite bind_run.
  destruct (rollout_call rt a st) as [[v|e] st'] eqn:Hcall; [|cbn [fst]; eauto].
  exfalso. unfold rollout_call in Hcall. cbv zeta in Hcall.
  destruct (repeated_keyword (kwargs a)); [discriminate|].
  apply call_returns_from_a_driver in Hcall
    as (script_path & cwd & h & out & err & f & Hrun & Hout).
  pose proof (Hguest script_path cwd h) as Hfst. rewrite Hrun in Hfst. cbn [fst] in Hfst.
  injection Hfst as Ho He. subst out err.
  assert (H : @inr pyexc pyval v
              = inl (Condition.DecodeError "rollout"
                       (Text.q "{'turn':1},'answer',{'reward':1}]") stderr))
    by (rewrite <- Hout; exact Hread).
  discriminate H.
Qed.

Lemma rollout_raises_on_an_array_that_holds_objects_witness :
  let stdout := Text.q "[{'turn':1},'answer',{'reward':1}]" in
  let rt := Cases.plain stdout in
  Json.loads (parse_float rt) stdout
    = Some (PList [PDict [("turn", PInt 1)]; PStr "answer"; PDict [("reward", PInt 1)]]) /\
  read_response rt "rollout" stdout ""
    = inl (Condition.DecodeError "rollout" (Text.q "{'turn':1},'answer',{'reward':1}]") "") /\
  forall (a : rollout_args) (st : machine), exists e, fst (rollout rt a st) = Raise e.
Proof.
  exact (rollout_raises_on_an_array_that_holds_objects
           (Cases.plain (Text.q "[{'turn':1},'answer',{'reward':1}]")) ""
           (fun _ _ _ => eq_refl)).
Defined.

(** The call of the claim on a host where the module is built: the driver
    prints the array of three and [rollout] raises [DecodeError]; for an
    array that holds no brace it returns the tuple. *)
Lemma rollout_of_state_answer_and_reward :
  let run stdout :=
    fst (rollout (Cases.plain stdout) Scenario.plain_rollout
           (Machine Scenario.wrapper Scenario.prebuilt)) in
  run (Text.q "[{'turn':1},'answer',{'reward':1}]")
    = Raise (Condition.DecodeError "rollout" (Text.q "{'turn':1},'answer',{'reward':1}]") "") /\
  run "[1, 2, 3]" = Ret (PTuple [PInt 1; PInt 2; PInt 3]).
Proof. split; vm_compute; reflexivity. Qed.

(** ** evaluate *)

Section EvaluateFacts.

Variable rt : runtime.

Lemma normalize_field_spec (key : string) (d d' : dict) :
  normalize_field rt key d = inr d' ->
  (forall k, k <> key -> Py.get k d' = Py.get k d) /\
  (forall sequences, Py.get key d' = Some (PList sequences) ->
                     Forall tool_calls_normal sequences).
Proof.
  unfold normalize_field.
  destruct (Py.get key d) as [[| | | | |seqs| | |]|] eqn:Hget;
    try (intros [= <-]; split; [reflexivity|]; intros sequences H; congruence).
  destruct (traverse (normalize_tool_calls_in_messages rt) seqs) as [e|out] eqn:Htr;
    [discriminate|].
  cbn [and_then]. intros [= <-]. split.
  - intros k Hk. apply get_set_other. congruence.
  - intros sequences. rewrite get_set_same. intros [= <-].
    eapply traverse_all; [|exact Htr].
    intros messages normalized Hn msgs dm tool_calls -> Hin Hcalls.
    destruct messages as [| | | | |ms| | |];
      cbn [normalize_tool_calls_in_messages] in Hn; try discriminate.
    destruct (traverse (normalize_message rt) ms) as [e|out'] eqn:Hms; [discriminate|].
    cbn [and_then] in Hn. injection Hn as <-.
    destruct (traverse_from _ _ _ _ Hms Hin) as (msg & _ & Hmsg).
    eapply normalize_message_tool_calls; eauto.
Qed.

End EvaluateFacts.

(** X16.  With [verifiers.types] installed, what [evaluate] returns is what the
    constructor [GenerateOutputs] has made of fields in which every
    message sequence under [prompt] and under [completion] lists only
    tool calls of the normal shape. *)
Theorem evaluate_returns_normalized_outputs (rt : runtime) (ty : verifiers_types)
  (a : Evaluate.args) (st st' : machine) (v : pyval) :
  types rt = Some ty ->
  Evaluate.evaluate rt a st = (Ret v, st') ->
  exists d,
    GenerateOutputs ty d = inr v /\
    forall key sequences,
      key = "prompt" \/ key = "completion" ->
      Py.get key d = Some (PList sequences) ->
      Forall tool_calls_normal sequences.
Proof.
  intros Hty Hcall. unfold Evaluate.evaluate in Hcall. cbv zeta in Hcall.
  apply call_returns_a_response in Hcall as (stdout & stderr & Hread).
  unfold read_response in Hread.
  destruct (negb _ || negb _); [discriminate|]. cbv zeta in Hread.
  destruct (_ =? -1); [discriminate|].
  destruct (Json.loads _ _) as [data|]; [|discriminate].
  change (String.eqb "evaluate" "evaluate") with true in Hread. rewrite Hty in Hread.
  assert (Hout : to_generate_outputs rt ty data = inr v).
  { destruct (to_generate_outputs rt ty data) as [[[] msg]|v']; congruence. }
  clear Hread. unfold to_generate_outputs in Hout.
  destruct data as [| | | | | | |d0|]; try discriminate.
  match type of Hout with
  | and_then ?m _ = _ => destruct m as [e|d1]; [discriminate|]
  end.
  cbn [and_then] in Hout.
  destruct (normalize_field rt "prompt" d1) as [e|d2] eqn:Hprompt; [discriminate|].
  cbn [and_then] in Hout.
  destruct (normalize_field rt "completion" d2) as [e|d3] eqn:Hcompletion; [discriminate|].
  cbn [and_then] in Hout.
  exists d3. split; [exact Hout|].
  apply normalize_field_spec in Hprompt as [_ Hprompt].
  apply normalize_field_spec in Hcompletion as [Hkeep Hcompletion].
  intros key sequences [-> | ->] Hget.
  - apply Hprompt. rewrite <- Hkeep by discriminate. exact Hget.
  - now apply Hcompletion.
Qed.

Lemma evaluate_returns_normalized_outputs_witness :
  let rt := Scenario.with_types (Cases.plain Scenario.evaluate_stdout) in
  let st := Machine Scenario.wrapper Scenario.prebuilt in
  exists d,
    GenerateOutputs Scenario.models d
      = inr (PObj "GenerateOutputs"
               (Some
                  [ ("prompt", PList [PList [PDict [("role", PStr "user"); ("content", PStr "hi")]]]);
                    ("completion",
                     PList [PList [PDict
                       [ ("role", PStr "assistant"); ("content", PStr "");
                         ("tool_calls",
                          PList [ PDict [ ("function", PDict [("name", PStr "f"); ("arguments", PStr "{}")]);
                                          ("type", PStr "function") ];
                                  PDict [ ("function", PDict [("name", PStr "x"); ("arguments", PStr "{}")]);
                                          ("type", PStr "function") ] ]) ]]]);
                    ("metadata", PObj "GenerateMetadata" (Some [("env_id", PStr "demo")])) ])) /\
    forall key sequences,
      key = "prompt" \/ key = "completion" ->
      Py.get key d = Some (PList sequences) ->
      Forall tool_calls_normal sequences.
Proof.
  cbv zeta.
  refine (evaluate_returns_normalized_outputs
            (Scenario.with_types (Cases.plain Scenario.evaluate_stdout)) Scenario.models
            Cases.evaluate_args (Machine Scenario.wrapper Scenario.prebuilt)
            (snd (Evaluate.evaluate (Scenario.with_types (Cases.plain Scenario.evaluate_stdout))
                    Cases.evaluate_args (Machine Scenario.wrapper Scenario.prebuilt)))
            _ eq_refl _).
  vm_compute; reflexivity.
Defined.

(** ** Locating and loading a module *)

Lemma load_ts_environment_raises (env_id env_dir_path : string) (env_args : dict)
  (h : host) (e : pyexc) :
  fst (load_ts_environment env_id env_dir_path env_args h) = Raise e ->
  exc_class_of e = ValueError.
Proof.
  unfold load_ts_environment. rewrite bind_get.
  destruct (negb _); [now intros [= <-]|].
  destruct (_ && _); [now intros [= <-]|discriminate].
Qed.



Section Path.

Variable rt : runtime.

Lemma add_candidates_cons (c : string) (r : list string) (h : host) :
  EnvUtils.add_candidates (c :: r) h =
    EnvUtils.add_candidates r
      (if Os.path_exists h c && Os.is_dir h c && negb (bool_decide (c ∈ sys_path h))
       then Host (fs h) (events h) (c :: sys_path h) (sys_modules h)
       else h).
Proof.
  cbn [EnvUtils.add_candidates]. rewrite bind_run. unfold EnvUtils.add_candidate.
  now destruct (_ && _).
Qed.

Lemma add_candidates_spec (candidates : list string) (h : host) :
  let final := EnvUtils.add_candidates candidates h in
  fst final = Ret tt /\
  fs (snd final) = fs h /\
  events (snd final) = events h /\
  sys_modules (snd final) = sys_modules h /\
  exists added,
    sys_path (snd final) = added ++ sys_path h /\
    (forall c, In c added -> In c candidates /\ Os.is_dir h c = true /\ ~ In c (sys_path h)) /\
    (List.NoDup (sys_path h) -> List.NoDup (sys_path (snd final))).
Proof.
  cbv zeta. revert h. induction candidates as [|c r IH]; intros h.
  - cbn [EnvUtils.add_candidates ret fst snd]. do 4 (split; [reflexivity|]).
    exists []. split; [reflexivity|]. split; [intros c' []|trivial].
  - rewrite add_candidates_cons.
    destruct (Os.path_exists h c && Os.is_dir h c && negb (bool_decide (c ∈ sys_path h)))
      eqn:Hcond.
    + apply andb_prop in Hcond as [Hcond Hnew]. apply andb_prop in Hcond as [_ Hdir].
      apply negb_true_iff, bool_decide_eq_false in Hnew.
      rewrite list_elem_of_In in Hnew.
      destruct (IH (Host (fs h) (events h) (c :: sys_path h) (sys_modules h)))
        as (Hret & Hfs & Hev & Hmod & added & Hpath & Hadded & Hnodup).
      cbn [fs events sys_path sys_modules] in *.
      repeat (split; [assumption|]).
      exists (added ++ [c]). split; [now rewrite Hpath, <- List.app_assoc|]. split.
      * intros c' Hin. apply in_app_or in Hin as [Hin|[<-|[]]].
        -- destruct (Hadded c' Hin) as (Hin' & Hdir' & Hnot).
           split; [now right|]. split; [exact Hdir'|].
           intros H. apply Hnot. now right.
        -- split; [now left|]. split; [exact Hdir|exact Hnew].
      * intros Hnd. apply Hnodup. now constructor.
    + destruct (IH h) as (Hret & Hfs & Hev & Hmod & added & Hpath & Hadded & Hnodup).
      repeat (split; [assumption|]).
      exists added. split; [exact Hpath|]. split; [|exact Hnodup].
      intros c' Hin. destruct (Hadded c' Hin) as (Hin' & Hrest). split; [now right|exact Hrest].
Qed.

Lemma import_frame (name : string) (h : host) :
  fs (snd (EnvUtils.import rt name h)) = fs h /\
  sys_path (snd (EnvUtils.import rt name h)) = sys_path h.
Proof.
  unfold EnvUtils.import.
  destruct (import_module rt name h); [now split|].
  destruct (bool_decide _); now split.
Qed.

Lemma ensure_ts_bridge_on_path_fs (env_dir_path : option string) (h : host) :
  fst (EnvUtils._ensure_ts_bridge_on_path rt env_dir_path h) = Ret tt /\
  fs (snd (EnvUtils._ensure_ts_bridge_on_path rt env_dir_path h)) = fs h /\
  sys_modules (snd (EnvUtils._ensure_ts_bridge_on_path rt env_dir_path h)) = sys_modules h.
Proof.
  unfold EnvUtils._ensure_ts_bridge_on_path. rewrite bind_get.
  destruct (bool_decide _); [now repeat split|].
  match goal with
  | |- context [EnvUtils.add_candidates ?cs h] =>
      destruct (add_candidates_spec cs h) as (Hret & Hfs & _ & Hmod & _)
  end.
  now repeat split.
Qed.

(** The attempt to import the bridge, as [_load_ts_environment] makes it. *)
Lemma import_attempt (env_dir_path : option string) (h : host) :
  let attempt :=
    try_except
      (bind (EnvUtils._ensure_ts_bridge_on_path rt env_dir_path)
         (fun _ => bind (EnvUtils.import rt EnvUtils.bridge_module) (fun _ => ret true)))
      (fun e => if is_Exception e then Some (ret false) else None) h in
  fs (snd attempt) = fs h /\
  match fst attempt with
  | Ret imported =>
      imported =
        match import_module rt EnvUtils.bridge_module
                (snd (EnvUtils._ensure_ts_bridge_on_path rt env_dir_path h)) with
        | inl _ => false
        | inr _ => true
        end
  | Raise e =>
      is_Exception e = false /\
      import_module rt EnvUtils.bridge_module
        (snd (EnvUtils._ensure_ts_bridge_on_path rt env_dir_path h)) = inl e
  end.
Proof.
  cbv zeta. unfold try_except. rewrite bind_run.
  destruct (ensure_ts_bridge_on_path_fs env_dir_path h) as (Hret & Hfs & _).
  destruct (EnvUtils._ensure_ts_bridge_on_path rt env_dir_path h) as [[[]|e] h1];
    cbn [fst snd] in *; [|discriminate].
  rewrite bind_run.
  destruct (import_frame EnvUtils.bridge_module h1) as [Hfs' _].
  unfold EnvUtils.import in *.
  destruct (import_module rt EnvUtils.bridge_module h1) as [e|m] eqn:Himport.
  - cbn [snd] in Hfs'. destruct (is_Exception e) eqn:He; cbn [fst snd ret]; auto.
  - destruct (bool_decide _); cbn [fst snd ret fs] in *; auto.
Qed.

Lemma path_exists_fs (h h' : host) (p : string) :
  fs h' = fs h -> Os.path_exists h' p = Os.path_exists h p.
Proof. unfold Os.path_exists. now intros ->. Qed.

End Path.

(** X18.  Whatever else it does, [_ensure_ts_bridge_on_path] changes nothing of
    the host but [sys.path], to which it only adds, in front, directories
    that exist and were not listed; it adds nothing when the bridge is
    already imported, and a [sys.path] without repetitions stays
    without. *)
Theorem the_bridge_path_is_added_once (rt : runtime) (env_dir_path : option string)
  (h : host) :
  let final := EnvUtils._ensure_ts_bridge_on_path rt env_dir_path h in
  fs (snd final) = fs h /\
  events (snd final) = events h /\
  sys_modules (snd final) = sys_modules h /\
  exists added,
    sys_path (snd final) = added ++ sys_path h /\
    (forall c, In c added -> Os.is_dir h c = true /\ ~ In c (sys_path h)) /\
    (List.NoDup (sys_path h) -> List.NoDup (sys_path (snd final))) /\
    (In EnvUtils.bridge_module (sys_modules h) -> added = []).
Proof.
  cbv zeta. unfold EnvUtils._ensure_ts_bridge_on_path. rewrite bind_get.
  destruct (bool_decide (EnvUtils.bridge_module ∈ sys_modules h)) eqn:Hloaded.
  - cbn [ret fst snd]. do 3 (split; [reflexivity|]).
    exists []. split; [reflexivity|]. split; [intros c []|]. split; trivial.
  - apply bool_decide_eq_false in Hloaded. rewrite list_elem_of_In in Hloaded.
    match goal with
    | |- context [EnvUtils.add_candidates ?cs h] =>
        destruct (add_candidates_spec cs h)
          as (_ & Hfs & Hev & Hmod & added & Hpath & Hadded & Hnodup)
    end.
    repeat (split; [assumption|]).
    exists added. split; [exact Hpath|]. split; [|split; [exact Hnodup|contradiction]].
    intros c Hin. now destruct (Hadded c Hin) as (_ & Hrest).
Qed.



Section Fallback.

Variable rt : runtime.

(** [_load_ts_environment], step by step. *)
Lemma fallback_steps (env_id : string) (env_dir_path : option string) (env_args : dict)
  (h : host) :
  EnvUtils._load_ts_environment rt env_id env_dir_path env_args h =
    match
      try_except
        (bind (EnvUtils._ensure_ts_bridge_on_path rt env_dir_path)
           (fun _ => bind (EnvUtils.import rt EnvUtils.bridge_module) (fun _ => ret true)))
        (fun e => if is_Exception e then Some (ret false) else None)
        (Os.log (Entered "_load_ts_environment") h)
    with
    | (Raise e, h1) => (Raise e, h1)
    | (Ret false, h1) => (Ret None, h1)
    | (Ret true, h1) =>
        let resolved_dir :=
          match EnvUtils.given env_dir_path with
          | Some d =>
              if Os.path_exists h1 (resolve rt d) then Some (resolve rt d) else None
          | None =>
              match EnvUtils.given (getenv rt "VERIFIERS_ENV_DIR_PATH") with
              | Some env_dir_var =>
                  if Os.path_exists h1 (resolve rt env_dir_var)
                  then Some (resolve rt env_dir_var) else None
              | None => None
              end
          end in
        let last_attempt : M host (option TSEnvironmentWrapper) :=
          match env_dir_path, resolved_dir with
          | None, None =>
              bind (load_ts_environment env_id "./environments" env_args)
                (fun w => ret (Some w))
          | _, _ => ret None
          end in
        match resolved_dir with
        | Some d =>
            EnvUtils.search d env_id env_args [env_id; Text.replace "-" "_" env_id]
              last_attempt h1
        | None => last_attempt h1
        end
    end.
Proof.
  unfold EnvUtils._load_ts_environment. rewrite bind_run. unfold modify at 1.
  rewrite bind_run.
  destruct (try_except _ _ _) as [[[]|e] h1]; try reflexivity.
  cbn [negb]. rewrite bind_get. cbv zeta.
  match goal with
  | |- context [match ?d with Some _ => EnvUtils.search _ _ _ _ _ | None => _ end] =>
      destruct d
  end; reflexivity.
Qed.

Lemma search_raises (resolved_dir env_id : string) (env_args : dict) (names : list string)
  (otherwise : M host (option TSEnvironmentWrapper)) (h : host) (e : pyexc) :
  (forall e', fst (otherwise h) = Raise e' -> exc_class_of e' = ValueError) ->
  fst (EnvUtils.search resolved_dir env_id env_args names otherwise h) = Raise e ->
  exc_class_of e = ValueError.
Proof.
  intros Hother. induction names as [|name r IH]; cbn [EnvUtils.search]; [apply Hother|].
  rewrite bind_get. destruct (Os.path_exists _ _); [|exact IH].
  rewrite bind_run.
  pose proof (load_ts_environment_raises env_id resolved_dir env_args h) as Hraise.
  destruct (load_ts_environment _ _ _ h) as [[w|e'] h']; cbn [fst] in *; [discriminate|].
  intros [= <-]. now apply Hraise.
Qed.

Lemma search_fs (resolved_dir env_id : string) (env_args : dict) (names : list string)
  (otherwise : M host (option TSEnvironmentWrapper)) (h : host) :
  snd (otherwise h) = h ->
  snd (EnvUtils.search resolved_dir env_id env_args names otherwise h) = h.
Proof.
  intros Hother. induction names as [|name r IH]; cbn [EnvUtils.search]; [exact Hother|].
  rewrite bind_get. destruct (Os.path_exists _ _); [|exact IH].
  rewrite bind_run.
  pose proof (load_ts_environment_reads env_id resolved_dir env_args h) as Hread.
  destruct (load_ts_environment _ _ _ h) as [[w|e'] h']; cbn [snd] in *; now subst.
Qed.

Lemma search_fresh (resolved_dir env_id : string) (env_args : dict) (names : list string)
  (otherwise : M host (option TSEnvironmentWrapper)) (h : host) (w : TSEnvironmentWrapper) :
  (forall w', fst (otherwise h) = Ret (Some w') -> _compiled_path w' = None) ->
  fst (EnvUtils.search resolved_dir env_id env_args names otherwise h) = Ret (Some w) ->
  _compiled_path w = None.
Proof.
  intros Hother. induction names as [|name r IH]; cbn [EnvUtils.search]; [apply Hother|].
  rewrite bind_get. destruct (Os.path_exists _ _); [|exact IH].
  rewrite bind_run. unfold load_ts_environment. rewrite bind_get.
  destruct (negb _); [discriminate|]. destruct (_ && _); [discriminate|].
  now intros [= <-].
Qed.

Lemma last_attempt_spec (env_id : string) (env_args : dict) (attempt : bool) (h : host) :
  let m : M host (option TSEnvironmentWrapper) :=
    if attempt
    then bind (load_ts_environment env_id "./environments" env_args) (fun w => ret (Some w))
    else ret None in
  snd (m h) = h /\
  (forall e, fst (m h) = Raise e -> exc_class_of e = ValueError) /\
  (forall w, fst (m h) = Ret (Some w) -> _compiled_path w = None).
Proof.
  cbv zeta. destruct attempt; [|cbn; repeat split; discriminate].
  rewrite bind_run.
  pose proof (load_ts_environment_reads env_id "./environments" env_args h) as Hread.
  pose proof (load_ts_environment_raises env_id "./environments" env_args h) as Hraise.
  unfold load_ts_environment in *. rewrite bind_get in *.
  destruct (negb _); [cbn [fst snd raise] in *; repeat split; try discriminate;
                      intros e [= <-]; now apply Hraise|].
  destruct (_ && _); cbn [fst snd raise ret] in *; repeat split; try discriminate.
  - intros e [= <-]. now apply Hraise.
  - now intros w [= <-].
Qed.

(** What the fallback leaves of the host, what it raises and what it
    returns. *)
Lemma fallback_spec (env_id : string) (env_dir_path : option string) (env_args : dict)
  (h : host) :
  let final := EnvUtils._load_ts_environment rt env_id env_dir_path env_args h in
  fs (snd final) = fs h /\
  (forall e, fst final = Raise e -> is_Exception e = true -> exc_class_of e = ValueError) /\
  (forall w, fst final = Ret (Some w) -> _compiled_path w = None).
Proof.
  cbv zeta. rewrite fallback_steps.
  pose proof (import_attempt rt env_dir_path (Os.log (Entered "_load_ts_environment") h))
    as [Hfs Hattempt].
  cbv zeta in Hfs, Hattempt.
  destruct (try_except _ _ _) as [[[]|e] h1]; cbn [fst snd] in *.
  - cbv zeta.
    match goal with
    | |- context [match ?d with Some _ => EnvUtils.search _ _ _ _ _ _ | None => _ end] =>
        destruct d as [resolved|]
    end.
    + assert (Hlast : forall h',
                let m : M host (option TSEnvironmentWrapper) :=
                  match env_dir_path with
                  | Some _ => ret None
                  | None => ret None
                  end in
                snd (m h') = h' /\
                (forall e, fst (m h') = Raise e -> exc_class_of e = ValueError) /\
                (forall w, fst (m h') = Ret (Some w) -> _compiled_path w = None)).
      { intros h'. cbv zeta. destruct env_dir_path; cbn; repeat split; discriminate. }
      destruct (Hlast h1) as (H1 & H2 & H3). cbv zeta in H1, H2, H3.
      split; [|split].
      * rewrite search_fs; [exact Hfs|exact H1].
      * intros e He _. eapply search_raises; [exact H2|exact He].
      * intros w Hw. eapply search_fresh; [exact H3|exact Hw].
    + destruct env_dir_path as [d|].
      * cbn [ret fst snd]. split; [exact Hfs|]. split; discriminate.
      * destruct (last_attempt_spec env_id env_args true h1) as (H1 & H2 & H3).
        cbv zeta in H1, H2, H3. rewrite H1. split; [exact Hfs|]. split; [|exact H3].
        intros e He _. now apply H2.
  - split; [exact Hfs|]. split; discriminate.
  - split; [exact Hfs|]. split; [|discriminate].
    intros e' [= <-] He. destruct Hattempt as [Hno _]. congruence.
Qed.

Lemma fallback_without_bridge (env_id : string) (env_dir_path : option string)
  (env_args : dict) (h : host) (e : pyexc) :
  (forall h', import_module rt EnvUtils.bridge_module h' = inl e) ->
  is_Exception e = true ->
  fst (EnvUtils._load_ts_environment rt env_id env_dir_path env_args h) = Ret None.
Proof.
  intros Himport He. rewrite fallback_steps.
  pose proof (import_attempt rt env_dir_path (Os.log (Entered "_load_ts_environment") h))
    as [_ Hattempt].
  cbv zeta in Hattempt. rewrite Himport in Hattempt.
  destruct (try_except _ _ _) as [[[]|e'] h1]; cbn [fst] in *;
    [discriminate|reflexivity|].
  destruct Hattempt as [Hno [= <-]]. congruence.
Qed.

Lemma load_native_fs (env_id : string) (env_args : dict) (h : host) :
  fs (snd (EnvUtils.load_native rt env_id env_args h)) = fs h.
Proof.
  unfold EnvUtils.load_native. rewrite bind_run.
  destruct (import_frame rt (EnvUtils.module_name env_id) h) as [H _].
  destruct (EnvUtils.import rt (EnvUtils.module_name env_id) h) as [[module|e] h'];
    cbn [snd] in H; [|exact H].
  destruct (load_environment_attr module) as [env_load_func|]; [|exact H].
  destruct (signature_error env_load_func); [exact H|].
  rewrite bind_lift. destruct (call_loader env_load_func env_args); exact H.
Qed.

End Fallback.

(** X20.  An identifier for which nothing can be imported ends in [ValueError]:
    when the import of the native module raises an [ImportError] and the
    import of the bridge raises an exception as well, [load_environment]
    raises the [ValueError] that says that the environment could not be
    imported. *)
Theorem nothing_to_import_is_a_value_error (rt : runtime) (env_id : string)
  (env_dir_path : option string) (env_args : dict) (h : host) (e1 e2 : pyexc) :
  import_module rt (EnvUtils.module_name env_id) h = inl e1 ->
  is_ImportError e1 = true ->
  (forall h', import_module rt EnvUtils.bridge_module h' = inl e2) ->
  is_Exception e2 = true ->
  fst (EnvUtils.load_environment rt env_id env_dir_path env_args h)
    = Raise (EnvUtils.could_not_import env_id).
Proof.
  intros H1 He1 H2 He2.
  unfold EnvUtils.load_environment, try_except, EnvUtils.load_native.
  rewrite bind_run. unfold EnvUtils.import at 1. rewrite H1, He1.
  unfold EnvUtils.on_import_error. rewrite bind_run.
  pose proof (fallback_without_bridge rt env_id env_dir_path env_args h e2 H2 He2) as Hnone.
  destruct (EnvUtils._load_ts_environment rt env_id env_dir_path env_args h) as [r h'].
  cbn [fst] in Hnone. now subst r.
Qed.

Lemma nothing_to_import_is_a_value_error_witness :
  fst (EnvUtils.load_environment (Cases.plain "") "my-env" None [] Scenario.installed)
    = Raise (EnvUtils.could_not_import "my-env").
Proof.
  refine (nothing_to_import_is_a_value_error (Cases.plain "") "my-env" None []
            Scenario.installed
            (Exc ModuleNotFoundError "No module named 'my_env'")
            (Exc ModuleNotFoundError "No module named 'verifiers_ts_loader'")
            eq_refl eq_refl _ eq_refl).
  reflexivity.
Defined.

(** X21.  The second name of the search cannot succeed.  [_load_ts_environment]
    looks for a directory named by the identifier and then for one named
    by the identifier with underscores, but loads by the identifier
    itself: when only the directory with underscores exists, the bridge
    raises the [ValueError] that the directory of the identifier was not
    found. *)
Theorem the_underscore_directory_is_found_and_not_loaded (rt : runtime)
  (env_id env_dir_path : string) (env_args : dict) (h : host) :
  let root := resolve rt env_dir_path in
  (forall h', exists m, import_module rt EnvUtils.bridge_module h' = inr m) ->
  Text.nonempty env_dir_path = true ->
  Os.path_exists h root = true ->
  Os.path_exists h (Os.joinpath root env_id) = false ->
  Os.path_exists h (Os.joinpath root (Text.replace "-" "_" env_id)) = true ->
  fst (EnvUtils._load_ts_environment rt env_id (Some env_dir_path) env_args h)
    = Raise (Condition.ModuleNotFound (Os.joinpath root env_id)).
Proof.
  cbv zeta. intros Himport Hgiven Hroot Hid Hunder.
  rewrite fallback_steps.
  pose proof (import_attempt rt (Some env_dir_path)
                (Os.log (Entered "_load_ts_environment") h)) as [Hfs Hattempt].
  cbv zeta in Hfs, Hattempt.
  match type of Hattempt with
  | context [import_module rt EnvUtils.bridge_module ?h'] =>
      destruct (Himport h') as [m Hm]; rewrite Hm in Hattempt
  end.
  destruct (try_except _ _ _) as [[[]|e] h1]; cbn [fst snd] in *;
    [|discriminate|destruct Hattempt; discriminate].
  assert (Hsame : forall p, Os.path_exists h1 p = Os.path_exists h p).
  { intros p. apply path_exists_fs. exact Hfs. }
  cbv zeta. unfold EnvUtils.given. rewrite Hgiven, Hsame, Hroot.
  cbn [EnvUtils.search]. rewrite bind_get, Hsame, Hid, bind_get, Hsame, Hunder.
  rewrite bind_run. unfold load_ts_environment. rewrite bind_get, Hsame, Hid.
  reflexivity.
Qed.

Lemma the_underscore_directory_is_found_and_not_loaded_witness :
  fst (EnvUtils._load_ts_environment
         (Scenario.runtime_of Scenario.build_succeeds (Scenario.node_prints "")
            Cases.only_bridge)
         "my-env" (Some "/work/environments") [] Cases.underscored)
    = Raise (Condition.ModuleNotFound "/work/environments/my-env").
Proof.
  refine (the_underscore_directory_is_found_and_not_loaded
            (Scenario.runtime_of Scenario.build_succeeds (Scenario.node_prints "")
               Cases.only_bridge)
            "my-env" "/work/environments" [] Cases.underscored _ eq_refl _ _ _).
  - intros h'. eexists. reflexivity.
  - vm_compute; reflexivity.
  - vm_compute; reflexivity.
  - vm_compute; reflexivity.
Defined.

(** X23.  Loading builds nothing.  Apart from what an imported module does
    when it is run, which the host here does not record, [load_environment]
    leaves the files of the host as they are and starts no process: the
    one thing it records is its attempt at the fallback.  A wrapper that
    it returns has no cached path, so that the build is left to the first
    call. *)
Theorem loading_builds_nothing (rt : runtime) (env_id : string)
  (env_dir_path : option string) (env_args : dict) (h : host) :
  let final := EnvUtils.load_environment rt env_id env_dir_path env_args h in
  fs (snd final) = fs h /\
  (events (snd final) = events h \/
   events (snd final) = Entered "_load_ts_environment" :: events h) /\
  (forall w, fst final = Ret (Bridged w) -> _compiled_path w = None).
Proof.
  cbv zeta. unfold EnvUtils.load_environment, try_except.
  pose proof (load_native_fs rt env_id env_args h) as Hfs.
  pose proof (load_native_events rt env_id env_args h) as Hev.
  assert (Hnative : forall w,
            fst (EnvUtils.load_native rt env_id env_args h) <> Ret (Bridged w)).
  { intros w. unfold EnvUtils.load_native. rewrite bind_run.
    destruct (EnvUtils.import rt _ h) as [[module|e] h1]; [|discriminate].
    destruct (load_environment_attr module) as [f|]; [|discriminate].
    destruct (signature_error f); [discriminate|].
    rewrite bind_lift. destruct (call_loader f env_args); discriminate. }
  destruct (EnvUtils.load_native rt env_id env_args h) as [[env|e0] h']; cbn [fst snd] in *.
  - split; [exact Hfs|]. split; [now left|]. intros w [= ->]. now destruct (Hnative w).
  - destruct (is_ImportError e0).
    + pose proof (on_import_error_events rt env_id env_dir_path env_args h') as Hev'.
      unfold EnvUtils.on_import_error in *. rewrite bind_run in *.
      pose proof (fallback_spec rt env_id env_dir_path env_args h') as (Hfs' & _ & Hfresh).
      cbv zeta in Hfs', Hfresh.
      destruct (EnvUtils._load_ts_environment rt env_id env_dir_path env_args h')
        as [[[[ts_env_id ts_env_path ts_env_args compiled]|]|e1] h''];
        cbn [fst snd raise ret] in *;
        (split; [congruence|]); (split; [right; congruence|]); try discriminate.
      intros w [= <-]. cbn [_compiled_path]. now apply (Hfresh _ eq_refl).
    + destruct (is_Exception e0); cbn [fst snd raise];
        (split; [exact Hfs|]); (split; [now left|]); discriminate.
Qed.

(** ** The name of the native module *)

Section ModuleName.

Import Text.

Lemma lacks_cons (c a : ascii) (r : string) :
  lacks c (String a r) <-> a <> c /\ lacks c r.
Proof.
  unfold lacks, find. cbn [find_from].
  destruct (Ascii.eqb_spec a c) as [->|Hne].
  - split; [discriminate|]. now intros [H _].
  - split.
    + intros H. split; [exact Hne|]. eapply find_from_absent; [| |exact H]; lia.
    + intros [_ H]. eapply find_from_absent; [| |exact H]; lia.
Qed.

Lemma lacks_empty (c : ascii) : lacks c "".
Proof. reflexivity. Qed.

Lemma lacks_rev_app (c : ascii) (s t : string) :
  lacks c s -> lacks c t -> lacks c (String.rev_app s t).
Proof.
  revert t. induction s as [|a r IH]; intros t Hs Ht; [exact Ht|].
  apply lacks_cons in Hs as [Ha Hr]. cbn [String.rev_app].
  apply IH; [exact Hr|]. apply lacks_cons. now split.
Qed.

Lemma replace_lacks (a b : ascii) (s : string) : a <> b -> lacks a (replace a b s).
Proof.
  intros Hab. induction s as [|c r IH]; [reflexivity|].
  cbn [replace]. apply lacks_cons. split; [|exact IH].
  destruct (Ascii.eqb_spec c a); congruence.
Qed.

Lemma replace_absent (a b : ascii) (s : string) : lacks a s -> replace a b s = s.
Proof.
  induction s as [|c r IH]; [reflexivity|].
  intros [Hc Hr]%lacks_cons. cbn [replace]. rewrite (IH Hr).
  destruct (Ascii.eqb_spec c a); congruence.
Qed.

(** The pieces of a split hold no separator, and no character that the
    text does not hold. *)
Lemma split_go_lacks (c sep : ascii) (s cur : string) :
  c = sep \/ lacks c s ->
  lacks c (String.rev cur) ->
  Forall (lacks c) (split_go sep s cur).
Proof.
  revert cur. induction s as [|a r IH]; intros cur Hs Hcur; cbn [split_go].
  - constructor; [exact Hcur|constructor].
  - assert (Hr : c = sep \/ lacks c r).
    { destruct Hs as [H|H]; [now left|right]. now apply lacks_cons in H. }
    destruct (Ascii.eqb_spec a sep) as [->|Hne].
    + constructor; [exact Hcur|]. apply IH; [exact Hr|apply lacks_empty].
    + apply IH; [exact Hr|].
      unfold String.rev in *. cbn [String.rev_app].
      apply lacks_rev_app.
      * clear -Hcur. revert Hcur. generalize (@EmptyString).
        induction cur as [|x cur IH]; intros t; [intros _; reflexivity|].
        cbn [String.rev_app]. intros H. apply lacks_cons.
        assert (Hx : lacks c (String x t) -> x <> c) by (now intros [? _]%lacks_cons).
        assert (Hall : forall u v, lacks c (String.rev_app u v) -> lacks c u /\ lacks c v).
        { clear. induction u as [|y u IHu]; intros v Hv; [split; [reflexivity|exact Hv]|].
          cbn [String.rev_app] in Hv. destruct (IHu _ Hv) as [Hu [Hy Hv']%lacks_cons].
          split; [apply lacks_cons; now split|exact Hv']. }
        destruct (Hall _ _ H) as [Hcur' [Hxc _]%lacks_cons].
        split; [exact Hxc|exact Hcur'].
      * apply lacks_cons. split; [|apply lacks_empty].
        destruct Hs as [->|H]; [exact Hne|]. now apply lacks_cons in H.
Qed.

Lemma split_go_whole (sep : ascii) (s cur : string) :
  lacks sep s -> split_go sep s cur = [String.rev_app cur s].
Proof.
  revert cur. induction s as [|a r IH]; intros cur; [reflexivity|].
  intros [Ha Hr]%lacks_cons. cbn [split_go].
  destruct (Ascii.eqb_spec a sep); [contradiction|]. now rewrite IH.
Qed.

Lemma last_Forall {A} (P : A -> Prop) (l : list A) (d : A) :
  Forall P l -> P d -> P (List.last l d).
Proof.
  intros Hl Hd. induction Hl as [|x l Hx Hl IH]; [exact Hd|].
  destruct l; [exact Hx|exact IH].
Qed.

End ModuleName.

(** X24.  The name under which [load_environment] imports the native module
    holds neither a hyphen nor a slash, whatever the identifier; and an
    identifier that holds neither is its own module name. *)
Theorem the_module_name_is_plain (env_id : string) :
  lacks "-" (EnvUtils.module_name env_id) /\
  lacks "/" (EnvUtils.module_name env_id) /\
  (lacks "-" env_id /\ lacks "/" env_id -> EnvUtils.module_name env_id = env_id).
Proof.
  unfold EnvUtils.module_name, Text.split. split; [|split].
  - apply last_Forall; [|reflexivity].
    apply split_go_lacks; [right; now apply replace_lacks|reflexivity].
  - apply last_Forall; [|reflexivity].
    apply split_go_lacks; [now left|reflexivity].
  - intros [Hh Hs]. rewrite (replace_absent _ _ _ Hh).
    now rewrite (split_go_whole _ _ _ Hs).
Qed.

(** ** The replacement of sanitize_tool_calls *)

Lemma dump_tool_calls_strings (rt : runtime) (items dumped : list pyval) :
  traverse (dump_tool_call rt) items = inr dumped ->
  exists strings, dumped = map PStr strings /\ length strings = length items.
Proof.
  revert dumped. induction items as [|tc r IH]; intros dumped; cbn [traverse and_then].
  - intros [= <-]. now exists [].
  - unfold dump_tool_call at 1.
    destruct (json_dumps rt _) as [e|s]; [discriminate|]. cbn [and_then].
    destruct (traverse (dump_tool_call rt) r) as [e|ds]; [discriminate|]. cbn [and_then].
    intros [= <-]. destruct (IH ds eq_refl) as (strings & -> & Hlen).
    exists (s :: strings). split; [reflexivity|]. cbn [length]. now rewrite Hlen.
Qed.

Lemma sanitize_message_spec (rt : runtime) (other : pyval -> pyexc + pyval) (m r : pyval) :
  sanitize_message rt other m = inr r -> sanitized_from other m r.
Proof.
  destruct m as [| | | | | | |d|]; cbn [sanitize_message sanitized_from]; try (intros H; exact H).
  destruct (Py.get "tool_calls" d) as [tool_calls|]; [|now intros [= <-]].
  destruct (Py.get "role" d) as [role|]; [|discriminate]. cbn [and_then].
  destruct (iterate tool_calls) as [e|items]; [discriminate|]. cbn [and_then].
  destruct (traverse (dump_tool_call rt) items) as [e|dumped] eqn:Hd; [discriminate|].
  cbn [and_then]. intros [= <-].
  destruct (dump_tool_calls_strings rt items dumped Hd) as (strings & -> & Hlen).
  exists role, items, strings. auto.
Qed.

(** X25.  What [patched_sanitize_tool_calls] returns for a list of messages: as
    many messages, in the same order; a dictionary without [tool_calls] as
    it was; a dictionary with [tool_calls] reduced to its role, its
    content and its tool calls, each tool call now a string and none
    added or lost.  The other fields of such a message are dropped. *)
Theorem sanitized_messages_keep_three_fields (rt : runtime)
  (other : pyval -> pyexc + pyval) (msgs : list pyval) (result : pyval) :
  patched_sanitize_tool_calls rt other (PList msgs) = inr result ->
  exists out, result = PList out /\ Forall2 (sanitized_from other) msgs out.
Proof.
  cbn [patched_sanitize_tool_calls].
  destruct (traverse (sanitize_message rt other) msgs) as [e|out] eqn:Htr; [discriminate|].
  cbn [and_then]. intros [= <-]. exists out. split; [reflexivity|].
  eapply traverse_related; [|exact Htr]. apply sanitize_message_spec.
Qed.

Lemma sanitized_messages_keep_three_fields_witness :
  exists out,
    PList [ PDict [("role", PStr "user"); ("content", PStr "hi")];
            PDict [ ("role", PStr "assistant"); ("content", PStr "");
                    ("tool_calls", PList [PStr (Text.q "{'id': 'call_1'}")]) ] ] = PList out /\
    Forall2 (sanitized_from inr)
      [ PDict [("role", PStr "user"); ("content", PStr "hi")];
        PDict [ ("role", PStr "assistant"); ("tool_calls", PList [PDict [("id", PStr "call_1")]]);
                ("name", PStr "helper") ] ]
      out.
Proof.
  refine (sanitized_messages_keep_three_fields (Cases.plain "") inr _ _ _).
  vm_compute; reflexivity.
Defined.

(** ** The entry points of the bridge and of the example *)

Lemma get_without_same (k : string) (d : dict) : Py.get k (without k d) = None.
Proof.
  unfold without. induction d as [|[k' v] r IH]; [reflexivity|].
  cbn [List.filter fst]. destruct (String.eqb k' k) eqn:E; cbn [negb]; [exact IH|].
  cbn [Py.get]. now rewrite E.
Qed.

Lemma get_without_other (k k' : string) (d : dict) :
  k' <> k -> Py.get k' (without k d) = Py.get k' d.
Proof.
  intros Hne. unfold without. induction d as [|[k0 v] r IH]; [reflexivity|].
  cbn [List.filter fst Py.get].
  destruct (String.eqb_spec k0 k) as [->|Hk]; cbn [negb].
  - rewrite IH. destruct (String.eqb_spec k k'); congruence.
  - cbn [Py.get]. now rewrite IH.
Qed.

Lemma load_ts_environment_returns (id dir : string) (args : dict) (h : host)
  (w : TSEnvironmentWrapper) :
  fst (load_ts_environment id dir args h) = Ret w ->
  w = Wrapper id (Os.joinpath dir id) args None.
Proof.
  unfold load_ts_environment. rewrite bind_get.
  destruct (negb _); [discriminate|]. destruct (_ && _); [discriminate|].
  now intros [= <-].
Qed.

(** X26.  [load_environment] of the bridge takes the search root out of the
    arguments.  The wrapper it returns has the identifier; an entry
    [env_dir_path] of the keyword arguments is the root of its directory
    and is not among its arguments, all other entries are; without such an
    entry the root is [./environments]. *)
Theorem env_dir_path_is_taken_out_of_the_arguments (fspath : pyval -> pyexc + string)
  (id : string) (given_args : dict) (h : host) (w : TSEnvironmentWrapper) :
  fst (bridge_load_environment fspath id given_args h) = Ret w ->
  env_id w = id /\
  _compiled_path w = None /\
  Py.get "env_dir_path" (env_args w) = None /\
  (forall k, k <> "env_dir_path" -> Py.get k (env_args w) = Py.get k given_args) /\
  match Py.get "env_dir_path" given_args with
  | None => env_path w = Os.joinpath "./environments" id /\ env_args w = given_args
  | Some (PStr d) => env_path w = Os.joinpath d id
  | Some v => exists d, fspath v = inr d /\ env_path w = Os.joinpath d id
  end.
Proof.
  unfold bridge_load_environment.
  destruct (Py.get "env_dir_path" given_args) as [v|] eqn:Hget.
  - assert (Hload : forall d,
              fst (load_ts_environment id d (without "env_dir_path" given_args) h) = Ret w ->
              env_id w = id /\ _compiled_path w = None /\
              Py.get "env_dir_path" (env_args w) = None /\
              (forall k, k <> "env_dir_path" -> Py.get k (env_args w) = Py.get k given_args) /\
              env_path w = Os.joinpath d id).
    { intros d ->%load_ts_environment_returns. cbn [env_id _compiled_path env_args env_path].
      split; [reflexivity|]. split; [reflexivity|]. split; [apply get_without_same|].
      split; [|reflexivity]. intros k Hk. now apply get_without_other. }
    destruct v;
      try (rewrite bind_lift; destruct (fspath _) as [e|d] eqn:Hpath; [discriminate|];
           intros H; destruct (Hload d H) as (H1 & H2 & H3 & H4 & H5); eauto 10).
    intros H. destruct (Hload s H) as (H1 & H2 & H3 & H4 & H5). auto.
  - intros ->%load_ts_environment_returns. cbn [env_id _compiled_path env_args env_path].
    split; [reflexivity|]. split; [reflexivity|]. split; [exact Hget|].
    split; [reflexivity|]. split; reflexivity.
Qed.

Lemma env_dir_path_is_taken_out_of_the_arguments_witness :
  let w := Wrapper "demo" "/envs/demo" [("split", PStr "test")] None in
  env_id w = "demo" /\
  _compiled_path w = None /\
  Py.get "env_dir_path" (env_args w) = None /\
  (forall k, k <> "env_dir_path" ->
     Py.get k (env_args w) = Py.get k [("env_dir_path", PStr "/envs"); ("split", PStr "test")]) /\
  env_path w = Os.joinpath "/envs" "demo".
Proof.
  cbv zeta.
  refine (env_dir_path_is_taken_out_of_the_arguments (fun _ => inr "")
            "demo" [("env_dir_path", PStr "/envs"); ("split", PStr "test")]
            Scenario.installed _ _).
  vm_compute; reflexivity.
Defined.

Section Paths.

Lemma rev_app_app (a b acc : string) :
  String.rev_app (a +:+ b) acc = String.rev_app b (String.rev_app a acc).
Proof.
  revert acc. induction a as [|x a IH]; intros acc; [reflexivity|].
  change (String x a +:+ b) with (String x (a +:+ b)). cbn [String.rev_app]. apply IH.
Qed.

Lemma rev_app_rev_app (s t u : string) :
  String.rev_app (String.rev_app s t) u = String.rev_app t (s +:+ u).
Proof.
  revert t. induction s as [|x s IH]; intros t; [reflexivity|].
  cbn [String.rev_app]. rewrite IH. reflexivity.
Qed.

Lemma append_empty_r (s : string) : s +:+ "" = s.
Proof.
  induction s as [|x s IH]; [reflexivity|].
  change (String x s +:+ "") with (String x (s +:+ "")). now rewrite IH.
Qed.

Lemma rev_rev (s : string) : String.rev (String.rev s) = s.
Proof. unfold String.rev. rewrite rev_app_rev_app. apply append_empty_r. Qed.

Lemma drop_last_component_cons (a : ascii) (r : string) :
  Os.drop_last_component (String a r) =
    if Ascii.eqb a "/" then Some r else Os.drop_last_component r.
Proof. destruct a as [[] [] [] [] [] [] [] []]; reflexivity. Qed.

Lemma drop_last_component_app (u t : string) :
  lacks "/" u -> Os.drop_last_component (u +:+ String "/" t) = Some t.
Proof.
  induction u as [|x u IH].
  - intros _. change ("" +:+ String "/" t) with (String "/" t).
    now rewrite drop_last_component_cons.
  - intros [Hx Hu]%lacks_cons.
    change (String x u +:+ String "/" t) with (String x (u +:+ String "/" t)).
    rewrite drop_last_component_cons.
    destruct (Ascii.eqb_spec x "/"); [contradiction|]. now apply IH.
Qed.

Lemma drop_last_component_rev_app (b u t : string) :
  lacks "/" b -> lacks "/" u ->
  Os.drop_last_component (String.rev_app b (u +:+ String "/" t)) = Some t.
Proof.
  revert u. induction b as [|x b IH]; intros u Hb Hu.
  - now apply drop_last_component_app.
  - apply lacks_cons in Hb as [Hx Hb]. cbn [String.rev_app].
    change (String x (u +:+ String "/" t)) with (String x u +:+ String "/" t).
    apply IH; [exact Hb|]. apply lacks_cons. now split.
Qed.

(** The parent of [a/b] is [a], for a name [b] without a slash. *)
Lemma parent_joinpath (a b : string) :
  Text.nonempty a = true -> lacks "/" b -> Os.parent (Os.joinpath a b) = a.
Proof.
  intros Ha Hb. unfold Os.parent, Os.joinpath, String.rev.
  change ("/" +:+ b) with (String "/" b).
  rewrite rev_app_app. cbn [String.rev_app].
  change (String "/" (String.rev_app a "")) with ("" +:+ String "/" (String.rev_app a "")).
  rewrite drop_last_component_rev_app by (exact Hb || reflexivity).
  destruct (String.rev_app a "") as [|x r] eqn:Hrev.
  - pose proof (rev_rev a) as H. unfold String.rev in H. rewrite Hrev in H.
    cbn in H. subst a. discriminate.
  - rewrite <- Hrev. fold (String.rev a). fold (String.rev (String.rev a)). apply rev_rev.
Qed.

End Paths.

(** X27.  The example loads the directory of its own file.  For a module file
    [example_generate_text_agent.py] in a directory
    [example-generate-text-agent] under [root], [load_environment] of the
    example is [load_ts_environment] for the root [root], so that a
    wrapper it returns points at the directory of the file and carries the
    keyword arguments; keyword arguments named [env_id] or [env_dir_path]
    make it raise [TypeError] instead, without a look at the host. *)
Theorem the_example_loads_the_directory_of_its_file (root : string) (kwargs : dict)
  (h : host) :
  let env_dir := Os.joinpath root Example.env_id in
  let file := Os.joinpath env_dir "example_generate_text_agent.py" in
  Text.nonempty root = true ->
  Example.load_environment file kwargs h =
    match repeated ["env_id"; "env_dir_path"] kwargs with
    | Some k => (Raise (multiple_values "load_ts_environment" k), h)
    | None => load_ts_environment Example.env_id root kwargs h
    end /\
  forall w,
    fst (Example.load_environment file kwargs h) = Ret w ->
    env_path w = Os.parent file /\ env_args w = kwargs /\ _compiled_path w = None.
Proof.
  cbv zeta. intros Hroot.
  assert (Hdir : Os.parent (Os.joinpath (Os.joinpath root Example.env_id)
                              "example_generate_text_agent.py")
                 = Os.joinpath root Example.env_id).
  { apply parent_joinpath; [|reflexivity]. unfold Os.joinpath. now destruct root. }
  assert (Hparent : Os.parent (Os.joinpath root Example.env_id) = root).
  { apply parent_joinpath; [exact Hroot|reflexivity]. }
  assert (Heq : Example.load_environment
                  (Os.joinpath (Os.joinpath root Example.env_id)
                     "example_generate_text_agent.py") kwargs h =
                match repeated ["env_id"; "env_dir_path"] kwargs with
                | Some k => (Raise (multiple_values "load_ts_environment" k), h)
                | None => load_ts_environment Example.env_id root kwargs h
                end).
  { unfold Example.load_environment. cbv zeta. rewrite Hdir, Hparent.
    now destruct (repeated _ kwargs). }
  split; [exact Heq|].
  intros w. rewrite Heq, Hdir.
  destruct (repeated _ kwargs); [discriminate|].
  now intros ->%load_ts_environment_returns.
Qed.

Lemma the_example_loads_the_directory_of_its_file_witness :
  fst (Example.load_environment
         "/repo/environments/example-generate-text-agent/example_generate_text_agent.py"
         [("max_turns", PInt 3)] Cases.example_installed)
    = Ret (Wrapper "example-generate-text-agent"
             "/repo/environments/example-generate-text-agent" [("max_turns", PInt 3)] None).
Proof.
  refine (eq_trans
            (f_equal fst
               (proj1 (the_example_loads_the_directory_of_its_file "/repo/environments"
                         [("max_turns", PInt 3)] Cases.example_installed eq_refl)))
            _).
  vm_compute; reflexivity.
Defined.

(** ** The sandbox bridge *)

(** X28.  A malformed request is refused before the library is looked at.
    Whether or not [prime_sandboxes] is installed and whatever its client
    would do, [handle_command] raises [ValueError] for a request whose
    method is none of [create], [execute] and [delete], for an [execute]
    request without a sandbox identifier or without a command, and for a
    [delete] request without a sandbox identifier; a value that is [None],
    empty or otherwise false counts as missing. *)
Theorem malformed_requests_are_refused (rt : runtime)
  (library : option SandboxBridge.prime_sandboxes) (c : dict) :
  let method := default PNone (Py.get "method" c) in
  let sandbox_id := default PNone (Py.get "sandbox_id" c) in
  let cmd := default PNone (Py.get "command" c) in
  (SandboxBridge.is_method "create" method = false /\
   SandboxBridge.is_method "execute" method = false /\
   SandboxBridge.is_method "delete" method = false) \/
  (SandboxBridge.is_method "execute" method = true /\
   (Py.truthy sandbox_id = false \/ Py.truthy cmd = false)) \/
  (SandboxBridge.is_method "delete" method = true /\ Py.truthy sandbox_id = false) ->
  exists e,
    SandboxBridge.handle_command rt library (PDict c) = inl e /\
    exc_class_of e = ValueError.
Proof.
  cbv zeta. unfold SandboxBridge.handle_command.
  intros [(H1 & H2 & H3)|[(H & Hmissing)|(H & Hmissing)]].
  - rewrite H1, H2, H3. eauto.
  - assert (Hc : SandboxBridge.is_method "create" (default PNone (Py.get "method" c)) = false).
    { destruct (default PNone (Py.get "method" c)); try reflexivity.
      cbn [SandboxBridge.is_method] in *. apply String.eqb_eq in H. now subst. }
    rewrite Hc, H. destruct Hmissing as [-> | ->]; cbn [negb orb]; [eauto|].
    rewrite orb_true_r. eauto.
  - assert (Hc : SandboxBridge.is_method "create" (default PNone (Py.get "method" c)) = false
                 /\ SandboxBridge.is_method "execute" (default PNone (Py.get "method" c)) = false).
    { destruct (default PNone (Py.get "method" c)); try (now split).
      cbn [SandboxBridge.is_method] in *. apply String.eqb_eq in H. now subst. }
    destruct Hc as [-> ->]. rewrite H, Hmissing. cbn [negb]. eauto.
Qed.

Lemma malformed_requests_are_refused_witness :
  (exists e,
     SandboxBridge.handle_command (Cases.plain "") None
       (PDict [("method", PStr "restart")]) = inl e /\
     exc_class_of e = ValueError) /\
  (exists e,
     SandboxBridge.handle_command (Cases.plain "") (Some Cases.sandboxes)
       (PDict [("method", PStr "execute"); ("sandbox_id", PStr "sbx-1"); ("command", PStr "")])
       = inl e /\
     exc_class_of e = ValueError).
Proof.
  split.
  - refine (malformed_requests_are_refused (Cases.plain "") None
              [("method", PStr "restart")] _).
    left. repeat split.
  - refine (malformed_requests_are_refused (Cases.plain "") (Some Cases.sandboxes)
              [("method", PStr "execute"); ("sandbox_id", PStr "sbx-1"); ("command", PStr "")]
              _).
    right. left. split; [reflexivity|]. right. reflexivity.
Defined.

(** X29.  The script answers on one channel.  When [main] ends, it ends with
    status 0 or 1.  With status 0 it has written nothing to the error
    channel and one line to the output, the encoding of what
    [handle_command] returned for the decoded input.  With status 1 it has
    written nothing to the output and one line to the error channel, the
    encoding of the message and the class name of the exception that
    stopped it. *)
Theorem main_answers_on_one_channel (rt : runtime)
  (library : option SandboxBridge.prime_sandboxes) (decode_error_text : string -> string)
  (input_data : string) (outcome : SandboxBridge.finished) :
  SandboxBridge.main rt library decode_error_text input_data = inr outcome ->
  (exists command result line,
     Json.loads (parse_float rt) input_data = Some command /\
     SandboxBridge.handle_command rt library command = inr result /\
     json_dumps rt (PDict result) = inr line /\
     outcome = SandboxBridge.Finished 0 (line +:+ Text.nl) "") \/
  (exists e line,
     SandboxBridge.respond rt library decode_error_text input_data = inl e /\
     is_Exception e = true /\
     json_dumps rt
       (PDict [ ("error", PStr (exc_str e));
                ("error_type", PStr (class_name (exc_class_of e))) ]) = inr line /\
     outcome = SandboxBridge.Finished 1 "" (line +:+ Text.nl)).
Proof.
  unfold SandboxBridge.main.
  destruct (SandboxBridge.respond rt library decode_error_text input_data) as [e|line] eqn:Hr.
  - destruct (is_Exception e) eqn:He; [|discriminate].
    unfold SandboxBridge.error_data.
    destruct (json_dumps rt _) as [e'|line] eqn:Hd; [discriminate|].
    cbn [and_then]. intros [= <-]. right. exists e, line. auto.
  - intros [= <-]. left. unfold SandboxBridge.respond in Hr.
    destruct (negb _); [discriminate|].
    destruct (Json.loads _ _) as [command|]; [|discriminate].
    destruct (SandboxBridge.handle_command rt library command) as [e|result] eqn:Hh;
      [discriminate|].
    cbn [and_then] in Hr. exists command, result, line. auto.
Qed.

Lemma main_answers_on_one_channel_witness :
  let run := SandboxBridge.main (Cases.plain "") (Some Cases.sandboxes) (fun _ => "Expecting value") in
  run (Text.q "{'method': 'delete', 'sandbox_id': 'sbx-1'}")
    = inr (SandboxBridge.Finished 0 (Text.q "{'success': true}" +:+ Text.nl) "") /\
  run (Text.q "{'method': 'delete'}")
    = inr (SandboxBridge.Finished 1 ""
             (Text.q "{'error': 'sandbox_id is required for delete method', 'error_type': 'ValueError'}"
              +:+ Text.nl)).
Proof.
  cbv zeta. split.
  - destruct (main_answers_on_one_channel (Cases.plain "") (Some Cases.sandboxes)
                (fun _ => "Expecting value")
                (Text.q "{'method': 'delete', 'sandbox_id': 'sbx-1'}")
                (SandboxBridge.Finished 0 (Text.q "{'success': true}" +:+ Text.nl) ""))
      as [_|_]; vm_compute; reflexivity.
  - destruct (main_answers_on_one_channel (Cases.plain "") (Some Cases.sandboxes)
                (fun _ => "Expecting value")
                (Text.q "{'method': 'delete'}")
                (SandboxBridge.Finished 1 ""
                   (Text.q "{'error': 'sandbox_id is required for delete method', 'error_type': 'ValueError'}"
                    +:+ Text.nl)))
      as [_|_]; vm_compute; reflexivity.
Defined.
